(** * baihu-panel: agent lifecycle and task-dispatch protocol

    A shallow embedding of the agent model ([internal/models/agent.go]), of
    the agent service, the task-log service and the runtime service, whose Go
    sources the repository carries in [web/src/router/index.ts] after the
    router of the web client (lines 56 to 433, 434 to 643 and 644 to 715), of
    the conda manager ([internal/services/deps_env/conda_service.go]) and of
    the handlers of [internal/controllers/agent_controller.go], followed by
    the properties of the protocol proved over that embedding. *)

From Stdlib Require Import ZArith NArith Lia Ascii String.
From stdpp Require Import base tactics option list sorting strings gmap.

Local Open Scope string_scope.
Local Open Scope Z_scope.

(** ** Go library functions used by the controller *)

(** [strings.CutPrefix]: the rest of [s] after the prefix [p], if [s] starts
    with it. *)
Fixpoint CutPrefix (s p : string) {struct p} : option string :=
  match p with
  | EmptyString => Some s
  | String a p' =>
      match s with
      | EmptyString => None
      | String b s' => if Ascii.eqb a b then CutPrefix s' p' else None
      end
  end.

(** [strings.Cut]: split [s] around the first occurrence of [sep]. *)
Fixpoint Cut (s sep : string) : option (string * string) :=
  match CutPrefix s sep with
  | Some after => Some ("", after)
  | None =>
      match s with
      | EmptyString => None
      | String c s' =>
          match Cut s' sep with
          | Some (before, after) => Some (String c before, after)
          | None => None
          end
      end
  end.

(** [strings.SplitN(s, sep, n)] for a non-empty separator and [n >= 0]: at most
    [n] pieces, the last one being the unsplit remainder; [n = 0] yields no
    piece. *)
Fixpoint SplitN (s sep : string) (n : nat) : list string :=
  match n with
  | O => []
  | S O => [s]
  | S n' =>
      match Cut s sep with
      | Some (before, after) => before :: SplitN after sep n'
      | None => [s]
      end
  end.

(** [hex.EncodeToString]. *)
Definition hex_digit (n : N) : ascii :=
  match n with
  | 0 => "0" | 1 => "1" | 2 => "2" | 3 => "3" | 4 => "4" | 5 => "5" | 6 => "6"
  | 7 => "7" | 8 => "8" | 9 => "9" | 10 => "a" | 11 => "b" | 12 => "c"
  | 13 => "d" | 14 => "e" | _ => "f"
  end%N%char.

Fixpoint EncodeToString (src : list Byte.byte) : string :=
  match src with
  | [] => ""
  | b :: rest =>
      let n := Byte.to_N b in
      String (hex_digit (n / 16)) (String (hex_digit (n mod 16)) (EncodeToString rest))
  end.

(** ** Data model ([internal/models/agent.go]) *)

(** [models.LocalTime]: seconds on the controller's clock. *)
Definition LocalTime := Z.

Record Agent := mkAgent {
  ID : N;
  Name : string;
  Token : string;
  Description : string;
  Status : string;
  LastSeen : option LocalTime;
  IP : string;
  Version : string;
  BuildTime : string;
  Hostname : string;
  OS : string;
  Arch : string;
  ForceUpdate : bool;
  Enabled : bool;
  CreatedAt : LocalTime;
  UpdatedAt : LocalTime
}.

Record AgentTask := mkAgentTask {
  at_ID : N;
  at_Name : string;
  at_Command : string;
  at_Schedule : string;
  at_Timeout : Z;
  at_WorkDir : string;
  at_Envs : string;
  at_Enabled : bool
}.

Record AgentTaskResult := mkAgentTaskResult {
  r_TaskID : N;
  r_AgentID : N;
  r_Command : string;
  r_Output : string;
  r_Status : string;
  r_Duration : Z;
  r_ExitCode : Z;
  r_StartTime : Z;
  r_EndTime : Z
}.

Record AgentRegisterRequest := mkAgentRegisterRequest {
  rq_Name : string;
  rq_Hostname : string;
  rq_Version : string
}.

#[global] Instance Agent_eq_dec : EqDecision Agent.
Proof. solve_decision. Defined.
#[global] Instance AgentTask_eq_dec : EqDecision AgentTask.
Proof. solve_decision. Defined.

(** Field assignment on an agent row ([agent.F = v]). *)
Definition set_Name v (a : Agent) : Agent :=
  {| ID := ID a; Name := v; Token := Token a; Description := Description a;
     Status := Status a; LastSeen := LastSeen a; IP := IP a; Version := Version a;
     BuildTime := BuildTime a; Hostname := Hostname a; OS := OS a; Arch := Arch a;
     ForceUpdate := ForceUpdate a; Enabled := Enabled a; CreatedAt := CreatedAt a;
     UpdatedAt := UpdatedAt a |}.
Definition set_Token v (a : Agent) : Agent :=
  {| ID := ID a; Name := Name a; Token := v; Description := Description a;
     Status := Status a; LastSeen := LastSeen a; IP := IP a; Version := Version a;
     BuildTime := BuildTime a; Hostname := Hostname a; OS := OS a; Arch := Arch a;
     ForceUpdate := ForceUpdate a; Enabled := Enabled a; CreatedAt := CreatedAt a;
     UpdatedAt := UpdatedAt a |}.
Definition set_Description v (a : Agent) : Agent :=
  {| ID := ID a; Name := Name a; Token := Token a; Description := v; Status := Status a;
     LastSeen := LastSeen a; IP := IP a; Version := Version a; BuildTime := BuildTime a;
     Hostname := Hostname a; OS := OS a; Arch := Arch a; ForceUpdate := ForceUpdate a;
     Enabled := Enabled a; CreatedAt := CreatedAt a; UpdatedAt := UpdatedAt a |}.
Definition set_Status v (a : Agent) : Agent :=
  {| ID := ID a; Name := Name a; Token := Token a; Description := Description a;
     Status := v; LastSeen := LastSeen a; IP := IP a; Version := Version a;
     BuildTime := BuildTime a; Hostname := Hostname a; OS := OS a; Arch := Arch a;
     ForceUpdate := ForceUpdate a; Enabled := Enabled a; CreatedAt := CreatedAt a;
     UpdatedAt := UpdatedAt a |}.
Definition set_LastSeen v (a : Agent) : Agent :=
  {| ID := ID a; Name := Name a; Token := Token a; Description := Description a;
     Status := Status a; LastSeen := v; IP := IP a; Version := Version a;
     BuildTime := BuildTime a; Hostname := Hostname a; OS := OS a; Arch := Arch a;
     ForceUpdate := ForceUpdate a; Enabled := Enabled a; CreatedAt := CreatedAt a;
     UpdatedAt := UpdatedAt a |}.
Definition set_IP v (a : Agent) : Agent :=
  {| ID := ID a; Name := Name a; Token := Token a; Description := Description a;
     Status := Status a; LastSeen := LastSeen a; IP := v; Version := Version a;
     BuildTime := BuildTime a; Hostname := Hostname a; OS := OS a; Arch := Arch a;
     ForceUpdate := ForceUpdate a; Enabled := Enabled a; CreatedAt := CreatedAt a;
     UpdatedAt := UpdatedAt a |}.
Definition set_Version v (a : Agent) : Agent :=
  {| ID := ID a; Name := Name a; Token := Token a; Description := Description a;
     Status := Status a; LastSeen := LastSeen a; IP := IP a; Version := v;
     BuildTime := BuildTime a; Hostname := Hostname a; OS := OS a; Arch := Arch a;
     ForceUpdate := ForceUpdate a; Enabled := Enabled a; CreatedAt := CreatedAt a;
     UpdatedAt := UpdatedAt a |}.
Definition set_BuildTime v (a : Agent) : Agent :=
  {| ID := ID a; Name := Name a; Token := Token a; Description := Description a;
     Status := Status a; LastSeen := LastSeen a; IP := IP a; Version := Version a;
     BuildTime := v; Hostname := Hostname a; OS := OS a; Arch := Arch a;
     ForceUpdate := ForceUpdate a; Enabled := Enabled a; CreatedAt := CreatedAt a;
     UpdatedAt := UpdatedAt a |}.
Definition set_Hostname v (a : Agent) : Agent :=
  {| ID := ID a; Name := Name a; Token := Token a; Description := Description a;
     Status := Status a; LastSeen := LastSeen a; IP := IP a; Version := Version a;
     BuildTime := BuildTime a; Hostname := v; OS := OS a; Arch := Arch a;
     ForceUpdate := ForceUpdate a; Enabled := Enabled a; CreatedAt := CreatedAt a;
     UpdatedAt := UpdatedAt a |}.
Definition set_OS v (a : Agent) : Agent :=
  {| ID := ID a; Name := Name a; Token := Token a; Description := Description a;
     Status := Status a; LastSeen := LastSeen a; IP := IP a; Version := Version a;
     BuildTime := BuildTime a; Hostname := Hostname a; OS := v; Arch := Arch a;
     ForceUpdate := ForceUpdate a; Enabled := Enabled a; CreatedAt := CreatedAt a;
     UpdatedAt := UpdatedAt a |}.
Definition set_Arch v (a : Agent) : Agent :=
  {| ID := ID a; Name := Name a; Token := Token a; Description := Description a;
     Status := Status a; LastSeen := LastSeen a; IP := IP a; Version := Version a;
     BuildTime := BuildTime a; Hostname := Hostname a; OS := OS a; Arch := v;
     ForceUpdate := ForceUpdate a; Enabled := Enabled a; CreatedAt := CreatedAt a;
     UpdatedAt := UpdatedAt a |}.
Definition set_ForceUpdate v (a : Agent) : Agent :=
  {| ID := ID a; Name := Name a; Token := Token a; Description := Description a;
     Status := Status a; LastSeen := LastSeen a; IP := IP a; Version := Version a;
     BuildTime := BuildTime a; Hostname := Hostname a; OS := OS a; Arch := Arch a;
     ForceUpdate := v; Enabled := Enabled a; CreatedAt := CreatedAt a;
     UpdatedAt := UpdatedAt a |}.
Definition set_Enabled v (a : Agent) : Agent :=
  {| ID := ID a; Name := Name a; Token := Token a; Description := Description a;
     Status := Status a; LastSeen := LastSeen a; IP := IP a; Version := Version a;
     BuildTime := BuildTime a; Hostname := Hostname a; OS := OS a; Arch := Arch a;
     ForceUpdate := ForceUpdate a; Enabled := v; CreatedAt := CreatedAt a;
     UpdatedAt := UpdatedAt a |}.

(** ** Tables

    The rows of a table are kept in primary-key order. *)

(** [UPDATE ... SET ... WHERE p]: every row satisfying [p] is rewritten by [f]. *)
Definition update_where {A} (p : A -> bool) (f : A -> A) (rows : list A) : list A :=
  List.map (fun r => if p r then f r else r) rows.

(** [DELETE ... WHERE p]. *)
Definition delete_where {A} (p : A -> bool) (rows : list A) : list A :=
  List.filter (fun r => negb (p r)) rows.

(** ** More of the Go library, as the services and the operator handlers use it *)

(** [strings.HasPrefix]. *)
Definition HasPrefix (s prefix : string) : bool :=
  match CutPrefix s prefix with
  | Some _ => true
  | None => false
  end.

(** [strings.HasSuffix]. *)
Fixpoint HasSuffix (s suffix : string) : bool :=
  String.eqb s suffix ||
  match s with
  | EmptyString => false
  | String _ s' => HasSuffix s' suffix
  end.

(** [strings.TrimSuffix]: [s] without the trailing [suffix], or [s] itself when
    it does not end with [suffix]. *)
Fixpoint TrimSuffix (s suffix : string) : string :=
  if String.eqb s suffix then ""
  else match s with
       | EmptyString => ""
       | String c s' => String c (TrimSuffix s' suffix)
       end.

(** [strings.Split(s, sep)] for a non-empty separator: [SplitN] without a bound
    on the number of pieces (there are at most [len(s) + 1]). *)
Definition Split (s sep : string) : list string := SplitN s sep (S (String.length s)).

(** The pieces of [s] around each occurrence of the byte [c]. *)
Fixpoint split_char (c : ascii) (s : string) : list string :=
  match s with
  | EmptyString => [""]
  | String a rest =>
      if Ascii.eqb a c then "" :: split_char c rest
      else match split_char c rest with
           | piece :: more => String a piece :: more
           | [] => [String a ""]
           end
  end.

(** The byte [c] does not occur in [s]. *)
Definition free_of (c : ascii) (s : string) : Prop :=
  Forall (fun a => a <> c) (list_ascii_of_string s).

(** [strings.Join]. *)
Fixpoint Join (elems : list string) (sep : string) : string :=
  match elems with
  | [] => ""
  | [e] => e
  | e :: rest => e ++ sep ++ Join rest sep
  end.

Definition byte_of (c : ascii) : N := N_of_ascii c.

(** The width in bytes of the white-space rune ([unicode.IsSpace]) encoded at
    the head of [s], and [0] when [s] does not start with one: the six ASCII
    spaces, U+0085, U+00A0, U+1680, U+2000..U+200A, U+2028, U+2029, U+202F,
    U+205F and U+3000 in UTF-8. *)
Definition space_width (s : string) : nat :=
  match s with
  | EmptyString => 0
  | String c0 rest =>
      let b0 := byte_of c0 in
      if ((9 <=? b0) && (b0 <=? 13) || (b0 =? 32))%N then 1
      else
        match rest with
        | EmptyString => 0
        | String c1 rest' =>
            let b1 := byte_of c1 in
            if ((b0 =? 194) && ((b1 =? 133) || (b1 =? 160)))%N then 2
            else
              match rest' with
              | EmptyString => 0
              | String c2 _ =>
                  let b2 := byte_of c2 in
                  if ((b0 =? 225) && (b1 =? 154) && (b2 =? 128)
                      || (b0 =? 226) && (b1 =? 128)
                         && ((128 <=? b2) && (b2 <=? 138) || (b2 =? 168) || (b2 =? 169)
                             || (b2 =? 175))
                      || (b0 =? 226) && (b1 =? 129) && (b2 =? 159)
                      || (b0 =? 227) && (b1 =? 128) && (b2 =? 128))%N
                  then 3
                  else 0
              end
        end
  end%nat.

(** One pass of [strings.Fields] from the head of [s]: the run of non-space
    bytes [s] starts with (empty when [s] starts with white space) and the
    fields after that run.  [skip] counts the bytes still to pass of a
    multi-byte white-space rune. *)
Fixpoint fields_from (s : string) (skip : nat) : string * list string :=
  match s with
  | EmptyString => ("", [])
  | String c rest =>
      let close skip' :=
        let (run, fs) := fields_from rest skip' in
        ("", if String.eqb run "" then fs else run :: fs) in
      match skip with
      | S skip' => close skip'
      | O =>
          match space_width s with
          | S w => close w
          | O => let (run, fs) := fields_from rest 0 in (String c run, fs)
          end
      end
  end.

(** [strings.Fields]: the maximal runs of non-space runes of [s]. *)
Definition Fields (s : string) : list string :=
  let (run, fs) := fields_from s 0 in
  if String.eqb run "" then fs else run :: fs.

(** The raw lines of [s]: the pieces between line feeds; a final piece that is
    not closed by a line feed counts when it is not empty. *)
Fixpoint raw_lines (s : string) : list string :=
  match s with
  | EmptyString => []
  | String c rest =>
      if Ascii.eqb c "010" then "" :: raw_lines rest
      else match raw_lines rest with
           | [] => [String c ""]
           | line :: more => String c line :: more
           end
  end.

(** [dropCR] of [bufio.ScanLines]: one trailing carriage return is removed. *)
Fixpoint dropCR (line : string) : string :=
  match line with
  | EmptyString => ""
  | String c rest =>
      if Ascii.eqb c "013" && String.eqb rest "" then "" else String c (dropCR rest)
  end.

(** [bufio.MaxScanTokenSize]. *)
Definition MaxScanTokenSize : N := 65536.

Fixpoint scannable (lines : list string) : list string :=
  match lines with
  | [] => []
  | line :: more =>
      if (N.of_nat (String.length line) <? MaxScanTokenSize)%N then line :: scannable more
      else []
  end.

(** The tokens of a [bufio.Scanner] over [strings.NewReader(s)] with the
    default split function and buffer: the lines of [s] without their line
    ending, up to the first line that does not fit the scanner's buffer (where
    [Scan] gives up). *)
Definition ScanLines (s : string) : list string :=
  List.map dropCR (scannable (raw_lines s)).

(** The value of a decimal digit. *)
Definition digit_value (c : ascii) : option N :=
  let b := byte_of c in
  if ((48 <=? b) && (b <=? 57))%N then Some (b - 48)%N else None.

Fixpoint parse_digits (s : string) (acc : N) (maxVal : N) : option N :=
  match s with
  | EmptyString => Some acc
  | String c rest =>
      match digit_value c with
      | None => None
      | Some d =>
          let n := (acc * 10 + d)%N in
          if (maxVal <? n)%N then None else parse_digits rest n maxVal
      end
  end.

(** [strconv.ParseUint(s, 10, bitSize)]: the value of a non-empty string of
    decimal digits that fits [bitSize] bits; [None] stands for the syntax and
    range errors. *)
Definition ParseUint (s : string) (bitSize : N) : option N :=
  match s with
  | EmptyString => None
  | _ => parse_digits s 0 (2 ^ bitSize - 1)%N
  end.

(** ** The agent service ([services.AgentService], [web/src/router/index.ts])

    The rows live in a database reached through GORM.  Its statements are
    modelled on tables kept in primary-key order.  The token column carries a
    unique index ([models.Agent]), so the database may reject a statement
    that writes it: such a statement takes the database's [Verdict] as an
    input.  Every other statement succeeds (I/O failures are left out), and
    the clock does not advance during a call. *)

(** The answer of the database to a statement: [None] when it is accepted,
    the text of the driver's error when it is rejected. *)
Definition Verdict := option string.

(** The [updated_at] column, which GORM sets on every update of a row. *)
Definition set_UpdatedAt v (a : Agent) : Agent :=
  {| ID := ID a; Name := Name a; Token := Token a; Description := Description a;
     Status := Status a; LastSeen := LastSeen a; IP := IP a; Version := Version a;
     BuildTime := BuildTime a; Hostname := Hostname a; OS := OS a; Arch := Arch a;
     ForceUpdate := ForceUpdate a; Enabled := Enabled a; CreatedAt := CreatedAt a;
     UpdatedAt := v |}.

Module models.

(** [models.Task] is declared outside the sources.  The fields are those the
    services use: the ones [GetTasks] copies, the columns [agent_id], [enabled]
    and [last_run] of their queries, and the clean configuration
    [CleanTaskLogs] reads. *)
Record Task := mkTask {
  tk_ID : N;
  tk_Name : string;
  tk_Command : string;
  tk_Schedule : string;
  tk_Timeout : Z;
  tk_WorkDir : string;
  tk_Envs : string;
  tk_Enabled : bool;
  tk_AgentID : option N;
  tk_CleanConfig : string;
  tk_LastRun : option LocalTime
}.

(** [models.TaskLog] is declared outside the sources.  The fields are those
    the services set when they create a log ([ReportResult], [CreateEmptyLog],
    [CreateTaskLogFromLocalExecution]), with the key and the [created_at]
    column of their queries. *)
Record TaskLog := mkTaskLog {
  tl_ID : N;
  tl_TaskID : N;
  tl_AgentID : option N;
  tl_Command : string;
  tl_Output : string;
  tl_Error : string;
  tl_Status : string;
  tl_Duration : Z;
  tl_ExitCode : Z;
  tl_StartTime : option LocalTime;
  tl_EndTime : option LocalTime;
  tl_CreatedAt : LocalTime
}.

End models.

(** [database.DB]: the agent table (the rows whose [deleted_at] is null, and
    the soft-deleted ones), the task and task-log tables, the next
    auto-increment keys, and the increments sent to the statistics service. *)
Record DB := mkDB {
  db_agents : list Agent;
  db_deleted_agents : list Agent;
  db_next_agent_id : N;
  db_tasks : list models.Task;
  db_task_logs : list models.TaskLog;
  db_next_log_id : N;
  db_stats : list (N * string)
}.

Definition with_agents (v : list Agent) (d : DB) : DB :=
  {| db_agents := v; db_deleted_agents := db_deleted_agents d;
     db_next_agent_id := db_next_agent_id d; db_tasks := db_tasks d;
     db_task_logs := db_task_logs d; db_next_log_id := db_next_log_id d;
     db_stats := db_stats d |}.

(** [WHERE id = ?]. *)
Definition id_is (id : N) (a : Agent) : bool := N.eqb (ID a) id.

(** [Model(&models.Agent{}).Where(p).Updates(f)]: the live rows satisfying [p]
    take the new column values and the time of the update. *)
Definition gorm_update (p : Agent -> bool) (f : Agent -> Agent) (now : LocalTime)
    (d : DB) : DB :=
  with_agents (update_where p (fun a => set_UpdatedAt now (f a)) (db_agents d)) d.

(** [Delete(&models.Agent{}, id)]: [models.Agent] carries a [gorm.DeletedAt], so
    the row is soft-deleted: it stays in the table and no query sees it. *)
Definition gorm_delete (id : N) (d : DB) : DB :=
  {| db_agents := delete_where (id_is id) (db_agents d);
     db_deleted_agents := db_deleted_agents d ++ List.filter (id_is id) (db_agents d);
     db_next_agent_id := db_next_agent_id d; db_tasks := db_tasks d;
     db_task_logs := db_task_logs d; db_next_log_id := db_next_log_id d;
     db_stats := db_stats d |}.

(** [Order("id DESC")]. *)
Definition newest_agent_first (a b : Agent) : Prop := (ID b <= ID a)%N.

#[global] Instance newest_agent_first_dec : RelDecision newest_agent_first.
Proof. intros a b. unfold newest_agent_first. apply _. Defined.

Module services.

(** [ServiceError]. *)
Record ServiceError := mkServiceError { Message : string }.

(** The [error] values the service returns: a [ServiceError] of its own, or
    the error of a database statement. *)
Inductive error :=
  | ServiceErr (e : ServiceError)
  | DatabaseErr (message : string).

(** The [Error] method. *)
Definition Error (e : error) : string :=
  match e with
  | ServiceErr e => Message e
  | DatabaseErr message => message
  end.

(** [&ServiceError{Message: msg}]. *)
Definition serviceError (msg : string) : error := ServiceErr (mkServiceError msg).

(** [generateToken]: 32 bytes read from [crypto/rand] into a zeroed buffer,
    hex-encoded; [rnd] is what the reader delivers. *)
Definition generateToken (rnd : list Byte.byte) : string :=
  EncodeToString (take 32 (rnd ++ replicate 32 Byte.x00)).

(** [GetByID]. *)
Definition GetByID (id : N) (d : DB) : option Agent :=
  List.find (id_is id) (db_agents d).

(** [GetByToken]. *)
Definition GetByToken (token : string) (d : DB) : option Agent :=
  List.find (fun a => String.eqb (Token a) token) (db_agents d).

(** [Register]: an agent enters the pending state.  A pending agent of the
    same name is refreshed in place; [Model(&existing).Updates] also writes the
    new values into [existing], which is returned. *)
Definition Register (req : AgentRegisterRequest) (ip : string) (now : LocalTime)
    (created : Verdict) (d : DB) : (error + Agent) * DB :=
  match List.find (fun a => String.eqb (Name a) (rq_Name req)
                            && String.eqb (Status a) "pending") (db_agents d) with
  | Some existing =>
      let updates a :=
        set_LastSeen (Some now)
          (set_IP ip (set_Version (rq_Version req) (set_Hostname (rq_Hostname req) a))) in
      (inr (set_UpdatedAt now (updates existing)),
       gorm_update (id_is (ID existing)) updates now d)
  | None =>
      let agent :=
        {| ID := db_next_agent_id d; Name := rq_Name req; Token := ""; Description := "";
           Status := "pending"; LastSeen := Some now; IP := ip;
           Version := rq_Version req; BuildTime := ""; Hostname := rq_Hostname req;
           OS := ""; Arch := ""; ForceUpdate := false; Enabled := true;
           CreatedAt := now; UpdatedAt := now |} in
      match created with
      | Some err => (inl (DatabaseErr err), d)
      | None =>
          (inr agent,
           {| db_agents := db_agents d ++ [agent];
              db_deleted_agents := db_deleted_agents d;
              db_next_agent_id := N.succ (db_next_agent_id d); db_tasks := db_tasks d;
              db_task_logs := db_task_logs d; db_next_log_id := db_next_log_id d;
              db_stats := db_stats d |})
      end
  end.

(** [Approve]: a pending agent is approved and receives a token. *)
Definition Approve (id : N) (now : LocalTime) (rnd : list Byte.byte)
    (updated : Verdict) (d : DB) : (error + Agent) * DB :=
  match GetByID id d with
  | None => (inl (serviceError "Agent 不存在"), d)
  | Some agent =>
      if negb (String.eqb (Status agent) "pending")
      then (inl (serviceError "Agent 状态不是待审核"), d)
      else
        let token := generateToken rnd in
        let updates a := set_LastSeen (Some now) (set_Status "online" (set_Token token a)) in
        match updated with
        | Some err => (inl (DatabaseErr err), d)
        | None =>
            (inr (set_UpdatedAt now (updates agent)),
             gorm_update (id_is (ID agent)) updates now d)
        end
  end.

(** [Reject]. *)
Definition Reject (id : N) (d : DB) : option error * DB :=
  (None, gorm_delete id d).

(** [Update]. *)
Definition Update (id : N) (name description : string) (enabled : bool)
    (now : LocalTime) (d : DB) : option error * DB :=
  (None,
   gorm_update (id_is id)
     (fun a => set_Enabled enabled (set_Description description (set_Name name a))) now d).

(** [Delete]: refused while a task refers to the agent. *)
Definition Delete (id : N) (d : DB) : option error * DB :=
  let count :=
    length (List.filter (fun t => match models.tk_AgentID t with
                                  | Some aid => N.eqb aid id
                                  | None => false
                                  end) (db_tasks d)) in
  if (0 <? count)%nat
  then (Some (serviceError "该 Agent 下还有关联任务，无法删除"), d)
  else (None, gorm_delete id d).

(** [List]: the approved agents, newest first. *)
Definition List_ (d : DB) : list Agent :=
  merge_sort newest_agent_first
    (List.filter (fun a => negb (String.eqb (Status a) "pending")) (db_agents d)).

(** [ListPending]: the agents waiting for approval, newest first. *)
Definition ListPending (d : DB) : list Agent :=
  merge_sort newest_agent_first
    (List.filter (fun a => String.eqb (Status a) "pending") (db_agents d)).

(** [RegenerateToken]. *)
Definition RegenerateToken (id : N) (now : LocalTime) (rnd : list Byte.byte)
    (updated : Verdict) (d : DB) : (error + string) * DB :=
  let newToken := generateToken rnd in
  match updated with
  | Some err => (inl (DatabaseErr err), d)
  | None => (inr newToken, gorm_update (id_is id) (set_Token newToken) now d)
  end.

(** The [updates] map of [Heartbeat], applied to a row. *)
Definition heartbeat_updates (ip version buildTime hostname osType arch : string)
    (now : LocalTime) (a : Agent) : Agent :=
  let a := set_IP ip (set_LastSeen (Some now) (set_Status "online" a)) in
  let a := if negb (String.eqb version "") then set_Version version a else a in
  let a := if negb (String.eqb buildTime "") then set_BuildTime buildTime a else a in
  let a := if negb (String.eqb hostname "") then set_Hostname hostname a else a in
  let a := if negb (String.eqb osType "") then set_OS osType a else a in
  if negb (String.eqb arch "") then set_Arch arch a else a.

(** [Heartbeat]. *)
Definition Heartbeat (token ip version buildTime hostname osType arch : string)
    (now : LocalTime) (d : DB) : (error + Agent) * DB :=
  match GetByToken token d with
  | None => (inl (serviceError "无效的 Token"), d)
  | Some agent =>
      if negb (Enabled agent) then (inl (serviceError "Agent 已禁用"), d)
      else
        let d' :=
          gorm_update (id_is (ID agent))
            (heartbeat_updates ip version buildTime hostname osType arch now) now d in
        let agent :=
          set_Arch arch
            (set_OS osType
               (set_Hostname hostname
                  (set_BuildTime buildTime
                     (set_Version version
                        (set_IP ip (set_LastSeen (Some now) (set_Status "online" agent))))))) in
        (inr agent, d')
  end.

(** [CheckPendingAgent]: the state of a registered agent, polled by the agent. *)
Definition CheckPendingAgent (name ip : string) (now : LocalTime)
    (d : DB) : (error + Agent) * DB :=
  match List.find (fun a => String.eqb (Name a) name && String.eqb (IP a) ip)
                  (db_agents d) with
  | None => (inl (serviceError "Agent 未注册"), d)
  | Some agent =>
      (inr (set_UpdatedAt now (set_LastSeen (Some now) agent)),
       gorm_update (id_is (ID agent)) (set_LastSeen (Some now)) now d)
  end.

(** [GetTasks]: the enabled tasks of an agent, as sent to it. *)
Definition GetTasks (agentID : N) (d : DB) : list AgentTask :=
  List.map
    (fun task =>
       {| at_ID := models.tk_ID task; at_Name := models.tk_Name task;
          at_Command := models.tk_Command task; at_Schedule := models.tk_Schedule task;
          at_Timeout := models.tk_Timeout task; at_WorkDir := models.tk_WorkDir task;
          at_Envs := models.tk_Envs task; at_Enabled := models.tk_Enabled task |})
    (List.filter
       (fun t => match models.tk_AgentID t with
                 | Some aid => N.eqb aid agentID
                 | None => false
                 end && Bool.eqb (models.tk_Enabled t) true) (db_tasks d)).

(** [ReportResult]: the result of a run is stored as a task log.
    [CompressToBase64] is the collaborator [compress]; [None] is its error. *)
Definition ReportResult (compress : string -> option string) (result : AgentTaskResult)
    (now : LocalTime) (d : DB) : option error * DB :=
  let compressed :=
    match compress (r_Output result) with
    | Some z => z
    | None => ""
    end in
  let taskLog :=
    {| models.tl_ID := db_next_log_id d; models.tl_TaskID := r_TaskID result;
       models.tl_AgentID := Some (r_AgentID result);
       models.tl_Command := r_Command result; models.tl_Output := compressed;
       models.tl_Error := ""; models.tl_Status := r_Status result;
       models.tl_Duration := r_Duration result; models.tl_ExitCode := r_ExitCode result;
       models.tl_StartTime := None; models.tl_EndTime := None;
       models.tl_CreatedAt := now |} in
  let touch t :=
    {| models.tk_ID := models.tk_ID t; models.tk_Name := models.tk_Name t;
       models.tk_Command := models.tk_Command t; models.tk_Schedule := models.tk_Schedule t;
       models.tk_Timeout := models.tk_Timeout t; models.tk_WorkDir := models.tk_WorkDir t;
       models.tk_Envs := models.tk_Envs t; models.tk_Enabled := models.tk_Enabled t;
       models.tk_AgentID := models.tk_AgentID t;
       models.tk_CleanConfig := models.tk_CleanConfig t;
       models.tk_LastRun := Some now |} in
  (None,
   {| db_agents := db_agents d; db_deleted_agents := db_deleted_agents d;
      db_next_agent_id := db_next_agent_id d;
      db_tasks := update_where (fun t => N.eqb (models.tk_ID t) (r_TaskID result)) touch
                    (db_tasks d);
      db_task_logs := db_task_logs d ++ [taskLog];
      db_next_log_id := N.succ (db_next_log_id d);
      db_stats := db_stats d ++ [(r_TaskID result, r_Status result)] |}).

(** [UpdateOfflineAgents]: agents without a heartbeat for more than two minutes
    go offline. *)
Definition UpdateOfflineAgents (now : LocalTime) (d : DB) : DB :=
  let cutoff := now - 2 * 60 in
  gorm_update
    (fun a => String.eqb (Status a) "online"
              && match LastSeen a with
                 | Some seen => seen <? cutoff
                 | None => false
                 end)
    (set_Status "offline") now d.

(** [SetForceUpdate]. *)
Definition SetForceUpdate (id : N) (now : LocalTime) (d : DB) : option error * DB :=
  (None, gorm_update (id_is id) (set_ForceUpdate true) now d).

(** [ClearForceUpdate]. *)
Definition ClearForceUpdate (id : N) (now : LocalTime) (d : DB) : option error * DB :=
  (None, gorm_update (id_is id) (set_ForceUpdate false) now d).

End services.

(** ** The published agent programs ([GetLatestVersion], [GetAvailablePlatforms],
    [GetAgentBinary]) *)

(** [strings.TrimSpace]: leading and trailing white-space runes removed. *)
Fixpoint trim_left (s : string) (skip : nat) : string :=
  match s with
  | EmptyString => ""
  | String c rest =>
      match skip with
      | S skip' => trim_left rest skip'
      | O =>
          match space_width s with
          | S w => trim_left rest w
          | O => s
          end
      end
  end.

Definition all_space (s : string) : bool :=
  match Fields s with
  | [] => true
  | _ => false
  end.

Fixpoint trim_right (s : string) : string :=
  match s with
  | EmptyString => ""
  | String c rest => if all_space s then "" else String c (trim_right rest)
  end.

Definition TrimSpace (s : string) : string := trim_right (trim_left s 0).

(** [filepath.Clean] on slash-separated paths, element by element: empty and
    [.] elements are dropped, a [..] removes the element before it, is dropped
    at the root, and is kept in front of a relative path. *)
Fixpoint clean_elements (rooted : bool) (elems : list string) (kept : list string)
    : list string :=
  match elems with
  | [] => List.rev kept
  | e :: rest =>
      if String.eqb e "" || String.eqb e "." then clean_elements rooted rest kept
      else if String.eqb e ".." then
        match kept with
        | k :: kept' =>
            if String.eqb k ".." then clean_elements rooted rest (e :: kept)
            else clean_elements rooted rest kept'
        | [] =>
            if rooted then clean_elements rooted rest []
            else clean_elements rooted rest [e]
        end
      else clean_elements rooted rest (e :: kept)
  end.

Definition Clean (path : string) : string :=
  match path with
  | EmptyString => "."
  | String c _ =>
      let rooted := Ascii.eqb c "/" in
      let out := Join (clean_elements rooted (Split path "/") []) "/" in
      if rooted then "/" ++ out
      else if String.eqb out "" then "." else out
  end.

(** A path element that [Clean] keeps as it is: a name other than [.] and
    [..], without a slash. *)
Definition plain_element (e : string) : Prop :=
  e <> "" /\ e <> "." /\ e <> ".." /\ free_of "/" e.

(** [filepath.Join(dir, name)] for two non-empty elements. *)
Definition filepath_Join (dir name : string) : string := Clean (dir ++ "/" ++ name).

(** The files of the host, as [os.ReadFile] and [os.ReadDir] answer for a
    path: the content of a file, the entry names of a directory; [None] is
    the error of the call. *)
Record FS := mkFS {
  ReadFile : string -> option string;
  ReadDir : string -> option (list string)
}.

Module agent_files.

(** [GetLatestVersion]: the published version, from the container directory
    and else from the development directory. *)
Definition GetLatestVersion (fs : FS) : string :=
  match ReadFile fs "/opt/agent/version.txt" with
  | Some data => TrimSpace data
  | None =>
      match ReadFile fs "data/agent/version.txt" with
      | Some data => TrimSpace data
      | None => ""
      end
  end.

(** The entry [GetAvailablePlatforms] derives from one file name, if any. *)
Definition platform_of (name : string) : option (gmap string string) :=
  if HasPrefix name "baihu-agent-" then
    let parts := Split (TrimSuffix name ".exe") "-" in
    if (4 <=? length parts)%nat then
      Some (<["os" := List.nth 2 parts ""]>
           (<["arch" := List.nth 3 parts ""]>
           (<["filename" := name]> ∅)))
    else None
  else None.

(** [GetAvailablePlatforms]. *)
Definition GetAvailablePlatforms (fs : FS) : list (gmap string string) :=
  let files :=
    match ReadDir fs "/opt/agent" with
    | Some files => Some files
    | None => ReadDir fs "data/agent"
    end in
  match files with
  | None => []
  | Some files =>
      List.flat_map (fun name => match platform_of name with
                                 | Some p => [p]
                                 | None => []
                                 end) files
  end.

(** The file name [GetAgentBinary] looks for. *)
Definition binary_name (osType arch : string) : string :=
  let filename := "baihu-agent-" ++ osType ++ "-" ++ arch in
  if String.eqb osType "windows" then filename ++ ".exe" else filename.

(** [GetAgentBinary]: the agent program of a platform and its file name. *)
Definition GetAgentBinary (osType arch : string) (fs : FS)
    : services.error + (string * string) :=
  let filename := binary_name osType arch in
  match ReadFile fs (filepath_Join "/opt/agent" filename) with
  | Some data => inr (data, filename)
  | None =>
      match ReadFile fs (filepath_Join "data/agent" filename) with
      | Some data => inr (data, filename)
      | None => inl (services.serviceError "未找到对应平台的 Agent 程序")
      end
  end.

End agent_files.

(** ** The task-log service ([tasks.TaskLogService], [web/src/router/index.ts]) *)

Module tasks.

(** [CleanConfig]. *)
Record CleanConfig := mkCleanConfig {
  Type_ : string;
  Keep : Z
}.

(** [WHERE task_id = ?]. *)
Definition task_is (taskID : N) (l : models.TaskLog) : bool :=
  N.eqb (models.tl_TaskID l) taskID.

Definition with_task_logs (v : list models.TaskLog) (d : DB) : DB :=
  {| db_agents := db_agents d; db_deleted_agents := db_deleted_agents d;
     db_next_agent_id := db_next_agent_id d; db_tasks := db_tasks d;
     db_task_logs := v; db_next_log_id := db_next_log_id d; db_stats := db_stats d |}.

(** [Where("task_id = ?").Order("id DESC")]: the ids of the logs of the task,
    newest first. *)
Definition log_ids_desc (taskID : N) (logs : list models.TaskLog) : list N :=
  merge_sort (flip N.le) (List.map models.tl_ID (List.filter (task_is taskID) logs)).

(** [... .Offset(offset).Limit(1).First]: the id of the log found at [offset]. *)
Definition boundary_id (taskID : N) (offset : Z) (logs : list models.TaskLog) : option N :=
  if offset <? 0 then None else log_ids_desc taskID logs !! Z.to_nat offset.

Section TaskLogService.

(** [json.Unmarshal] of a clean configuration, and [AddDate(0, 0, days)] on the
    local calendar. *)
Variable Unmarshal : string -> option CleanConfig.
Variable AddDate : LocalTime -> Z -> LocalTime.

(** [CreateEmptyLog]: the log of a task that starts. *)
Definition CreateEmptyLog (taskID : N) (command : string) (now : LocalTime) (d : DB)
    : models.TaskLog * DB :=
  let taskLog :=
    {| models.tl_ID := db_next_log_id d; models.tl_TaskID := taskID;
       models.tl_AgentID := None; models.tl_Command := command; models.tl_Output := "";
       models.tl_Error := ""; models.tl_Status := "running"; models.tl_Duration := 0;
       models.tl_ExitCode := 0; models.tl_StartTime := Some now;
       models.tl_EndTime := None; models.tl_CreatedAt := now |} in
  (taskLog,
   {| db_agents := db_agents d; db_deleted_agents := db_deleted_agents d;
      db_next_agent_id := db_next_agent_id d; db_tasks := db_tasks d;
      db_task_logs := db_task_logs d ++ [taskLog];
      db_next_log_id := N.succ (db_next_log_id d); db_stats := db_stats d |}).

(** [UpdateTaskDuration]. *)
Definition UpdateTaskDuration (logID : N) (duration : Z) (d : DB) : DB :=
  with_task_logs
    (update_where (fun l => N.eqb (models.tl_ID l) logID)
       (fun l =>
          {| models.tl_ID := models.tl_ID l; models.tl_TaskID := models.tl_TaskID l;
             models.tl_AgentID := models.tl_AgentID l;
             models.tl_Command := models.tl_Command l;
             models.tl_Output := models.tl_Output l; models.tl_Error := models.tl_Error l;
             models.tl_Status := models.tl_Status l; models.tl_Duration := duration;
             models.tl_ExitCode := models.tl_ExitCode l;
             models.tl_StartTime := models.tl_StartTime l;
             models.tl_EndTime := models.tl_EndTime l;
             models.tl_CreatedAt := models.tl_CreatedAt l |})
       (db_task_logs d)) d.

(** [CleanTaskLogs]: the logs of a task beyond its clean configuration are
    deleted. *)
Definition CleanTaskLogs (taskID : N) (now : LocalTime) (d : DB) : DB :=
  match List.find (fun t => N.eqb (models.tk_ID t) taskID) (db_tasks d) with
  | None => d
  | Some task =>
      if String.eqb (models.tk_CleanConfig task) "" then d
      else
        match Unmarshal (models.tk_CleanConfig task) with
        | None => d
        | Some config =>
            if Keep config <=? 0 then d
            else if String.eqb (Type_ config) "day" then
              let cutoff := AddDate now (- Keep config) in
              with_task_logs
                (delete_where
                   (fun l => task_is taskID l && (models.tl_CreatedAt l <? cutoff))
                   (db_task_logs d)) d
            else if String.eqb (Type_ config) "count" then
              match boundary_id taskID (Keep config - 1) (db_task_logs d) with
              | Some boundary =>
                  with_task_logs
                    (delete_where
                       (fun l => task_is taskID l && N.ltb (models.tl_ID l) boundary)
                       (db_task_logs d)) d
              | None => d
              end
            else d
        end
  end.

End TaskLogService.

End tasks.

(** ** The HTTP layer seen by the controller *)

(** Values placed in a JSON response object. *)
Inductive JSON :=
  | JNum (n : N)
  | JStr (s : string)
  | JBool (b : bool)
  | JTasks (ts : list AgentTask).

Module gin.

(** [gin.H], a [map[string]any]. *)
Abbreviation H := (gmap string JSON).

(** The part of [*gin.Context] the handlers read: the request headers, the
    caller's address, and the outcome of binding the JSON body to the
    handler's request struct [B] (the struct as it was filled, and whether
    binding reported an error). *)
Record Context (B : Type) := mkContext {
  Headers : list (string * string);
  RemoteIP : string;
  Bound : B;
  BindError : bool
}.
Arguments mkContext {B} _ _ _ _.
Arguments Headers {B} _.
Arguments RemoteIP {B} _.
Arguments Bound {B} _.
Arguments BindError {B} _.

(** [ctx.GetHeader(key)]: the first value of the header, or the empty string
    when the header is absent. *)
Definition GetHeader {B} (ctx : Context B) (key : string) : string :=
  match List.find (fun kv => String.eqb (fst kv) key) (Headers ctx) with
  | Some kv => snd kv
  | None => ""
  end.

Definition ClientIP {B} (ctx : Context B) : string := RemoteIP ctx.

Definition ShouldBindJSON {B} (ctx : Context B) : B * bool := (Bound ctx, BindError ctx).

End gin.

Module utils.

(** The text of a response: a literal of the controller or [err.Error()]. *)
Inductive Msg :=
  | Text (s : string).

(** Modelled from the spec: the response helpers of [internal/utils] are
    missing; the gateway "translates these to the external response
    envelope", one constructor per helper the controller calls. *)
Inductive Response :=
  | Success (data : gin.H)
  | SuccessMsg (m : Msg)
  | BadRequest (m : Msg)
  | Unauthorized (m : Msg)
  | Forbidden (m : Msg)
  | NotFound (m : Msg)
  | ServerError (m : Msg).

End utils.

(** ** The handlers of the agent API ([controllers.AgentController])

    Each handler is a state transformer on the database that also keeps the
    record of the calls it makes on its [agentService]. *)

(** A call made by a handler on its [agentService]. *)
Inductive SvcCall :=
  | CallRegister (req : AgentRegisterRequest) (ip : string)
  | CallCheckPendingAgent (name ip : string)
  | CallHeartbeat (token : string)
  | CallGetLatestVersion
  | CallClearForceUpdate (id : N)
  | CallGetByToken (token : string)
  | CallGetTasks (id : N)
  | CallReportResult (result : AgentTaskResult).

(** The database together with the record of service calls made so far. *)
Record World := mkWorld {
  store : DB;
  calls : list SvcCall
}.

Definition M (A : Type) : Type := World -> A * World.

Definition ret {A} (a : A) : M A := fun w => (a, w).

Definition bind {A B} (m : M A) (k : A -> M B) : M B :=
  fun w => let (a, w') := m w in k a w'.

Notation "'let!' x ':=' m 'in' k" := (bind m (fun x => k))
  (at level 10, x pattern, m at level 100, k at level 200).

(** A service call that may write to the database. *)
Definition invoke {A} (c : SvcCall) (f : DB -> A * DB) : M A :=
  fun w => let (a, d') := f (store w) in (a, {| store := d'; calls := calls w ++ [c] |}).

(** A service call that only reads. *)
Definition query {A} (c : SvcCall) (f : DB -> A) : M A :=
  invoke c (fun d => (f d, d)).

(** A service call whose result the handler drops. *)
Definition perform {A} (c : SvcCall) (f : DB -> A * DB) : M unit :=
  invoke c (fun d => (tt, snd (f d))).

(** The anonymous request struct of [Heartbeat]. *)
Record HeartbeatRequest := mkHeartbeatRequest {
  hb_Version : string;
  hb_BuildTime : string;
  hb_Hostname : string;
  hb_OS : string;
  hb_Arch : string;
  hb_AutoUpdate : bool
}.

(** The anonymous request struct of [CheckStatus]. *)
Record CheckStatusRequest := mkCheckStatusRequest {
  cs_Name : string
}.

(** [result.AgentID = agent.ID]: the result stamped with the caller's
    identity. *)
Definition stamp (agent : Agent) (result : AgentTaskResult) : AgentTaskResult :=
  {| r_TaskID := r_TaskID result; r_AgentID := ID agent;
     r_Command := r_Command result; r_Output := r_Output result;
     r_Status := r_Status result; r_Duration := r_Duration result;
     r_ExitCode := r_ExitCode result; r_StartTime := r_StartTime result;
     r_EndTime := r_EndTime result |}.

Module AgentController.

Import utils.

(** [getAgentToken]: the agent token carried by the request headers. *)
Definition getAgentToken {B} (ctx : gin.Context B) : string :=
  let auth := gin.GetHeader ctx "Authorization" in
  if String.eqb auth "" then ""
  else
    let parts := SplitN auth " " 2 in
    if Nat.eqb (length parts) 2 && String.eqb (List.nth 0 parts "") "Bearer"
    then List.nth 1 parts ""
    else auth.

(** [Register]: agent registration, no authentication. *)
Definition Register (ctx : gin.Context AgentRegisterRequest) (now : LocalTime)
    (created : Verdict) : M Response :=
  let (req, err) := gin.ShouldBindJSON ctx in
  if err then ret (BadRequest (Text "参数错误"))
  else if String.eqb (rq_Name req) "" then ret (BadRequest (Text "名称不能为空"))
  else
    let ip := gin.ClientIP ctx in
    let! r := invoke (CallRegister req ip) (services.Register req ip now created) in
    match r with
    | inl err => ret (ServerError (Text (services.Error err)))
    | inr agent =>
        ret (Success (<["agent_id" := JNum (ID agent)]>
                     (<["status" := JStr (Status agent)]>
                     (<["message" := JStr "注册成功，等待审核"]> ∅))))
    end.

(** [CheckStatus]: polled by an agent waiting for approval. *)
Definition CheckStatus (ctx : gin.Context CheckStatusRequest) (now : LocalTime)
    : M Response :=
  let (req, err) := gin.ShouldBindJSON ctx in
  if err then ret (BadRequest (Text "参数错误"))
  else
    let ip := gin.ClientIP ctx in
    let! r := invoke (CallCheckPendingAgent (cs_Name req) ip)
                     (services.CheckPendingAgent (cs_Name req) ip now) in
    match r with
    | inl err => ret (NotFound (Text (services.Error err)))
    | inr agent =>
        let response : gin.H :=
          <["agent_id" := JNum (ID agent)]> (<["status" := JStr (Status agent)]> ∅) in
        let response :=
          if negb (String.eqb (Status agent) "pending") && negb (String.eqb (Token agent) "")
          then <["token" := JStr (Token agent)]> response
          else response in
        ret (Success response)
    end.

(** [Heartbeat]: agent heartbeat. *)
Definition Heartbeat (ctx : gin.Context HeartbeatRequest) (now : LocalTime) (fs : FS)
    : M Response :=
  let token := getAgentToken ctx in
  if String.eqb token "" then ret (Unauthorized (Text "缺少认证 Token"))
  else
    let (req, _) := gin.ShouldBindJSON ctx in
    let ip := gin.ClientIP ctx in
    let! r := invoke (CallHeartbeat token)
                     (services.Heartbeat token ip (hb_Version req) (hb_BuildTime req)
                        (hb_Hostname req) (hb_OS req) (hb_Arch req) now) in
    match r with
    | inl err => ret (Unauthorized (Text (services.Error err)))
    | inr agent =>
        let! latestVersion :=
          query CallGetLatestVersion (fun _ => agent_files.GetLatestVersion fs) in
        let needUpdate :=
          negb (String.eqb latestVersion "") && negb (String.eqb (hb_Version req) "")
          && negb (String.eqb (hb_Version req) latestVersion) in
        let forceUpdate := ForceUpdate agent in
        let! _ := (if forceUpdate && needUpdate
                   then perform (CallClearForceUpdate (ID agent))
                                (services.ClearForceUpdate (ID agent) now)
                   else ret tt) in
        ret (Success (<["agent_id" := JNum (ID agent)]>
                     (<["name" := JStr (Name agent)]>
                     (<["need_update" := JBool needUpdate]>
                     (<["force_update" := JBool forceUpdate]>
                     (<["latest_version" := JStr latestVersion]> ∅))))))
    end.

(** [GetTasks]: the task list of the calling agent. *)
Definition GetTasks (ctx : gin.Context unit) : M Response :=
  let token := getAgentToken ctx in
  if String.eqb token "" then ret (Unauthorized (Text "缺少认证 Token"))
  else
    let! found := query (CallGetByToken token) (services.GetByToken token) in
    match found with
    | None => ret (Unauthorized (Text "无效的 Token"))
    | Some agent =>
        if negb (Enabled agent) then ret (Forbidden (Text "Agent 已禁用"))
        else
          let! tasks := query (CallGetTasks (ID agent)) (services.GetTasks (ID agent)) in
          ret (Success (<["agent_id" := JNum (ID agent)]> (<["tasks" := JTasks tasks]> ∅)))
    end.

(** [ReportResult]: an agent reports the result of one run. *)
Definition ReportResult (compress : string -> option string)
    (ctx : gin.Context AgentTaskResult) (now : LocalTime) : M Response :=
  let token := getAgentToken ctx in
  if String.eqb token "" then ret (Unauthorized (Text "缺少认证 Token"))
  else
    let! found := query (CallGetByToken token) (services.GetByToken token) in
    match found with
    | None => ret (Unauthorized (Text "无效的 Token"))
    | Some agent =>
        if negb (Enabled agent) then ret (Forbidden (Text "Agent 已禁用"))
        else
          let (result, err) := gin.ShouldBindJSON ctx in
          if err then ret (BadRequest (Text "参数错误"))
          else
            let result := stamp agent result in
            let! failed := invoke (CallReportResult result)
                                  (services.ReportResult compress result now) in
            match failed with
            | Some err => ret (ServerError (Text (services.Error err)))
            | None => ret (SuccessMsg (Text "上报成功"))
            end
    end.

End AgentController.

(** ** The handlers on the database alone, and the operator's handlers
    ([controllers.AgentController]) *)

Module controllers.

(** What the operator's handlers read of a request besides the body: the
    route parameters and the query string. *)
Record Route (B : Type) := mkRoute {
  Base : gin.Context B;
  Params : list (string * string);
  Query : list (string * string)
}.
Arguments mkRoute {B} _ _ _.
Arguments Base {B} _.
Arguments Params {B} _.
Arguments Query {B} _.

(** [ctx.Param(key)]: the route parameter, or the empty string. *)
Definition Param {B} (ctx : Route B) (key : string) : string :=
  match List.find (fun kv => String.eqb (fst kv) key) (Params ctx) with
  | Some kv => snd kv
  | None => ""
  end.

(** [ctx.DefaultQuery(key, defaultValue)]: the first value of the query key,
    the default when the key is absent. *)
Definition DefaultQuery {B} (ctx : Route B) (key defaultValue : string) : string :=
  match List.find (fun kv => String.eqb (fst kv) key) (Query ctx) with
  | Some kv => snd kv
  | None => defaultValue
  end.

(** The data of a response. *)
Inductive Payload :=
  | Agents (agents : list Agent)
  | TheAgent (agent : Agent)
  | Object (h : gin.H)
  | VersionInfo (version : string) (platforms : list (gmap string string)).

(** The response helpers of [internal/utils] are declared outside the
    sources: a response is the helper a handler calls, with its argument, and
    [Data] is [ctx.Data] with the headers set before it. *)
Inductive Response :=
  | Success (data : Payload)
  | SuccessMsg (msg : string)
  | BadRequest (msg : string)
  | ServerError (msg : string)
  | NotFound (msg : string)
  | Data (code : N) (contentType : string) (headers : list (string * string))
      (data : string).

(** The request struct of [Update]. *)
Record UpdateRequest := mkUpdateRequest {
  up_Name : string;
  up_Description : string;
  up_Enabled : bool
}.

(** [strconv.Itoa] on a length. *)
Fixpoint digits_of (fuel : nat) (n : N) (acc : string) : string :=
  match fuel with
  | O => acc
  | S fuel' =>
      let acc' := String (ascii_of_N (48 + n mod 10)) acc in
      if (n <? 10)%N then acc' else digits_of fuel' (n / 10)%N acc'
  end.

Definition Itoa (n : N) : string := digits_of (S (N.to_nat (N.log2 n))) n "".

(** The handlers of the agent API, without the record of calls. *)

(** [Register]. *)
Definition Register (ctx : gin.Context AgentRegisterRequest) (now : LocalTime)
    (created : Verdict) (d : DB) : utils.Response * DB :=
  let (req, err) := gin.ShouldBindJSON ctx in
  if err then (utils.BadRequest (utils.Text "参数错误"), d)
  else if String.eqb (rq_Name req) "" then (utils.BadRequest (utils.Text "名称不能为空"), d)
  else
    let ip := gin.ClientIP ctx in
    match services.Register req ip now created d with
    | (inl err, d') => (utils.ServerError (utils.Text (services.Error err)), d')
    | (inr agent, d') =>
        (utils.Success (<["agent_id" := JNum (ID agent)]>
                       (<["status" := JStr (Status agent)]>
                       (<["message" := JStr "注册成功，等待审核"]> ∅))), d')
    end.

(** [CheckStatus]. *)
Definition CheckStatus (ctx : gin.Context CheckStatusRequest) (now : LocalTime) (d : DB)
    : utils.Response * DB :=
  let (req, err) := gin.ShouldBindJSON ctx in
  if err then (utils.BadRequest (utils.Text "参数错误"), d)
  else
    let ip := gin.ClientIP ctx in
    match services.CheckPendingAgent (cs_Name req) ip now d with
    | (inl err, d') => (utils.NotFound (utils.Text (services.Error err)), d')
    | (inr agent, d') =>
        let response : gin.H :=
          <["agent_id" := JNum (ID agent)]> (<["status" := JStr (Status agent)]> ∅) in
        let response :=
          if negb (String.eqb (Status agent) "pending") && negb (String.eqb (Token agent) "")
          then <["token" := JStr (Token agent)]> response
          else response in
        (utils.Success response, d')
    end.

(** [Heartbeat]. *)
Definition Heartbeat (ctx : gin.Context HeartbeatRequest) (now : LocalTime) (fs : FS)
    (d : DB) : utils.Response * DB :=
  let token := AgentController.getAgentToken ctx in
  if String.eqb token "" then (utils.Unauthorized (utils.Text "缺少认证 Token"), d)
  else
    let (req, _) := gin.ShouldBindJSON ctx in
    let ip := gin.ClientIP ctx in
    match services.Heartbeat token ip (hb_Version req) (hb_BuildTime req) (hb_Hostname req)
            (hb_OS req) (hb_Arch req) now d with
    | (inl err, d') => (utils.Unauthorized (utils.Text (services.Error err)), d')
    | (inr agent, d') =>
        let latestVersion := agent_files.GetLatestVersion fs in
        let needUpdate :=
          negb (String.eqb latestVersion "") && negb (String.eqb (hb_Version req) "")
          && negb (String.eqb (hb_Version req) latestVersion) in
        let forceUpdate := ForceUpdate agent in
        let d'' :=
          if forceUpdate && needUpdate
          then snd (services.ClearForceUpdate (ID agent) now d')
          else d' in
        (utils.Success (<["agent_id" := JNum (ID agent)]>
                       (<["name" := JStr (Name agent)]>
                       (<["need_update" := JBool needUpdate]>
                       (<["force_update" := JBool forceUpdate]>
                       (<["latest_version" := JStr latestVersion]> ∅))))), d'')
    end.

(** [GetTasks]. *)
Definition GetTasks (ctx : gin.Context unit) (d : DB) : utils.Response :=
  let token := AgentController.getAgentToken ctx in
  if String.eqb token "" then utils.Unauthorized (utils.Text "缺少认证 Token")
  else
    match services.GetByToken token d with
    | None => utils.Unauthorized (utils.Text "无效的 Token")
    | Some agent =>
        if negb (Enabled agent) then utils.Forbidden (utils.Text "Agent 已禁用")
        else
          let tasks := services.GetTasks (ID agent) d in
          utils.Success (<["agent_id" := JNum (ID agent)]> (<["tasks" := JTasks tasks]> ∅))
    end.

(** [ReportResult]. *)
Definition ReportResult (compress : string -> option string)
    (ctx : gin.Context AgentTaskResult) (now : LocalTime) (d : DB) : utils.Response * DB :=
  let token := AgentController.getAgentToken ctx in
  if String.eqb token "" then (utils.Unauthorized (utils.Text "缺少认证 Token"), d)
  else
    match services.GetByToken token d with
    | None => (utils.Unauthorized (utils.Text "无效的 Token"), d)
    | Some agent =>
        if negb (Enabled agent) then (utils.Forbidden (utils.Text "Agent 已禁用"), d)
        else
          let (result, err) := gin.ShouldBindJSON ctx in
          if err then (utils.BadRequest (utils.Text "参数错误"), d)
          else
            let result := stamp agent result in
            match services.ReportResult compress result now d with
            | (Some err, d') => (utils.ServerError (utils.Text (services.Error err)), d')
            | (None, d') => (utils.SuccessMsg (utils.Text "上报成功"), d')
            end
    end.

(** The operator's handlers. *)

(** [List]. *)
Definition List_ (d : DB) : Response := Success (Agents (services.List_ d)).

(** [ListPending]. *)
Definition ListPending (d : DB) : Response := Success (Agents (services.ListPending d)).

(** [Approve]. *)
Definition Approve (ctx : Route unit) (now : LocalTime) (rnd : list Byte.byte)
    (updated : Verdict) (d : DB) : Response * DB :=
  match ParseUint (Param ctx "id") 32 with
  | None => (BadRequest "无效的 ID", d)
  | Some id =>
      match services.Approve id now rnd updated d with
      | (inl err, d') => (BadRequest (services.Error err), d')
      | (inr agent, d') => (Success (TheAgent agent), d')
      end
  end.

(** [Reject]. *)
Definition Reject (ctx : Route unit) (d : DB) : Response * DB :=
  match ParseUint (Param ctx "id") 32 with
  | None => (BadRequest "无效的 ID", d)
  | Some id =>
      match services.Reject id d with
      | (Some err, d') => (ServerError (services.Error err), d')
      | (None, d') => (SuccessMsg "已拒绝", d')
      end
  end.

(** [Update]. *)
Definition Update (ctx : Route UpdateRequest) (now : LocalTime) (d : DB) : Response * DB :=
  match ParseUint (Param ctx "id") 32 with
  | None => (BadRequest "无效的 ID", d)
  | Some id =>
      let (req, err) := gin.ShouldBindJSON (Base ctx) in
      if err then (BadRequest "参数错误", d)
      else
        match services.Update id (up_Name req) (up_Description req) (up_Enabled req) now d with
        | (Some err, d') => (ServerError (services.Error err), d')
        | (None, d') => (SuccessMsg "更新成功", d')
        end
  end.

(** [Delete]. *)
Definition Delete (ctx : Route unit) (d : DB) : Response * DB :=
  match ParseUint (Param ctx "id") 32 with
  | None => (BadRequest "无效的 ID", d)
  | Some id =>
      match services.Delete id d with
      | (Some err, d') => (BadRequest (services.Error err), d')
      | (None, d') => (SuccessMsg "删除成功", d')
      end
  end.

(** [RegenerateToken]. *)
Definition RegenerateToken (ctx : Route unit) (now : LocalTime) (rnd : list Byte.byte)
    (updated : Verdict) (d : DB) : Response * DB :=
  match ParseUint (Param ctx "id") 32 with
  | None => (BadRequest "无效的 ID", d)
  | Some id =>
      match services.RegenerateToken id now rnd updated d with
      | (inl err, d') => (ServerError (services.Error err), d')
      | (inr token, d') => (Success (Object (<["token" := JStr token]> ∅)), d')
      end
  end.

(** [Download]: the agent program of a platform. *)
Definition Download (ctx : Route unit) (fs : FS) : Response :=
  let osType := DefaultQuery ctx "os" "linux" in
  let arch := DefaultQuery ctx "arch" "amd64" in
  match agent_files.GetAgentBinary osType arch fs with
  | inl err => NotFound (services.Error err)
  | inr (data, filename) =>
      Data 200 "application/octet-stream"
        [("Content-Disposition", "attachment; filename=" ++ filename);
         ("Content-Type", "application/octet-stream");
         ("Content-Length", Itoa (N.of_nat (String.length data)))]
        data
  end.

(** [GetVersion]. *)
Definition GetVersion (fs : FS) : Response :=
  let version := agent_files.GetLatestVersion fs in
  let platforms := agent_files.GetAvailablePlatforms fs in
  Success (VersionInfo version platforms).

(** [ForceUpdate]. *)
Definition ForceUpdate (ctx : Route unit) (now : LocalTime) (d : DB) : Response * DB :=
  match ParseUint (Param ctx "id") 32 with
  | None => (BadRequest "无效的 ID", d)
  | Some id =>
      match services.SetForceUpdate id now d with
      | (Some err, d') => (ServerError (services.Error err), d')
      | (None, d') => (SuccessMsg "已标记强制更新，Agent 下次心跳时将自动更新", d')
      end
  end.

End controllers.

(** ** The conda runtime manager ([deps_env.CondaManager]) *)

Module deps_env.

(** [RuntimeEnv]. *)
Record RuntimeEnv := mkRuntimeEnv {
  env_Name : string;
  env_Path : string;
  env_Version : string;
  env_Active : bool
}.

(** [RuntimePackage]. *)
Record RuntimePackage := mkRuntimePackage {
  pkg_Name : string;
  pkg_Version : string;
  pkg_Channel : string
}.

(** The errors the manager returns: [exec.ErrNotFound], the error of a command
    that failed, the error of [json.Unmarshal]. *)
Inductive error :=
  | ErrNotFound
  | CommandError (detail : string)
  | UnmarshalError (detail : string).

(** [CondaManager]. *)
Record CondaManager := mkCondaManager {
  condaPath : string
}.

(** [NewCondaManager]. *)
Definition NewCondaManager : CondaManager := {| condaPath := "" |}.

(** [GetType]. *)
Definition GetType (cm : CondaManager) : string := "conda".

(** [extractEnvName]: the name of an environment, from its path. *)
Definition extractEnvName (envPath : string) : string :=
  let parts := Split envPath "/" in
  if (0 <? length parts)%nat then
    let name := List.nth (length parts - 1) parts "" in
    if String.eqb name "conda" || String.eqb name "miniconda3" || String.eqb name "anaconda3"
    then "base"
    else name
  else envPath.

(** The package [parseCondaList] reads from one line, if any. *)
Definition package_of_line (line : string) : option RuntimePackage :=
  if HasPrefix line "#" || String.eqb (TrimSpace line) "" then None
  else
    let fields := Fields line in
    if (2 <=? length fields)%nat then
      Some {| pkg_Name := List.nth 0 fields "";
              pkg_Version := List.nth 1 fields "";
              pkg_Channel := if (4 <=? length fields)%nat then List.nth 3 fields "" else "" |}
    else None.

(** [parseCondaList]: the packages of the output of [conda list]. *)
Definition parseCondaList (output : string) : list RuntimePackage :=
  List.flat_map (fun line => match package_of_line line with
                             | Some pkg => [pkg]
                             | None => []
                             end) (ScanLines output).

Section Host.

(** The host: [exec.LookPath], the standard output of a command
    ([cmd.Output]), its combined output ([cmd.CombinedOutput]), and
    [json.Unmarshal] of the output of [conda env list --json] into its [envs]
    field. *)
Variable LookPath : string -> option string.
Variable Output : list string -> error + string.
Variable CombinedOutput : list string -> error + string.
Variable UnmarshalEnvs : string -> error + list string.

(** [findCondaPath]: the first of the usual places where conda is found. *)
Definition findCondaPath (cm : CondaManager) : error + string :=
  List.fold_right
    (fun p later => match LookPath p with
                    | Some path => inr path
                    | None => later
                    end)
    (inl ErrNotFound)
    ["conda"; "micromamba"; "/opt/conda/bin/conda"; "/root/miniconda3/bin/conda";
     "/root/anaconda3/bin/conda"].

(** [IsAvailable]: whether conda is installed; the path found is remembered. *)
Definition IsAvailable (cm : CondaManager) : bool * CondaManager :=
  match findCondaPath cm with
  | inl _ => (false, cm)
  | inr path => (true, {| condaPath := path |})
  end.

(** [getCondaPath]: the remembered path.  When none is remembered
    [findCondaPath] is called and its result dropped. *)
Definition getCondaPath (cm : CondaManager) : string :=
  let _ := if String.eqb (condaPath cm) "" then Some (findCondaPath cm) else None in
  condaPath cm.

(** [ListEnvs]. *)
Definition ListEnvs (cm : CondaManager) : error + list RuntimeEnv :=
  let condaPath := getCondaPath cm in
  if String.eqb condaPath "" then inl ErrNotFound
  else
    match Output [condaPath; "env"; "list"; "--json"] with
    | inl err => inl err
    | inr output =>
        match UnmarshalEnvs output with
        | inl err => inl err
        | inr envs =>
            inr (List.flat_map
                   (fun envPath =>
                      let name := extractEnvName envPath in
                      if HasPrefix name "." then []
                      else [{| env_Name := name; env_Path := envPath; env_Version := "";
                               env_Active := false |}]) envs)
        end
    end.

(** The commands below return the error of the command they run, if any,
    together with the command line run, if any. *)

(** [CreateEnv]. *)
Definition CreateEnv (cm : CondaManager) (name version : string)
    : option error * option (list string) :=
  let condaPath := getCondaPath cm in
  if String.eqb condaPath "" then (Some ErrNotFound, None)
  else
    let args := ["create"; "-n"; name; "-y"] in
    let args := if negb (String.eqb version "") then (args ++ [("python=" ++ version)%string])%list else args in
    match CombinedOutput (condaPath :: args) with
    | inl err => (Some err, Some (condaPath :: args))
    | inr _ => (None, Some (condaPath :: args))
    end.

(** [DeleteEnv]. *)
Definition DeleteEnv (cm : CondaManager) (name : string)
    : option error * option (list string) :=
  let condaPath := getCondaPath cm in
  if String.eqb condaPath "" then (Some ErrNotFound, None)
  else if String.eqb name "base" then (None, None)
  else
    let line := [condaPath; "env"; "remove"; "-n"; name; "-y"] in
    match CombinedOutput line with
    | inl err => (Some err, Some line)
    | inr _ => (None, Some line)
    end.

(** [ListPackages]. *)
Definition ListPackages (cm : CondaManager) (envName : string)
    : error + list RuntimePackage :=
  let condaPath := getCondaPath cm in
  if String.eqb condaPath "" then inl ErrNotFound
  else
    let args := ["list"] in
    let args :=
      if negb (String.eqb envName "") && negb (String.eqb envName "base")
      then (args ++ ["-n"; envName])%list else args in
    match Output (condaPath :: args) with
    | inl err => inl err
    | inr output => inr (parseCondaList output)
    end.

(** [InstallPackage]. *)
Definition InstallPackage (cm : CondaManager) (envName packageName : string)
    : option error * option (list string) :=
  let condaPath := getCondaPath cm in
  if String.eqb condaPath "" then (Some ErrNotFound, None)
  else
    let args := ["install"; "-y"] in
    let args :=
      if negb (String.eqb envName "") && negb (String.eqb envName "base")
      then (args ++ ["-n"; envName])%list else args in
    let args := (args ++ [packageName])%list in
    match CombinedOutput (condaPath :: args) with
    | inl err => (Some err, Some (condaPath :: args))
    | inr _ => (None, Some (condaPath :: args))
    end.

(** [UninstallPackage]. *)
Definition UninstallPackage (cm : CondaManager) (envName packageName : string)
    : option error * option (list string) :=
  let condaPath := getCondaPath cm in
  if String.eqb condaPath "" then (Some ErrNotFound, None)
  else
    let args := ["remove"; "-y"] in
    let args :=
      if negb (String.eqb envName "") && negb (String.eqb envName "base")
      then (args ++ ["-n"; envName])%list else args in
    let args := (args ++ [packageName])%list in
    match CombinedOutput (condaPath :: args) with
    | inl err => (Some err, Some (condaPath :: args))
    | inr _ => (None, Some (condaPath :: args))
    end.

End Host.

(** [RuntimeManager]: the interface of a runtime manager.  [IsAvailable] may
    change the manager it is called on; the modifying commands return the
    error and the command line run, as above. *)
Class RuntimeManager (M : Type) := {
  rm_GetType : M -> string;
  rm_IsAvailable : M -> bool * M;
  rm_ListEnvs : M -> error + list RuntimeEnv;
  rm_CreateEnv : M -> string -> string -> option error * option (list string);
  rm_DeleteEnv : M -> string -> option error * option (list string);
  rm_ListPackages : M -> string -> error + list RuntimePackage;
  rm_InstallPackage : M -> string -> string -> option error * option (list string);
  rm_UninstallPackage : M -> string -> string -> option error * option (list string)
}.

(** [CondaManager] implements [RuntimeManager], on a host. *)
Definition conda_manager (LookPath : string -> option string)
    (Output CombinedOutput : list string -> error + string)
    (UnmarshalEnvs : string -> error + list string) : RuntimeManager CondaManager :=
  {| rm_GetType := GetType;
     rm_IsAvailable := IsAvailable LookPath;
     rm_ListEnvs := ListEnvs LookPath Output UnmarshalEnvs;
     rm_CreateEnv := CreateEnv LookPath CombinedOutput;
     rm_DeleteEnv := DeleteEnv LookPath CombinedOutput;
     rm_ListPackages := ListPackages LookPath Output;
     rm_InstallPackage := InstallPackage LookPath CombinedOutput;
     rm_UninstallPackage := UninstallPackage LookPath CombinedOutput |}.

(** [RuntimeService]: the managers by type.  The service holds the managers
    themselves, so what [IsAvailable] changes in a manager stays changed for
    later calls. *)
Record RuntimeService (M : Type) := mkRuntimeService {
  managers : gmap string M
}.
Arguments mkRuntimeService {M} _.
Arguments managers {M} _.

Section RuntimeService.

Context {M : Type} `{RuntimeManager M}.

(** [RegisterManager]. *)
Definition RegisterManager (manager : M) (rs : RuntimeService M) : RuntimeService M :=
  {| managers := <[rm_GetType manager := manager]> (managers rs) |}.

(** [GetManager]: the manager of a type, if one is registered. *)
Definition GetManager (runtimeType : string) (rs : RuntimeService M) : option M :=
  managers rs !! runtimeType.

(** [GetAvailableRuntimes]: the types whose manager is available, in the
    order the map is walked, and the service with the managers as
    [IsAvailable] left them. *)
Definition GetAvailableRuntimes (rs : RuntimeService M) : list string * RuntimeService M :=
  let polled := rm_IsAvailable <$> managers rs in
  ((map_to_list (filter (fun kv => fst (snd kv) = true) polled)).*1,
   {| managers := snd <$> polled |}).

End RuntimeService.

(** [NewRuntimeService]: the service with the conda manager registered. *)
Definition NewRuntimeService `{RuntimeManager CondaManager} : RuntimeService CondaManager :=
  RegisterManager NewCondaManager {| managers := ∅ |}.

End deps_env.

(** ** The panel as a whole: the requests that write to the database *)

Module panel.

(** A request to a handler that may change the database, with what the
    handler takes from its environment, or a run of the offline sweep
    ([UpdateOfflineAgents]). *)
Inductive Request :=
  | AgentRegister (ctx : gin.Context AgentRegisterRequest) (now : LocalTime)
      (created : Verdict)
  | AgentStatus (ctx : gin.Context CheckStatusRequest) (now : LocalTime)
  | AgentHeartbeat (ctx : gin.Context HeartbeatRequest) (now : LocalTime) (fs : FS)
  | AgentReport (compress : string -> option string) (ctx : gin.Context AgentTaskResult)
      (now : LocalTime)
  | OperatorApprove (ctx : controllers.Route unit) (now : LocalTime)
      (rnd : list Byte.byte) (updated : Verdict)
  | OperatorReject (ctx : controllers.Route unit)
  | OperatorUpdate (ctx : controllers.Route controllers.UpdateRequest) (now : LocalTime)
  | OperatorDelete (ctx : controllers.Route unit)
  | OperatorRegenerateToken (ctx : controllers.Route unit) (now : LocalTime)
      (rnd : list Byte.byte) (updated : Verdict)
  | OperatorForceUpdate (ctx : controllers.Route unit) (now : LocalTime)
  | OfflineSweep (now : LocalTime).

(** The database after a request is served. *)
Definition serve (r : Request) (d : DB) : DB :=
  match r with
  | AgentRegister ctx now created => snd (controllers.Register ctx now created d)
  | AgentStatus ctx now => snd (controllers.CheckStatus ctx now d)
  | AgentHeartbeat ctx now fs => snd (controllers.Heartbeat ctx now fs d)
  | AgentReport compress ctx now => snd (controllers.ReportResult compress ctx now d)
  | OperatorApprove ctx now rnd updated => snd (controllers.Approve ctx now rnd updated d)
  | OperatorReject ctx => snd (controllers.Reject ctx d)
  | OperatorUpdate ctx now => snd (controllers.Update ctx now d)
  | OperatorDelete ctx => snd (controllers.Delete ctx d)
  | OperatorRegenerateToken ctx now rnd updated =>
      snd (controllers.RegenerateToken ctx now rnd updated d)
  | OperatorForceUpdate ctx now => snd (controllers.ForceUpdate ctx now d)
  | OfflineSweep now => services.UpdateOfflineAgents now d
  end.

(** The database after a sequence of requests. *)
Definition serve_all (rs : list Request) (d : DB) : DB :=
  List.fold_left (fun d r => serve r d) rs d.

(** A database in which no agent has registered yet. *)
Definition no_agents (d : DB) : Prop :=
  db_agents d = [] /\ db_deleted_agents d = [].

(** A token as [generateToken] makes them: 64 hexadecimal digits. *)
Definition hex_token (token : string) : Prop :=
  String.length token = 64%nat /\
  Forall (fun c => In c (list_ascii_of_string "0123456789abcdef"))
         (list_ascii_of_string token).

(** What holds of every agent row the panel keeps: a known status, no token
    or a generated one, and a token once the agent is no longer pending. *)
Definition row_ok (a : Agent) : Prop :=
  (Status a = "pending" \/ Status a = "online" \/ Status a = "offline")
  /\ (Token a = "" \/ hex_token (Token a))
  /\ (Status a <> "pending" -> Token a <> "").

(** The primary keys in use, those of deleted rows included. *)
Definition agent_ids (d : DB) : list N :=
  List.map ID (db_agents d ++ db_deleted_agents d).

(** The agent table is well formed: every live row is, and the primary keys
    are distinct and below the next key. *)
Definition agents_ok (d : DB) : Prop :=
  Forall row_ok (db_agents d)
  /\ NoDup (agent_ids d)
  /\ Forall (fun id => (id < db_next_agent_id d)%N) (agent_ids d).

End panel.

(** ** Registration codes

    The code that serves the operator's registration codes is not among the
    sources: of it the repository carries the web client only, its calls
    [createRegCode], [listRegCodes] and [deleteRegCode] and its display tests
    [isRegCodeExpired] and [isRegCodeExhausted]
    ([web/src/views/loginlogs/LoginLogs.vue]), which run in the browser and
    decide nothing on the server. *)

(** Modelled from the spec: the model of a registration code is missing;
    "code value (unique, unguessable), optional remark, max-uses (0 =
    unlimited), used-count, optional expiry timestamp". *)
Record RegCode := mkRegCode {
  rc_ID : N;
  rc_Code : string;
  rc_Remark : string;
  rc_MaxUses : N;
  rc_UsedCount : N;
  rc_ExpiresAt : option LocalTime
}.

(** Modelled from the spec: the failures of a redemption are missing;
    "fails with NotFound/Expired/Exhausted". *)
Inductive RedeemError := ErrNotFound | ErrExpired | ErrExhausted.

(** The panel: the database of the services, and the table of registration
    codes with its next key. *)
Record Panel := mkPanel {
  database : DB;
  codes : list RegCode;
  next_code_id : N
}.

Definition on_database (f : DB -> DB) (p : Panel) : Panel :=
  {| database := f (database p); codes := codes p; next_code_id := next_code_id p |}.

Module RegistrationCodeIssuer.

(** Modelled from the spec: [CreateCode] is missing; "generates a unique
    unguessable code string; maxUses=0 means unlimited; stores with
    used-count=0". *)
Definition CreateCode (remark : string) (maxUses : N) (expiresAt : option LocalTime)
    (rnd : list Byte.byte) (p : Panel) : RegCode * Panel :=
  let code :=
    {| rc_ID := next_code_id p; rc_Code := services.generateToken rnd;
       rc_Remark := remark; rc_MaxUses := maxUses; rc_UsedCount := 0;
       rc_ExpiresAt := expiresAt |} in
  (code,
   {| database := database p; codes := codes p ++ [code];
      next_code_id := N.succ (next_code_id p) |}).

(** Modelled from the spec: a code is exhausted unless "max-uses == 0 OR
    used-count < max-uses". *)
Definition exhausted (c : RegCode) : bool :=
  negb (N.eqb (rc_MaxUses c) 0 || N.ltb (rc_UsedCount c) (rc_MaxUses c)).

(** Modelled from the spec: a code has expired unless "expiry unset OR expiry >
    now". *)
Definition expired (now : LocalTime) (c : RegCode) : bool :=
  match rc_ExpiresAt c with
  | Some t => negb (now <? t)
  | None => false
  end.

(** Modelled from the spec: [Redeem] is missing; "fails with
    NotFound/Expired/Exhausted per the redeemability predicate; on success
    atomically increments used-count and creates ... an Agent with
    status=online and a freshly issued token in one step". *)
Definition Redeem (code : string) (req : AgentRegisterRequest) (ip : string)
    (now : LocalTime) (rnd : list Byte.byte) (p : Panel) : (RedeemError + Agent) * Panel :=
  match List.find (fun c => String.eqb (rc_Code c) code) (codes p) with
  | None => (inl ErrNotFound, p)
  | Some c =>
      if expired now c then (inl ErrExpired, p)
      else if exhausted c then (inl ErrExhausted, p)
      else
        let d := database p in
        let agent :=
          {| ID := db_next_agent_id d; Name := rq_Name req;
             Token := services.generateToken rnd; Description := "";
             Status := "online"; LastSeen := Some now; IP := ip;
             Version := rq_Version req; BuildTime := ""; Hostname := rq_Hostname req;
             OS := ""; Arch := ""; ForceUpdate := false; Enabled := true;
             CreatedAt := now; UpdatedAt := now |} in
        let used r :=
          {| rc_ID := rc_ID r; rc_Code := rc_Code r; rc_Remark := rc_Remark r;
             rc_MaxUses := rc_MaxUses r; rc_UsedCount := N.succ (rc_UsedCount r);
             rc_ExpiresAt := rc_ExpiresAt r |} in
        (inr agent,
         {| database :=
              {| db_agents := db_agents d ++ [agent];
                 db_deleted_agents := db_deleted_agents d;
                 db_next_agent_id := N.succ (db_next_agent_id d); db_tasks := db_tasks d;
                 db_task_logs := db_task_logs d; db_next_log_id := db_next_log_id d;
                 db_stats := db_stats d |};
            codes := update_where (fun r => N.eqb (rc_ID r) (rc_ID c)) used (codes p);
            next_code_id := next_code_id p |})
  end.

(** Modelled from the spec: [DeleteCode] is missing; "unconditional removal;
    does not affect agents already created through it". *)
Definition DeleteCode (id : N) (p : Panel) : Panel :=
  {| database := database p;
     codes := delete_where (fun r => N.eqb (rc_ID r) id) (codes p);
     next_code_id := next_code_id p |}.

End RegistrationCodeIssuer.

(** ** The protocol as a transition system *)

(** One operation on the panel: a request served by a handler or a run of
    the offline sweep ([panel.Request]), an operation on the registration
    codes, a run of [CleanTaskLogs] with the JSON decoder and the calendar of
    the host, or a change of the task table by the task management. *)
Inductive Op :=
  | OpServe (r : panel.Request)
  | OpCreateCode (remark : string) (maxUses : N) (expiresAt : option LocalTime)
      (rnd : list Byte.byte)
  | OpRedeem (code : string) (req : AgentRegisterRequest) (ip : string) (now : LocalTime)
      (rnd : list Byte.byte)
  | OpDeleteCode (id : N)
  | OpCleanTaskLogs (Unmarshal : string -> option tasks.CleanConfig)
      (AddDate : LocalTime -> Z -> LocalTime) (taskID : N) (now : LocalTime)
  | OpTaskTable (catalog : list models.Task).

Definition step (op : Op) (p : Panel) : Panel :=
  match op with
  | OpServe r => on_database (panel.serve r) p
  | OpCreateCode remark maxUses expiresAt rnd =>
      snd (RegistrationCodeIssuer.CreateCode remark maxUses expiresAt rnd p)
  | OpRedeem code req ip now rnd =>
      snd (RegistrationCodeIssuer.Redeem code req ip now rnd p)
  | OpDeleteCode id => RegistrationCodeIssuer.DeleteCode id p
  | OpCleanTaskLogs Unmarshal AddDate taskID now =>
      on_database (tasks.CleanTaskLogs Unmarshal AddDate taskID now) p
  | OpTaskTable catalog =>
      on_database (fun d =>
        {| db_agents := db_agents d; db_deleted_agents := db_deleted_agents d;
           db_next_agent_id := db_next_agent_id d; db_tasks := catalog;
           db_task_logs := db_task_logs d; db_next_log_id := db_next_log_id d;
           db_stats := db_stats d |}) p
  end.

(** The panel after a sequence of operations, oldest first. *)
Definition run (ops : list Op) (p : Panel) : Panel :=
  fold_left (fun p op => step op p) ops p.

(** The states the panel can be in: those reached from a database in which no
    agent has registered yet. *)
Inductive reachable : Panel -> Prop :=
  | reachable_initial p : panel.no_agents (database p) -> reachable p
  | reachable_step op p : reachable p -> reachable (step op p).

(** The request regenerates the token of a live agent that is still
    pending. *)
Definition regenerates_pending_token (r : panel.Request) (d : DB) : Prop :=
  match r with
  | panel.OperatorRegenerateToken ctx _ _ _ =>
      exists id a,
        ParseUint (controllers.Param ctx "id") 32 = Some id
        /\ In a (db_agents d) /\ ID a = id /\ Status a = "pending"
  | _ => False
  end.

Definition regenerates_pending (op : Op) (p : Panel) : Prop :=
  match op with
  | OpServe r => regenerates_pending_token r (database p)
  | _ => False
  end.

(** The states reached without regenerating the token of a pending agent. *)
Inductive reachable_approved_regen : Panel -> Prop :=
  | rar_initial p : panel.no_agents (database p) -> reachable_approved_regen p
  | rar_step op p :
      reachable_approved_regen p ->
      ~ regenerates_pending op p ->
      reachable_approved_regen (step op p).

(** ** Binding the body of a report ([ShouldBindJSON], [encoding/json]) *)

(** [strconv.ParseInt(s, 10, bitSize)]: an optional sign and the digits of
    [ParseUint], within the range of a signed integer of [bitSize] bits;
    [None] stands for the syntax and range errors. *)
Definition ParseInt (s : string) (bitSize : N) : option Z :=
  match s with
  | EmptyString => None
  | String c rest =>
      let neg := Ascii.eqb c "-" in
      let digits := if Ascii.eqb c "+" || neg then rest else s in
      match ParseUint digits bitSize with
      | None => None
      | Some un =>
          let cutoff := (2 ^ (bitSize - 1))%N in
          if negb neg && (cutoff <=? un)%N then None
          else if neg && (cutoff <? un)%N then None
          else Some (if neg then - Z.of_N un else Z.of_N un)
      end
  end.

Module json.

(** The value of a member of a JSON object, as the decoder of a scalar field
    sees it: a number keeps its literal; of an array or an object only the
    kind matters. *)
Inductive Value :=
  | Null
  | Bool (b : bool)
  | Number (literal : string)
  | Str (s : string)
  | Array
  | Object.

(** The body of a request as [Decoder.Decode] reads it: no JSON value (the
    body is empty or ill-formed), [null], an object with its members in the
    order they are written, or a value of another kind. *)
Inductive Body :=
  | NoValue
  | TopNull
  | TopObject (members : list (string * Value))
  | TopOther.

(** [foldName] on the runes that fold to an ASCII letter: a lower-case ASCII
    letter, U+017F (long s) and U+212A (the Kelvin sign), in UTF-8.  Every
    other byte is kept: in any case it differs from the bytes of a folded
    ASCII name. *)
Fixpoint foldName (s : string) : string :=
  match s with
  | EmptyString => ""
  | String c0 rest =>
      let b0 := byte_of c0 in
      if ((97 <=? b0) && (b0 <=? 122))%N then String (ascii_of_N (b0 - 32)) (foldName rest)
      else
        match rest with
        | EmptyString => String c0 ""
        | String c1 rest1 =>
            let b1 := byte_of c1 in
            if ((b0 =? 197) && (b1 =? 191))%N then String "S" (foldName rest1)
            else
              match rest1 with
              | EmptyString => String c0 (foldName rest)
              | String c2 rest2 =>
                  if ((b0 =? 226) && (b1 =? 132) && (byte_of c2 =? 170))%N
                  then String "K" (foldName rest2)
                  else String c0 (foldName rest)
              end
        end
  end.

(** The fields of [models.AgentTaskResult]. *)
Inductive Field :=
  | TaskID | AgentID | Command | Output | Status | Duration | ExitCode | StartTime | EndTime.

#[global] Instance Field_eq_dec : EqDecision Field.
Proof. solve_decision. Defined.

(** The [json] tag of a field. *)
Definition name (f : Field) : string :=
  match f with
  | TaskID => "task_id"
  | AgentID => "agent_id"
  | Command => "command"
  | Output => "output"
  | Status => "status"
  | Duration => "duration"
  | ExitCode => "exit_code"
  | StartTime => "start_time"
  | EndTime => "end_time"
  end.

Definition fields : list Field :=
  [TaskID; AgentID; Command; Output; Status; Duration; ExitCode; StartTime; EndTime].

(** The field a key of the object names: the one whose tag is the key, and
    else the one whose tag equals the key under case folding. *)
Definition field_of (key : string) : option Field :=
  match List.find (fun f => String.eqb (name f) key) fields with
  | Some f => Some f
  | None => List.find (fun f => String.eqb (foldName (name f)) (foldName key)) fields
  end.

(** The value of a field of the struct. *)
Definition get (f : Field) (r : AgentTaskResult) : N + Z + string :=
  match f with
  | TaskID => inl (inl (r_TaskID r))
  | AgentID => inl (inl (r_AgentID r))
  | Command => inr (r_Command r)
  | Output => inr (r_Output r)
  | Status => inr (r_Status r)
  | Duration => inl (inr (r_Duration r))
  | ExitCode => inl (inr (r_ExitCode r))
  | StartTime => inl (inr (r_StartTime r))
  | EndTime => inl (inr (r_EndTime r))
  end.

(** Two structs with the same values but for the fields of [ignored]. *)
Definition same_fields_but (ignored : Field -> bool) (r1 r2 : AgentTaskResult) : Prop :=
  forall f, ignored f = false -> get f r1 = get f r2.

(** The zero value of the struct. *)
Definition zero : AgentTaskResult :=
  {| r_TaskID := 0; r_AgentID := 0; r_Command := ""; r_Output := ""; r_Status := "";
     r_Duration := 0; r_ExitCode := 0; r_StartTime := 0; r_EndTime := 0 |}.

Section Decode.

(** The width in bits of [int] and [uint] on the platform the panel is built
    for ([strconv.IntSize]). *)
Variable intSize : N.

(** A number literal stored into an unsigned field of [bits] bits. *)
Definition to_uint (bits : N) (literal : string) : option N :=
  match ParseUint literal 64 with
  | Some n => if (n <? 2 ^ bits)%N then Some n else None
  | None => None
  end.

(** A number literal stored into a signed field of [bits] bits. *)
Definition to_int (bits : N) (literal : string) : option Z :=
  match ParseInt literal 64 with
  | Some n =>
      if (- 2 ^ (Z.of_N bits - 1) <=? n) && (n <? 2 ^ (Z.of_N bits - 1)) then Some n
      else None
  | None => None
  end.

(** One member of the object stored into its field: [null] leaves the field
    as it is; a number literal goes to a numeric field when it parses and
    fits, a string to a string field; [None] is the decoder's type error. *)
Definition store_field (f : Field) (v : Value) (r : AgentTaskResult)
    : option AgentTaskResult :=
  let num (set : N -> AgentTaskResult) :=
    match v with
    | Null => Some r
    | Number literal => set <$> to_uint intSize literal
    | _ => None
    end in
  let int (bits : N) (set : Z -> AgentTaskResult) :=
    match v with
    | Null => Some r
    | Number literal => set <$> to_int bits literal
    | _ => None
    end in
  let str (set : string -> AgentTaskResult) :=
    match v with
    | Null => Some r
    | Str s => Some (set s)
    | _ => None
    end in
  match f with
  | TaskID =>
      num (fun n => {| r_TaskID := n; r_AgentID := r_AgentID r; r_Command := r_Command r;
                       r_Output := r_Output r; r_Status := r_Status r;
                       r_Duration := r_Duration r; r_ExitCode := r_ExitCode r;
                       r_StartTime := r_StartTime r; r_EndTime := r_EndTime r |})
  | AgentID =>
      num (fun n => {| r_TaskID := r_TaskID r; r_AgentID := n; r_Command := r_Command r;
                       r_Output := r_Output r; r_Status := r_Status r;
                       r_Duration := r_Duration r; r_ExitCode := r_ExitCode r;
                       r_StartTime := r_StartTime r; r_EndTime := r_EndTime r |})
  | Command =>
      str (fun s => {| r_TaskID := r_TaskID r; r_AgentID := r_AgentID r; r_Command := s;
                       r_Output := r_Output r; r_Status := r_Status r;
                       r_Duration := r_Duration r; r_ExitCode := r_ExitCode r;
                       r_StartTime := r_StartTime r; r_EndTime := r_EndTime r |})
  | Output =>
      str (fun s => {| r_TaskID := r_TaskID r; r_AgentID := r_AgentID r;
                       r_Command := r_Command r; r_Output := s; r_Status := r_Status r;
                       r_Duration := r_Duration r; r_ExitCode := r_ExitCode r;
                       r_StartTime := r_StartTime r; r_EndTime := r_EndTime r |})
  | Status =>
      str (fun s => {| r_TaskID := r_TaskID r; r_AgentID := r_AgentID r;
                       r_Command := r_Command r; r_Output := r_Output r; r_Status := s;
                       r_Duration := r_Duration r; r_ExitCode := r_ExitCode r;
                       r_StartTime := r_StartTime r; r_EndTime := r_EndTime r |})
  | Duration =>
      int 64%N (fun n => {| r_TaskID := r_TaskID r; r_AgentID := r_AgentID r;
                          r_Command := r_Command r; r_Output := r_Output r;
                          r_Status := r_Status r; r_Duration := n;
                          r_ExitCode := r_ExitCode r; r_StartTime := r_StartTime r;
                          r_EndTime := r_EndTime r |})
  | ExitCode =>
      int intSize (fun n => {| r_TaskID := r_TaskID r; r_AgentID := r_AgentID r;
                               r_Command := r_Command r; r_Output := r_Output r;
                               r_Status := r_Status r; r_Duration := r_Duration r;
                               r_ExitCode := n; r_StartTime := r_StartTime r;
                               r_EndTime := r_EndTime r |})
  | StartTime =>
      int 64%N (fun n => {| r_TaskID := r_TaskID r; r_AgentID := r_AgentID r;
                          r_Command := r_Command r; r_Output := r_Output r;
                          r_Status := r_Status r; r_Duration := r_Duration r;
                          r_ExitCode := r_ExitCode r; r_StartTime := n;
                          r_EndTime := r_EndTime r |})
  | EndTime =>
      int 64%N (fun n => {| r_TaskID := r_TaskID r; r_AgentID := r_AgentID r;
                          r_Command := r_Command r; r_Output := r_Output r;
                          r_Status := r_Status r; r_Duration := r_Duration r;
                          r_ExitCode := r_ExitCode r; r_StartTime := r_StartTime r;
                          r_EndTime := n |})
  end.

(** The members of the object, decoded in the order they are written: a key
    that names no field is skipped; after a type error the decoder goes on
    and reports the error at the end. *)
Fixpoint decode_members (ms : list (string * Value)) (r : AgentTaskResult)
    : AgentTaskResult * bool :=
  match ms with
  | [] => (r, false)
  | (key, v) :: rest =>
      match field_of key with
      | None => decode_members rest r
      | Some f =>
          match store_field f v r with
          | Some r' => decode_members rest r'
          | None => (fst (decode_members rest r), true)
          end
      end
  end.

(** [ShouldBindJSON(&result)]: the struct after decoding the body, and
    whether an error was reported: [null] leaves the struct as it is, and a
    value that is neither [null] nor an object is a type error.  The struct
    carries no [binding] tag, so the validation that follows the decoding
    accepts it. *)
Definition Bind (body : Body) : AgentTaskResult * bool :=
  match body with
  | NoValue => (zero, true)
  | TopNull => (zero, false)
  | TopObject ms => decode_members ms zero
  | TopOther => (zero, true)
  end.

(** The context of a [ReportResult] request with the given headers, caller
    and body. *)
Definition report (headers : list (string * string)) (ip : string)
    (body : Body) : gin.Context AgentTaskResult :=
  gin.mkContext headers ip (fst (Bind body)) (snd (Bind body)).

(** The value can be stored into the field. *)
Definition fits (f : Field) (v : Value) : Prop := store_field f v zero <> None.

End Decode.

(** Two lists of members with the same keys in the same order, and the same
    values but for the members that name a field of [ignored]. *)
Definition same_members_but (ignored : Field -> bool) (ms1 ms2 : list (string * Value))
    : Prop :=
  Forall2 (fun m1 m2 =>
             fst m1 = fst m2
             /\ (snd m1 = snd m2
                 \/ exists f, field_of (fst m1) = Some f /\ ignored f = true)) ms1 ms2.

(** Two bodies that are the same but for the values they give to the fields
    of [ignored]. *)
Definition same_body_but (ignored : Field -> bool) (body1 body2 : Body) : Prop :=
  body1 = body2
  \/ exists ms1 ms2,
       body1 = TopObject ms1 /\ body2 = TopObject ms2
       /\ same_members_but ignored ms1 ms2.

(** Every member of the body that names a field of [ignored] holds a value
    that field can store. *)
Definition ignored_fit (intSize : N) (ignored : Field -> bool) (body : Body) : Prop :=
  forall ms, body = TopObject ms ->
    Forall (fun m => forall f, field_of (fst m) = Some f -> ignored f = true ->
                               fits intSize f (snd m)) ms.

End json.

(** ** Notions used to state the properties *)



(** The token rule of the registry for one agent: an agent that left the
    pending state holds a token; under [strict] a pending agent holds none. *)
Definition token_rule (strict : bool) (a : Agent) : Prop :=
  (Status a <> "pending" -> Token a <> "")
  /\ (strict = true -> Status a = "pending" -> Token a = "").

(** The registry invariant: the token rule on every row, soft-deleted ones
    included, over a well-formed agent table. *)
Definition registry_inv (strict : bool) (d : DB) : Prop :=
  Forall (token_rule strict) (db_agents d ++ db_deleted_agents d)
  /\ panel.agents_ok d.

(** One row rewritten: the key is kept, and a row that is pending afterwards
    was pending before, with the token it had (under [keeps_token]). *)
Definition row_step (keeps_token : bool) (a b : Agent) : Prop :=
  ID b = ID a
  /\ (Status b = "pending" ->
      Status a = "pending" /\ (keeps_token = true -> Token b = Token a)).

(** What a request does to the agent table: it rewrites rows, soft-deletes the
    rows of one key, or inserts one row under the next key. *)
Inductive table_change (keeps_token : bool) (d d' : DB) : Prop :=
  | change_rows (p : Agent -> bool) (f : Agent -> Agent) :
      db_agents d' = update_where p f (db_agents d) ->
      db_deleted_agents d' = db_deleted_agents d ->
      db_next_agent_id d' = db_next_agent_id d ->
      (forall a, In a (db_agents d) -> p a = true -> row_step keeps_token a (f a)) ->
      table_change keeps_token d d'
  | change_delete (id : N) :
      db_agents d' = delete_where (id_is id) (db_agents d) ->
      db_deleted_agents d'
      = (db_deleted_agents d ++ List.filter (id_is id) (db_agents d))%list ->
      db_next_agent_id d' = db_next_agent_id d ->
      table_change keeps_token d d'
  | change_create (a : Agent) :
      db_agents d' = (db_agents d ++ [a])%list ->
      db_deleted_agents d' = db_deleted_agents d ->
      db_next_agent_id d' = N.succ (db_next_agent_id d) ->
      ID a = db_next_agent_id d ->
      (Status a = "pending" -> Token a = "") ->
      table_change keeps_token d d'.

(** The live rows are in the order of their primary keys. *)
Definition keys_ascend (d : DB) : Prop :=
  StronglySorted N.lt (List.map ID (db_agents d)).

(** The update test of [Heartbeat], on the published and the reported
    version. *)
Definition need_update (latestVersion reported : string) : bool :=
  negb (String.eqb latestVersion "") && negb (String.eqb reported "")
  && negb (String.eqb reported latestVersion).

(** A stored field after a heartbeat that carried [incoming] for it. *)
Definition overwritten (incoming before after : string) : Prop :=
  (incoming = "" -> after = before) /\ (incoming <> "" -> after = incoming).

(** The agent has shown no sign of life for more than two minutes at [now]:
    it is online with a last heartbeat before [now - 120] seconds. *)
Definition stale (now : LocalTime) (a : Agent) : Prop :=
  Status a = "online" /\ exists seen, LastSeen a = Some seen /\ seen < now - 120.

(** The payload field that names the reporting agent. *)
Definition agent_id_only (f : json.Field) : bool := bool_decide (f = json.AgentID).

(** The payload fields [ReportResult] does not store. *)
Definition not_stored (f : json.Field) : bool :=
  bool_decide (f = json.AgentID \/ f = json.StartTime \/ f = json.EndTime).

(** Two reported results that agree on what [ReportResult] stores: the task,
    the command, the output, the status, the duration and the exit code. *)
Definition same_run (r1 r2 : AgentTaskResult) : Prop :=
  r_TaskID r1 = r_TaskID r2 /\ r_Command r1 = r_Command r2 /\ r_Output r1 = r_Output r2
  /\ r_Status r1 = r_Status r2 /\ r_Duration r1 = r_Duration r2
  /\ r_ExitCode r1 = r_ExitCode r2.

(** The number of logs of the task of [l] that are newer than [l]. *)
Definition newer_logs (l : models.TaskLog) (logs : list models.TaskLog) : nat :=
  length (List.filter (fun x => tasks.task_is (models.tl_TaskID l) x
                                && N.ltb (models.tl_ID l) (models.tl_ID x)) logs).

(** An ASCII white-space byte: tab, line feed, vertical tab, form feed,
    carriage return or space. *)
Definition blank (c : ascii) : bool :=
  let b := byte_of c in ((9 <=? b) && (b <=? 13) || (b =? 32))%N.

(** No byte of [s] is ASCII white space. *)
Definition free_of_blank (s : string) : Prop :=
  Forall (fun c => blank c = false) (list_ascii_of_string s).

(** [s] consists of ASCII white space. *)
Definition blanks (s : string) : Prop :=
  Forall (fun c => blank c = true) (list_ascii_of_string s).

(** [s] consists of ASCII bytes that are not white space. *)
Definition visible_ascii (s : string) : Prop :=
  Forall (fun c => blank c = false /\ (byte_of c < 128)%N) (list_ascii_of_string s).

(** The number a string of decimal digits denotes, continuing from [acc];
    [None] when a byte is not a digit. *)
Fixpoint digits_value (s : string) (acc : N) : option N :=
  match s with
  | EmptyString => Some acc
  | String c rest =>
      match digit_value c with
      | Some d => digits_value rest (acc * 10 + d)
      | None => None
      end
  end.

(** The id a route parameter denotes: the value of a non-empty string of
    decimal digits, when it is below 2^32. *)
Definition route_id (s : string) : option N :=
  match s with
  | EmptyString => None
  | _ =>
      match digits_value s 0 with
      | Some n => if (n <? 2 ^ 32)%N then Some n else None
      | None => None
      end
  end.

(** ** A session used in the examples

    One agent registers as worker-1, is approved, and heartbeats. *)
Definition id_codec (s : string) : option string := Some s.

Definition bearer {B} (token ip : string) (body : B) : gin.Context B :=
  gin.mkContext [("Authorization", "Bearer " ++ token)] ip body false.

Definition worker1 : AgentRegisterRequest :=
  {| rq_Name := "worker-1"; rq_Hostname := "host-a"; rq_Version := "1.0" |}.

Definition hb_old : HeartbeatRequest :=
  {| hb_Version := "1.0"; hb_BuildTime := ""; hb_Hostname := ""; hb_OS := "linux";
     hb_Arch := ""; hb_AutoUpdate := false |}.

Definition result0 (agentID : N) : AgentTaskResult :=
  {| r_TaskID := 7; r_AgentID := agentID; r_Command := "echo ok"; r_Output := "ok";
     r_Status := "success"; r_Duration := 12; r_ExitCode := 0; r_StartTime := 1030;
     r_EndTime := 1031 |}.

(** The database before any request. *)
Definition db0 : DB :=
  {| db_agents := []; db_deleted_agents := []; db_next_agent_id := 1; db_tasks := [];
     db_task_logs := []; db_next_log_id := 1; db_stats := [] |}.

(** A request of the operator for the agent [id]. *)
Definition route_of {B} (id : string) (body : B) : controllers.Route B :=
  controllers.mkRoute (gin.mkContext [] "192.168.0.2" body false) [("id", id)] [].

(** The database after [worker1] has registered, and after its approval. *)
Definition db_registered : DB := snd (services.Register worker1 "10.0.0.7" 1000 None db0).

Definition db_approved : DB := snd (services.Approve 1 1010 [] None db_registered).

(** The token of the approval. *)
Definition agent_token : string := services.generateToken [].

(** A host that publishes the agent version [version]. *)
Definition published (version : string) : FS :=
  {| ReadFile := fun p => if String.eqb p "/opt/agent/version.txt" then Some version else None;
     ReadDir := fun _ => None |}.

(** A session: registration, approval, a heartbeat, a sweep, a new token, a
    rejection. *)
Definition session : list panel.Request :=
  [panel.AgentRegister (gin.mkContext [] "10.0.0.7" worker1 false) 1000 None;
   panel.OperatorApprove (route_of "1" tt) 1010 [] None;
   panel.AgentHeartbeat (bearer agent_token "10.0.0.7" hb_old) 1020 (published "1.1");
   panel.OfflineSweep 1200;
   panel.OperatorRegenerateToken (route_of "1" tt) 1210 [Byte.x01] None;
   panel.OperatorReject (route_of "1" tt)].

(** A task that keeps its three newest logs, and a database with seven logs,
    five of them of the task. *)
Definition keep3 : models.Task :=
  {| models.tk_ID := 7; models.tk_Name := "nightly"; models.tk_Command := "echo ok";
     models.tk_Schedule := "0 3 * * *"; models.tk_Timeout := 60; models.tk_WorkDir := "";
     models.tk_Envs := ""; models.tk_Enabled := true; models.tk_AgentID := Some 1%N;
     models.tk_CleanConfig := "count 3"; models.tk_LastRun := None |}.

Definition log_of (id taskID : N) : models.TaskLog :=
  {| models.tl_ID := id; models.tl_TaskID := taskID; models.tl_AgentID := Some 1%N;
     models.tl_Command := "echo ok"; models.tl_Output := "ok"; models.tl_Error := "";
     models.tl_Status := "success"; models.tl_Duration := 12; models.tl_ExitCode := 0;
     models.tl_StartTime := None; models.tl_EndTime := None; models.tl_CreatedAt := 1030 |}.

Definition db_logs : DB :=
  {| db_agents := []; db_deleted_agents := []; db_next_agent_id := 2; db_tasks := [keep3];
     db_task_logs := [log_of 1 7; log_of 2 8; log_of 3 7; log_of 4 7; log_of 5 8;
                      log_of 6 7; log_of 7 7];
     db_next_log_id := 8; db_stats := [] |}.

(** A reader of clean configurations that knows the one of [keep3]. *)
Definition read_config (s : string) : option tasks.CleanConfig :=
  if String.eqb s "count 3" then Some {| tasks.Type_ := "count"; tasks.Keep := 3 |}
  else None.

(** A host on which conda is installed at [/opt/conda/bin/conda] and reports
    three environments. *)
Definition conda_host_LookPath (p : string) : option string :=
  if String.eqb p "/opt/conda/bin/conda" then Some "/opt/conda/bin/conda" else None.

Definition conda_host_Output (line : list string) : deps_env.error + string :=
  if bool_decide (line = ["/opt/conda/bin/conda"; "env"; "list"; "--json"])
  then inr "envs" else inl (deps_env.CommandError "exit status 1").

Definition conda_host_Unmarshal (s : string) : deps_env.error + list string :=
  if String.eqb s "envs"
  then inr ["/opt/conda"; "/opt/conda/envs/py311"; "/opt/conda/envs/.hidden"]
  else inl (deps_env.UnmarshalError "unexpected end of JSON input").

Definition conda_host : deps_env.RuntimeManager deps_env.CondaManager :=
  deps_env.conda_manager conda_host_LookPath conda_host_Output conda_host_Output
    conda_host_Unmarshal.

(** The approved agent with three tasks in the table: one of its own, one of
    its own that is disabled, one of another agent. *)
Definition task_of (id : N) (agentID : N) (enabled : bool) : models.Task :=
  {| models.tk_ID := id; models.tk_Name := "job"; models.tk_Command := "echo ok";
     models.tk_Schedule := "0 3 * * *"; models.tk_Timeout := 60; models.tk_WorkDir := "";
     models.tk_Envs := ""; models.tk_Enabled := enabled; models.tk_AgentID := Some agentID;
     models.tk_CleanConfig := ""; models.tk_LastRun := None |}.

Definition db_tasked : DB :=
  {| db_agents := db_agents db_approved; db_deleted_agents := [];
     db_next_agent_id := 2; db_tasks := [task_of 7 1 true; task_of 8 1 false; task_of 9 2 true];
     db_task_logs := []; db_next_log_id := 1; db_stats := [] |}.

(** The worlds of the session: before any request, after the registration of
    [worker1], after its approval, and then with the agent disabled by the
    operator, or flagged for a forced update. *)
Definition on_store (f : DB -> DB) (w : World) : World :=
  {| store := f (store w); calls := calls w |}.

Definition initial : World := {| store := db0; calls := [] |}.

Definition registered : World :=
  snd (AgentController.Register (gin.mkContext [] "10.0.0.7" worker1 false) 1000 None
         initial).

Definition approved : World :=
  on_store (fun d => snd (services.Approve 1 1010 [] None d)) registered.

Definition disabled : World :=
  on_store (fun d => snd (services.Update 1 "worker-1" "" false 1015 d)) approved.

Definition flagged : World :=
  on_store (fun d => snd (services.SetForceUpdate 1 1015 d)) approved.

(** The panel of the session, with no registration code. *)
Definition panel0 : Panel := {| database := db0; codes := []; next_code_id := 1 |}.

(** The body of a report of task 7 that names the agent [agentID]. *)
Definition report_body (agentID : string) : json.Body :=
  json.TopObject
    [("task_id", json.Number "7"); ("agent_id", json.Number agentID);
     ("command", json.Str "echo ok"); ("output", json.Str "ok");
     ("status", json.Str "success"); ("duration", json.Number "12");
     ("exit_code", json.Number "0"); ("start_time", json.Number "1030");
     ("end_time", json.Number "1031")].

(** The same session as operations on the panel: the registration of
    [worker1], its approval by the operator, and a regeneration of its
    token. *)
Definition register1 : Op :=
  OpServe (panel.AgentRegister (gin.mkContext [] "10.0.0.7" worker1 false) 1000 None).

Definition approve1 : Op := OpServe (panel.OperatorApprove (route_of "1" tt) 1010 [] None).

Definition regenerate1 : Op :=
  OpServe (panel.OperatorRegenerateToken (route_of "1" tt) 1005 [] None).

Definition panel_registered : Panel := step register1 panel0.

Definition panel_approved : Panel := step approve1 panel_registered.

(** The row of [worker1] once approved. *)
Definition approved_row : Agent :=
  {| ID := 1; Name := "worker-1"; Token := agent_token; Description := "";
     Status := "online"; LastSeen := Some 1010; IP := "10.0.0.7"; Version := "1.0";
     BuildTime := ""; Hostname := "host-a"; OS := ""; Arch := ""; ForceUpdate := false;
     Enabled := true; CreatedAt := 1000; UpdatedAt := 1010 |}.

(** * Properties *)

(** ** String splitting *)







(** ** Rows and updates *)

Lemma in_update_where {A} (p : A -> bool) (f : A -> A) rows x :
  In x (update_where p f rows) <->
  exists r, In r rows /\ x = (if p r then f r else r).
Proof.
  unfold update_where. rewrite in_map_iff. split; intros (r & H1 & H2); exists r; auto.
Qed.

Lemma map_update_where {A K} (key : A -> K) (p : A -> bool) (f : A -> A) rows :
  (forall r, key (f r) = key r) ->
  List.map key (update_where p f rows) = List.map key rows.
Proof.
  intros Hk. unfold update_where. rewrite List.map_map. apply List.map_ext.
  intros r. by destruct (p r).
Qed.

Lemma in_delete_where {A} (p : A -> bool) rows x :
  In x (delete_where p rows) <-> In x rows /\ p x = false.
Proof.
  unfold delete_where. rewrite filter_In. by rewrite negb_true_iff.
Qed.

Lemma NoDup_map_filter {A K} (key : A -> K) (p : A -> bool) rows :
  NoDup (List.map key rows) -> NoDup (List.map key (List.filter p rows)).
Proof.
  induction rows as [|r rows IH]; simpl; [done|].
  rewrite !NoDup_cons. intros [Hr Hnd]. destruct (p r); simpl; [|by auto].
  rewrite NoDup_cons. split; [|by auto].
  rewrite list_elem_of_In, in_map_iff in *. intros (x & Hx & Hin).
  apply Hr. exists x. split; [done|]. apply filter_In in Hin. tauto.
Qed.

Lemma unique_key {A K} (key : A -> K) rows a b :
  NoDup (List.map key rows) -> In a rows -> In b rows -> key a = key b -> a = b.
Proof.
  induction rows as [|r rows IH]; simpl; [done|].
  rewrite NoDup_cons, list_elem_of_In, in_map_iff. intros [Hr Hnd] [->|Ha] [->|Hb] E; auto.
  - destruct Hr. by exists b.
  - destruct Hr. by exists a.
Qed.

(** ** Lookups after an update *)

Lemma find_update_where {A} (p q : A -> bool) (f : A -> A) rows a :
  List.find p rows = Some a -> q a = true -> (forall x, p (f x) = p x) ->
  List.find p (update_where q f rows) = Some (f a).
Proof.
  intros Hfind Hq Hp. induction rows as [|r rows IH]; simpl in *; [done|].
  destruct (p r) eqn:Hr.
  - injection Hfind as ->. by rewrite Hq, Hp, Hr.
  - destruct (q r); rewrite ?Hp, Hr; auto.
Qed.

Lemma find_update_where_None {A} (p q : A -> bool) (f : A -> A) rows :
  List.find p rows = None -> (forall x, p (f x) = p x) ->
  List.find p (update_where q f rows) = None.
Proof.
  intros Hfind Hp. induction rows as [|r rows IH]; simpl in *; [done|].
  destruct (p r) eqn:Hr; [done|].
  destruct (q r); rewrite ?Hp, Hr; auto.
Qed.

(** ** Lists sorted newest first *)

#[local] Instance newest_first_total : Total (flip N.le).
Proof. intros x y. unfold flip. lia. Qed.

#[local] Instance newest_first_trans : Transitive (flip N.le).
Proof. intros x y z. unfold flip. lia. Qed.

#[local] Instance newest_first_antisymm : AntiSymm (=) (flip N.le).
Proof. intros x y. unfold flip. lia. Qed.

Lemma filter_none {A} (p : A -> bool) l :
  (forall x, In x l -> p x = false) -> List.filter p l = [].
Proof.
  induction l as [|x l IH]; simpl; [done|]. intros H.
  rewrite (H x) by auto. auto.
Qed.

Lemma filter_Permutation {A} (p : A -> bool) l1 l2 :
  l1 ≡ₚ l2 -> List.filter p l1 ≡ₚ List.filter p l2.
Proof.
  induction 1 as [|x l1 l2 _ IH|x y l|l1 l2 l3 _ IH1 _ IH2]; simpl.
  - done.
  - destruct (p x); by rewrite ?IH.
  - destruct (p x), (p y); try done. apply perm_swap.
  - by rewrite IH1.
Qed.

Lemma filter_filter {A} (p q : A -> bool) l :
  List.filter p (List.filter q l) = List.filter (fun x => q x && p x) l.
Proof.
  induction l as [|x l IH]; simpl; [done|].
  destruct (q x); simpl; [|done]. destruct (p x); by rewrite IH.
Qed.

Lemma filter_map_swap {A B} (f : A -> B) (p : B -> bool) l :
  List.filter p (List.map f l) = List.map f (List.filter (fun x => p (f x)) l).
Proof.
  induction l as [|x l IH]; simpl; [done|]. destruct (p (f x)); simpl; by rewrite IH.
Qed.

(** In a list sorted newest first, the entry at position [m] is greater than
    [v] exactly when more than [m] entries are. *)
Lemma newest_first_nth_newer l v m :
  StronglySorted (flip N.le) l ->
  (exists b, l !! m = Some b /\ (v < b)%N) <->
  (S m <= length (List.filter (fun x => (v <? x)%N) l))%nat.
Proof.
  intros Hs. revert m. induction Hs as [|x l Hs IH Hall]; intros m.
  - simpl. split; [by intros (b & H & _)|lia].
  - rewrite Forall_forall in Hall. simpl. destruct (N.ltb_spec v x) as [Hlt|Hge].
    + destruct m as [|m]; simpl.
      * split; [lia|]. intros _. by exists x.
      * rewrite IH. lia.
    + rewrite filter_none.
      2:{ intros y Hy%list_elem_of_In%Hall. unfold flip in Hy. apply N.ltb_ge. lia. }
      simpl. split; [|lia]. intros (b & Hb & Hlt). destruct m as [|m]; simpl in Hb.
      * injection Hb as ->. lia.
      * apply list_elem_of_lookup_2, Hall in Hb. unfold flip in Hb. lia.
Qed.

(** In a duplicate-free list sorted newest first, the entries not below the one
    at position [m] are the first [m + 1]. *)
Lemma newest_first_filter_take l b m :
  StronglySorted (flip N.le) l -> NoDup l -> l !! m = Some b ->
  List.filter (fun x => negb (x <? b)%N) l = take (S m) l.
Proof.
  intros Hs. revert m. induction Hs as [|x l Hs IH Hall]; intros m Hnd Hb; [done|].
  rewrite Forall_forall in Hall. apply NoDup_cons in Hnd as [Hx Hnd].
  destruct m as [|m]; simpl in Hb.
  - injection Hb as ->. simpl. rewrite N.ltb_irrefl. simpl. f_equal.
    rewrite take_0. apply filter_none. intros y Hy%list_elem_of_In.
    apply negb_false_iff, N.ltb_lt. pose proof (Hall y Hy) as Hle. unfold flip in Hle.
    assert (y <> b) by (by intros ->). lia.
  - simpl. pose proof (list_elem_of_lookup_2 _ _ _ Hb) as Hin%Hall. unfold flip in Hin.
    rewrite (proj2 (N.ltb_ge x b)) by lia. simpl. f_equal. by apply IH.
Qed.

(** ** Splitting and trimming *)

Ltac push_append :=
  repeat match goal with
         | |- context [String ?a ?s ++ ?t] =>
             change (String a s ++ t) with (String a (s ++ t))
         | |- context ["" ++ ?t] => change ("" ++ t) with t
         end.

Lemma length_append s t :
  String.length (s ++ t) = (String.length s + String.length t)%nat.
Proof. induction s as [|a s IH]; push_append; simpl; [done|]. by rewrite IH. Qed.

Lemma CutPrefix_app s p : CutPrefix (p ++ s) p = Some s.
Proof.
  induction p as [|c p IH]; push_append; cbn [CutPrefix]; [done|].
  by rewrite Ascii.eqb_refl.
Qed.

Lemma CutPrefix_Some s p rest : CutPrefix s p = Some rest -> s = p ++ rest.
Proof.
  revert s. induction p as [|c p IH]; intros s; simpl.
  - by intros [= ->].
  - destruct s as [|b s]; [done|]. destruct (Ascii.eqb_spec c b) as [<-|]; [|done].
    intros H%IH. by rewrite H.
Qed.

Lemma HasPrefix_app s p : HasPrefix (p ++ s) p = true.
Proof. unfold HasPrefix. by rewrite CutPrefix_app. Qed.

(** [c] does not occur in [s]. *)
Lemma free_of_cons c a s : free_of c (String a s) <-> a <> c /\ free_of c s.
Proof. unfold free_of. simpl. rewrite Forall_cons. tauto. Qed.

Lemma free_of_app c s t : free_of c (s ++ t) <-> free_of c s /\ free_of c t.
Proof.
  induction s as [|a s IH].
  - change ("" ++ t) with t. unfold free_of at 2. simpl. rewrite Forall_nil. tauto.
  - change (String a s ++ t) with (String a (s ++ t)). rewrite !free_of_cons, IH. tauto.
Qed.

Lemma Cut_char_None c s : free_of c s -> Cut s (String c "") = None.
Proof.
  induction s as [|a s IH]; [done|]. intros [Ha Hs]%free_of_cons.
  cbn [Cut CutPrefix]. destruct (Ascii.eqb_spec c a) as [->|_]; [done|].
  by rewrite IH.
Qed.

Lemma Cut_char_app c a b :
  free_of c a -> Cut (a ++ String c b) (String c "") = Some (a, b).
Proof.
  induction a as [|x a IH]; intros Ha.
  - push_append. cbn [Cut CutPrefix]. by rewrite Ascii.eqb_refl.
  - apply free_of_cons in Ha as [Hx Ha]. push_append. cbn [Cut CutPrefix].
    destruct (Ascii.eqb_spec c x) as [->|_]; [done|]. by rewrite (IH Ha).
Qed.

Lemma SplitN_enough c s n :
  (String.length s < n)%nat ->
  SplitN s (String c "") n = split_char c s.
Proof.
  revert s. induction n as [|n IH]; intros s Hn; [lia|].
  destruct n as [|n].
  - destruct s; [done|simpl in Hn; lia].
  - change (SplitN s (String c "") (S (S n)))
      with (match Cut s (String c "") with
            | Some (before, after) => before :: SplitN after (String c "") (S n)
            | None => [s]
            end).
    induction s as [|x s IHs].
    + done.
    + cbn [Cut CutPrefix split_char].
      destruct (Ascii.eqb_spec c x) as [->|Hne].
      * rewrite Ascii.eqb_refl. rewrite IH by (simpl in Hn; lia). done.
      * destruct (Ascii.eqb_spec x c) as [->|_]; [done|].
        assert (String.length s < S (S n))%nat as Hs by (simpl in Hn; lia).
        specialize (IHs Hs).
        destruct (Cut s (String c "")) as [[a b]|] eqn:E.
        -- rewrite <- IHs. done.
        -- by rewrite <- IHs.
Qed.

Lemma Split_char c s : Split s (String c "") = split_char c s.
Proof. apply SplitN_enough. lia. Qed.

Lemma split_char_free c s : free_of c s -> split_char c s = [s].
Proof.
  induction s as [|a s IH]; [done|]. intros [Ha Hs]%free_of_cons. simpl.
  destruct (Ascii.eqb_spec a c); [done|]. by rewrite (IH Hs).
Qed.

Lemma split_char_app c a b :
  free_of c a -> split_char c (a ++ String c b) = a :: split_char c b.
Proof.
  induction a as [|x a IH]; intros Ha; push_append; cbn [split_char].
  - by rewrite Ascii.eqb_refl.
  - apply free_of_cons in Ha as [Hx Ha]. destruct (Ascii.eqb_spec x c); [done|].
    by rewrite (IH Ha).
Qed.

Lemma split_char_nonempty c s : split_char c s <> [].
Proof.
  destruct s as [|a s]; [done|]. simpl. destruct (Ascii.eqb a c); [done|].
  by destruct (split_char c s).
Qed.

Lemma split_char_pieces_free c s : Forall (free_of c) (split_char c s).
Proof.
  induction s as [|a s IH]; simpl.
  - apply Forall_singleton. unfold free_of. simpl. apply Forall_nil_2.
  - destruct (Ascii.eqb_spec a c) as [->|Hne].
    + apply Forall_cons. split; [|done]. unfold free_of. simpl. apply Forall_nil_2.
    + destruct (split_char c s) as [|p ps]; [apply Forall_singleton|].
      * apply free_of_cons. split; [done|]. unfold free_of. simpl. apply Forall_nil_2.
      * apply Forall_cons in IH as [Hp Hps]. apply Forall_cons. split; [|done].
        by apply free_of_cons.
Qed.

Lemma TrimSuffix_app s suffix : TrimSuffix (s ++ suffix) suffix = s.
Proof.
  induction s as [|a s IH]; push_append.
  - destruct suffix; cbn [TrimSuffix]; by rewrite ?String.eqb_refl.
  - cbn [TrimSuffix]. destruct (String.eqb_spec (String a (s ++ suffix)) suffix) as [E|_].
    + apply (f_equal String.length) in E. simpl in E. rewrite length_append in E. lia.
    + by rewrite IH.
Qed.

Lemma TrimSuffix_other s suffix :
  (forall a, s <> a ++ suffix) -> TrimSuffix s suffix = s.
Proof.
  induction s as [|a s IH]; intros Hno; cbn [TrimSuffix].
  - by destruct (String.eqb "" suffix).
  - destruct (String.eqb_spec (String a s) suffix) as [<-|_].
    + by destruct (Hno "").
    + rewrite IH; [done|]. intros b ->. by apply (Hno (String a b)).
Qed.

Lemma append_assoc s t u : (s ++ t) ++ u = s ++ (t ++ u).
Proof. induction s as [|a s IH]; push_append; [done|]. by rewrite IH. Qed.

Lemma append_nil_r s : s ++ "" = s.
Proof. induction s as [|a s IH]; push_append; [done|]. by rewrite IH. Qed.

Lemma nth_last {A} (l : list A) d : List.nth (length l - 1) l d = List.last l d.
Proof.
  induction l as [|x l IH]; [done|]. destruct l as [|y l]; [done|].
  simpl in *. by rewrite Nat.sub_0_r in IH.
Qed.

(** The last of the pieces of [s] around [c]. *)
Lemma last_piece_free c s : free_of c (List.last (split_char c s) "").
Proof.
  pose proof (split_char_pieces_free c s) as H.
  pose proof (split_char_nonempty c s) as Hne.
  induction (split_char c s) as [|p ps IH]; [done|].
  apply Forall_cons in H as [Hp Hps]. destruct ps as [|q ps]; [done|].
  by apply IH.
Qed.

Lemma split_char_sep c a b :
  split_char c (a ++ String c b) = (split_char c a ++ split_char c b)%list.
Proof.
  induction a as [|x a IH]; push_append; cbn [split_char].
  - by rewrite Ascii.eqb_refl.
  - rewrite IH. destruct (Ascii.eqb x c); [done|].
    pose proof (split_char_nonempty c a). by destruct (split_char c a).
Qed.

Lemma last_piece_app c a b :
  free_of c b -> List.last (split_char c (a ++ String c b)) "" = b.
Proof.
  intros Hb. rewrite split_char_sep, (split_char_free c b Hb).
  apply List.last_last.
Qed.

Lemma split_char_tail c a t :
  free_of c t ->
  exists ps q, split_char c a = (ps ++ [q])%list /\
               split_char c (a ++ t) = (ps ++ [(q ++ t)%string])%list.
Proof.
  intros Ht. induction a as [|x a (ps & q & E1 & E2)]; push_append.
  - exists [], "". by rewrite (split_char_free c t Ht).
  - cbn [split_char]. rewrite E1, E2. destruct (Ascii.eqb x c).
    + by exists ("" :: ps), q.
    + destruct ps as [|p ps]; simpl.
      * by exists [], (String x q).
      * by exists (String x p :: ps), q.
Qed.

Lemma last_piece_app_free c a t :
  free_of c t ->
  List.last (split_char c (a ++ t)) "" = List.last (split_char c a) "" ++ t.
Proof.
  intros Ht. destruct (split_char_tail c a t Ht) as (ps & q & -> & ->).
  by rewrite !List.last_last.
Qed.

Ltac free_of_literal :=
  unfold free_of; cbn; repeat (apply List.Forall_cons; [discriminate|]);
  apply List.Forall_nil.

Lemma binary_name_not_exe os arch a :
  free_of "-" arch -> (forall b, arch <> b ++ ".exe") ->
  "baihu-agent-" ++ os ++ "-" ++ arch <> a ++ ".exe".
Proof.
  intros Harch Hexe E.
  apply (f_equal (fun s => List.last (split_char "-" s) "")) in E.
  change ("baihu-agent-" ++ os ++ "-" ++ arch)
    with ("baihu-agent-" ++ (os ++ String "-" arch)) in E.
  rewrite <- append_assoc, (last_piece_app _ _ _ Harch) in E.
  rewrite last_piece_app_free in E by free_of_literal.
  by apply Hexe in E.
Qed.

(** The entry [GetAvailablePlatforms] derives from the file name
    [GetAgentBinary] looks for. *)
Lemma platform_of_filename os arch filename :
  free_of "-" os -> free_of "-" arch ->
  TrimSuffix filename ".exe" = "baihu-agent-" ++ os ++ "-" ++ arch ->
  HasPrefix filename "baihu-agent-" = true ->
  agent_files.platform_of filename =
    Some (<["os" := os]> (<["arch" := arch]> (<["filename" := filename]> ∅))).
Proof.
  intros Hos Harch Htrim Hpre. unfold agent_files.platform_of.
  rewrite Hpre, Htrim. change "-" with (String "-" "") at 2.
  rewrite Split_char.
  change ("baihu-agent-" ++ os ++ "-" ++ arch)
    with ("baihu" ++ String "-" ("agent" ++ String "-" (os ++ String "-" arch))).
  rewrite split_char_app by free_of_literal.
  rewrite split_char_app by free_of_literal.
  rewrite split_char_app by done.
  by rewrite split_char_free by done.
Qed.

Lemma HasSuffix_false s suffix a : HasSuffix s suffix = false -> s <> a ++ suffix.
Proof.
  revert s. induction a as [|x a IH]; intros s H E; subst s; push_append.
  - change ("" ++ suffix) with suffix in H.
    destruct suffix; cbn [HasSuffix] in H; by rewrite String.eqb_refl in H.
  - change (String x a ++ suffix) with (String x (a ++ suffix)) in H.
    cbn [HasSuffix] in H. apply orb_false_iff in H as [_ H]. by apply (IH _ H).
Qed.

(** X1: The file name under which [GetAgentBinary] looks for the program of
    a platform is listed by [GetAvailablePlatforms] as that platform: for an
    operating system and an architecture without a dash, the architecture not
    ending in [.exe] unless the system is windows, the entry derived from
    the file name has this system, this architecture and this file name. *)
Theorem platform_of_binary_name os arch :
  free_of "-" os -> free_of "-" arch ->
  (os = "windows" \/ HasSuffix arch ".exe" = false) ->
  agent_files.platform_of (agent_files.binary_name os arch) =
    Some (<["os" := os]> (<["arch" := arch]>
         (<["filename" := agent_files.binary_name os arch]> ∅))).
Proof.
  intros Hos Harch Hexe. apply platform_of_filename; try done.
  - unfold agent_files.binary_name. destruct (String.eqb_spec os "windows") as [->|Hw].
    + apply TrimSuffix_app.
    + destruct Hexe as [?|Hexe]; [done|]. apply TrimSuffix_other. intros a.
      apply binary_name_not_exe; [done|]. intros b. by apply HasSuffix_false.
  - unfold agent_files.binary_name. destruct (String.eqb os "windows").
    + rewrite append_assoc. apply HasPrefix_app.
    + apply HasPrefix_app.
Qed.

Lemma platform_of_binary_name_witness :
  agent_files.platform_of (agent_files.binary_name "linux" "amd64") =
    Some (<["os" := "linux"]> (<["arch" := "amd64"]>
         (<["filename" := agent_files.binary_name "linux" "amd64"]> ∅))).
Proof.
  apply (platform_of_binary_name "linux" "amd64");
    [free_of_literal | free_of_literal | right; reflexivity].
Defined.

(** A listed platform need not be downloadable: a file with a fifth
    dash-separated part is listed under a system and an architecture for which
    [GetAgentBinary] looks for another file name. *)
Example listed_not_downloadable :
  agent_files.platform_of "baihu-agent-linux-amd64-v2" =
    Some (<["os" := "linux"]> (<["arch" := "amd64"]>
         (<["filename" := "baihu-agent-linux-amd64-v2"]> ∅))) /\
  agent_files.binary_name "linux" "amd64" <> "baihu-agent-linux-amd64-v2".
Proof. split; [by vm_compute | discriminate]. Qed.

Lemma Join_split c elems :
  elems <> [] -> Forall (free_of c) elems ->
  split_char c (Join elems (String c "")) = elems.
Proof.
  induction elems as [|e rest IH]; [done|]. intros _ [He Hrest]%Forall_cons.
  destruct rest as [|e' rest]; [by apply split_char_free|].
  change (Join (e :: e' :: rest) (String c ""))
    with (e ++ String c (Join (e' :: rest) (String c ""))).
  rewrite split_char_app by done. by rewrite IH.
Qed.

Lemma clean_elements_plain rooted elems kept :
  Forall plain_element elems ->
  clean_elements rooted elems kept = (List.rev kept ++ elems)%list.
Proof.
  revert kept. induction elems as [|e rest IH]; intros kept H; cbn [clean_elements].
  - by rewrite app_nil_r.
  - apply Forall_cons in H as [(H1 & H2 & H3 & _) Hrest].
    apply String.eqb_neq in H1, H2, H3. rewrite H1, H2, H3. cbn [orb].
    rewrite IH by done. cbn [List.rev]. by rewrite <- app_assoc.
Qed.

Lemma Clean_rooted s :
  Clean (String "/" s) = "/" ++ Join (clean_elements true (split_char "/" s) []) "/".
Proof.
  unfold Clean. change "/"%string with (String "/" "") at 1. rewrite Split_char.
  reflexivity.
Qed.

(** Where [filepath.Join] puts a file name that climbs out of the directory. *)
Lemma filepath_Join_climb name elems :
  name <> "" -> name <> "." -> name <> ".." -> free_of "/" name ->
  elems <> [] -> Forall plain_element elems ->
  filepath_Join "/opt/agent" (name ++ "/../../../" ++ Join elems "/") =
    "/" ++ Join elems "/".
Proof.
  intros N1 N2 N3 Hfree Hne Hplain. unfold filepath_Join.
  change ("/opt/agent" ++ "/" ++ name ++ "/../../../" ++ Join elems "/")
    with (String "/" ("opt" ++ String "/" ("agent" ++ String "/" (name ++ String "/"
            (".." ++ String "/" (".." ++ String "/" (".." ++ String "/"
               (Join elems (String "/" ""))))))))).
  rewrite Clean_rooted.
  rewrite !split_char_app by (done || free_of_literal).
  rewrite Join_split; [|done|].
  - cbn [clean_elements String.eqb Ascii.eqb Bool.eqb orb].
    apply String.eqb_neq in N1, N2, N3. rewrite N1, N2, N3. cbn [orb].
    by rewrite clean_elements_plain.
  - eapply Forall_impl; [exact Hplain|]. by intros e (_ & _ & _ & ?).
Qed.

(** X2: [Download] serves files from outside the agent directory:
    when the [arch] query value climbs out of the directory with three
    [..] elements and then names an absolute path of plain elements, the
    response is the content of the file at that path, whatever the path. *)
Theorem Download_serves_any_file (ctx : controllers.Route unit) (fs : FS)
    (os y : string) (elems : list string) (data : string) :
  os <> "windows" -> free_of "/" os -> free_of "/" y ->
  elems <> [] -> Forall plain_element elems ->
  controllers.DefaultQuery ctx "os" "linux" = os ->
  controllers.DefaultQuery ctx "arch" "amd64" = y ++ "/../../../" ++ Join elems "/" ->
  ReadFile fs ("/" ++ Join elems "/") = Some data ->
  controllers.Download ctx fs =
    controllers.Data 200 "application/octet-stream"
      [("Content-Disposition",
        "attachment; filename=baihu-agent-" ++ os ++ "-" ++ y ++ "/../../../"
          ++ Join elems "/");
       ("Content-Type", "application/octet-stream");
       ("Content-Length", controllers.Itoa (N.of_nat (String.length data)))]
      data.
Proof.
  intros Hw Hos Hy Hne Hplain Eos Earch Hread. unfold controllers.Download.
  rewrite Eos, Earch. unfold agent_files.GetAgentBinary, agent_files.binary_name.
  apply String.eqb_neq in Hw. rewrite Hw.
  replace ("baihu-agent-" ++ os ++ "-" ++ y ++ "/../../../" ++ Join elems "/")
    with (("baihu-agent-" ++ os ++ "-" ++ y) ++ "/../../../" ++ Join elems "/")
    by (by rewrite !append_assoc).
  rewrite filepath_Join_climb; try done.
  - rewrite Hread. by rewrite !append_assoc.
  - apply free_of_app. split; [free_of_literal|]. apply free_of_app. split; [done|].
    change ("-" ++ y) with (String "-" y). apply free_of_cons. by split.
Qed.

Lemma Download_serves_any_file_witness :
  controllers.Download
    (controllers.mkRoute (gin.mkContext [] "" tt false) []
       [("os", "x"); ("arch", "y/../../../etc/passwd")])
    {| ReadFile := fun p => if String.eqb p "/etc/passwd" then Some "root:x:0:0" else None;
       ReadDir := fun _ => None |} =
    controllers.Data 200 "application/octet-stream"
      [("Content-Disposition", "attachment; filename=baihu-agent-x-y/../../../etc/passwd");
       ("Content-Type", "application/octet-stream");
       ("Content-Length", "10")]
      "root:x:0:0".
Proof.
  apply (Download_serves_any_file _ _ "x" "y" ["etc"; "passwd"] "root:x:0:0");
    try reflexivity; try discriminate; try free_of_literal.
  repeat (apply Forall_cons; split;
    [repeat split; try discriminate; free_of_literal|]). apply Forall_nil_2.
Defined.

(** ** The agent table under the requests the panel serves *)

Lemma EncodeToString_length bs : String.length (EncodeToString bs) = (2 * length bs)%nat.
Proof. induction bs as [|b bs IH]; simpl; [done|]. rewrite IH. lia. Qed.

Lemma EncodeToString_hex bs :
  Forall (fun c => In c (list_ascii_of_string "0123456789abcdef"))
         (list_ascii_of_string (EncodeToString bs)).
Proof.
  induction bs as [|b bs IH]; simpl; [apply Forall_nil_2|].
  apply Forall_cons. split; [|apply Forall_cons; split; [|exact IH]].
  - destruct b; vm_compute; tauto.
  - destruct b; vm_compute; tauto.
Qed.

Lemma generateToken_hex rnd : panel.hex_token (services.generateToken rnd).
Proof.
  split; [|apply EncodeToString_hex]. unfold services.generateToken.
  rewrite EncodeToString_length, length_take, length_app, length_replicate. lia.
Qed.

Lemma hex_token_nonempty token : panel.hex_token token -> token <> "".
Proof. by intros [L _] ->. Qed.

Lemma row_ok_same a b :
  Status b = Status a -> Token b = Token a -> panel.row_ok a -> panel.row_ok b.
Proof. unfold panel.row_ok. by intros -> ->. Qed.

Lemma row_ok_issued a status :
  status = "online" \/ status = "offline" ->
  Token a = "" \/ panel.hex_token (Token a) -> Token a <> "" ->
  Status a = status -> panel.row_ok a.
Proof.
  intros Hs Ht Hne E. unfold panel.row_ok. rewrite E. split_and!; [tauto|done|done].
Qed.

Lemma agent_ids_update p f now d :
  (forall a, ID (f a) = ID a) -> panel.agent_ids (gorm_update p f now d) = panel.agent_ids d.
Proof.
  intros Hid. unfold panel.agent_ids, gorm_update. simpl.
  rewrite !List.map_app. f_equal. apply map_update_where. intros a. simpl. apply Hid.
Qed.

Lemma agents_ok_update p f now d :
  (forall a, ID (f a) = ID a) ->
  (forall a, In a (db_agents d) -> p a = true -> panel.row_ok a -> panel.row_ok (f a)) ->
  panel.agents_ok d -> panel.agents_ok (gorm_update p f now d).
Proof.
  intros Hid Hf (Hrows & Hnd & Hlt). unfold panel.agents_ok.
  rewrite agent_ids_update by done. split_and!; [|done|done].
  simpl. rewrite Forall_forall in Hrows.
  apply Forall_forall. intros x (r & Hr & ->)%list_elem_of_In%in_update_where.
  pose proof (Hrows r (proj2 (list_elem_of_In _ _) Hr)) as Hok.
  destruct (p r) eqn:Hp; [|done].
  eapply row_ok_same; [| |apply (Hf r Hr Hp Hok)]; done.
Qed.

Lemma agent_ids_delete id d : panel.agent_ids (gorm_delete id d) ≡ₚ panel.agent_ids d.
Proof.
  unfold panel.agent_ids, gorm_delete, delete_where. simpl. apply fmap_Permutation.
  etrans; [apply Permutation_app_head, Permutation_app_comm|].
  rewrite (assoc_L app). apply Permutation_app_tail.
  induction (db_agents d) as [|a l IH]; simpl; [done|].
  destruct (id_is id a); simpl.
  - by rewrite <- Permutation_middle, IH.
  - by rewrite IH.
Qed.

Lemma agents_ok_delete id d : panel.agents_ok d -> panel.agents_ok (gorm_delete id d).
Proof.
  intros (Hrows & Hnd & Hlt). unfold panel.agents_ok.
  rewrite agent_ids_delete. split_and!; [|done|done].
  simpl. rewrite Forall_forall in Hrows. apply Forall_forall.
  intros x [Hx _]%list_elem_of_In%in_delete_where. by apply Hrows, list_elem_of_In.
Qed.

Lemma agents_ok_live_NoDup d : panel.agents_ok d -> NoDup (List.map ID (db_agents d)).
Proof.
  intros (_ & Hnd & _). unfold panel.agent_ids in Hnd. rewrite List.map_app in Hnd.
  by apply NoDup_app in Hnd as (? & _).
Qed.

Lemma agents_ok_touch p f now d :
  (forall a, ID (f a) = ID a) -> (forall a, Status (f a) = Status a) ->
  (forall a, Token (f a) = Token a) ->
  panel.agents_ok d -> panel.agents_ok (gorm_update p f now d).
Proof.
  intros Hid Hs Ht. apply agents_ok_update; [done|]. intros a _ _. by apply row_ok_same.
Qed.

Lemma GetByToken_found token d a :
  services.GetByToken token d = Some a -> In a (db_agents d) /\ Token a = token.
Proof.
  intros [Hin E]%find_some. split; [done|]. by apply String.eqb_eq.
Qed.

Lemma GetByID_found id d a :
  services.GetByID id d = Some a -> In a (db_agents d) /\ ID a = id.
Proof.
  intros [Hin E]%find_some. split; [done|]. by apply N.eqb_eq.
Qed.

Lemma heartbeat_updates_fields ip version buildTime hostname osType arch now a :
  let b := services.heartbeat_updates ip version buildTime hostname osType arch now a in
  ID b = ID a /\ Token b = Token a /\ Status b = "online" /\ Name b = Name a
  /\ Enabled b = Enabled a /\ ForceUpdate b = ForceUpdate a
  /\ LastSeen b = Some now /\ IP b = ip /\ Description b = Description a.
Proof.
  unfold services.heartbeat_updates.
  destruct (String.eqb version ""), (String.eqb buildTime ""), (String.eqb hostname ""),
    (String.eqb osType ""), (String.eqb arch ""); simpl; by repeat split.
Qed.

Lemma Register_ok ctx now created d :
  panel.agents_ok d -> panel.agents_ok (snd (controllers.Register ctx now created d)).
Proof.
  intros Hok. unfold controllers.Register. destruct (gin.ShouldBindJSON ctx) as [req err].
  destruct err; [done|]. destruct (String.eqb (rq_Name req) ""); [done|].
  unfold services.Register.
  destruct (List.find _ (db_agents d)) as [existing|].
  - simpl. by apply agents_ok_touch.
  - destruct created as [err|]; [done|]. simpl.
    destruct Hok as (Hrows & Hnd & Hlt). unfold panel.agents_ok.
    match goal with
    | |- context [panel.agent_ids ?d'] =>
        assert (panel.agent_ids d' ≡ₚ db_next_agent_id d :: panel.agent_ids d) as ->
    end.
    { unfold panel.agent_ids. simpl. rewrite <- (assoc_L app). simpl.
      rewrite !List.map_app. simpl. by rewrite <- Permutation_middle. }
    simpl. split_and!.
    + apply Forall_app. split; [done|]. apply Forall_singleton.
      unfold panel.row_ok. simpl. split_and!; [by left|by left|done].
    + apply NoDup_cons. split; [|done]. intros Hin.
      rewrite Forall_forall in Hlt. apply Hlt in Hin. lia.
    + apply Forall_cons. split; [lia|].
      eapply Forall_impl; [exact Hlt|]. simpl. intros; lia.
Qed.

Lemma CheckStatus_ok ctx now d :
  panel.agents_ok d -> panel.agents_ok (snd (controllers.CheckStatus ctx now d)).
Proof.
  intros Hok. unfold controllers.CheckStatus. destruct (gin.ShouldBindJSON ctx) as [req err].
  destruct err; [done|]. unfold services.CheckPendingAgent.
  destruct (List.find _ (db_agents d)) as [agent|]; [|done].
  simpl. by apply agents_ok_touch.
Qed.

Lemma Heartbeat_ok ctx now fs d :
  panel.agents_ok d -> panel.agents_ok (snd (controllers.Heartbeat ctx now fs d)).
Proof.
  intros Hok. unfold controllers.Heartbeat.
  destruct (String.eqb_spec (AgentController.getAgentToken ctx) "") as [|Hne]; [done|].
  destruct (gin.ShouldBindJSON ctx) as [req err]. unfold services.Heartbeat.
  destruct (services.GetByToken _ d) as [agent|] eqn:Hfind; [|done].
  apply GetByToken_found in Hfind as [Hin Htok].
  destruct (Enabled agent); [|done]. cbn [negb].
  cbv zeta.
  assert (panel.agents_ok
            (gorm_update (id_is (ID agent))
               (services.heartbeat_updates (gin.ClientIP ctx) (hb_Version req)
                  (hb_BuildTime req) (hb_Hostname req) (hb_OS req) (hb_Arch req) now)
               now d)) as Hok'.
  { apply agents_ok_update; [intros a; apply heartbeat_updates_fields| |done].
    intros a Ha Hid%N.eqb_eq Hrow.
    assert (a = agent) as -> by (eapply unique_key; eauto using agents_ok_live_NoDup).
    pose proof (heartbeat_updates_fields (gin.ClientIP ctx) (hb_Version req)
                  (hb_BuildTime req) (hb_Hostname req) (hb_OS req) (hb_Arch req) now agent)
      as (_ & Ht & Hs & _).
    destruct Hrow as (_ & Htoken & _).
    apply (row_ok_issued _ "online"); rewrite ?Ht, ?Htok in *; auto. }
  simpl. destruct (_ && _); [|done]. simpl. by apply agents_ok_touch.
Qed.

Lemma agents_ok_frame d d' :
  db_agents d' = db_agents d -> db_deleted_agents d' = db_deleted_agents d ->
  db_next_agent_id d' = db_next_agent_id d ->
  panel.agents_ok d -> panel.agents_ok d'.
Proof. unfold panel.agents_ok, panel.agent_ids. by intros -> -> ->. Qed.

Lemma ReportResult_ok compress ctx now d :
  panel.agents_ok d -> panel.agents_ok (snd (controllers.ReportResult compress ctx now d)).
Proof.
  intros Hok. unfold controllers.ReportResult.
  destruct (String.eqb _ ""); [done|].
  destruct (services.GetByToken _ d) as [agent|]; [|done].
  destruct (negb (Enabled agent)); [done|].
  destruct (gin.ShouldBindJSON ctx) as [result err]. destruct err; [done|].
  simpl. by eapply agents_ok_frame.
Qed.

Lemma Approve_ok ctx now rnd updated d :
  panel.agents_ok d -> panel.agents_ok (snd (controllers.Approve ctx now rnd updated d)).
Proof.
  intros Hok. unfold controllers.Approve. destruct (ParseUint _ 32) as [id|]; [|done].
  unfold services.Approve. destruct (services.GetByID id d) as [agent|]; [|done].
  destruct (negb _); [done|]. destruct updated; [done|]. simpl.
  apply agents_ok_update; [done| |done]. intros a _ _ _.
  apply (row_ok_issued _ "online"); simpl; auto using generateToken_hex.
  apply hex_token_nonempty, generateToken_hex.
Qed.

Lemma Reject_ok ctx d :
  panel.agents_ok d -> panel.agents_ok (snd (controllers.Reject ctx d)).
Proof.
  intros Hok. unfold controllers.Reject. destruct (ParseUint _ 32) as [id|]; [|done].
  simpl. by apply agents_ok_delete.
Qed.

Lemma Update_ok ctx now d :
  panel.agents_ok d -> panel.agents_ok (snd (controllers.Update ctx now d)).
Proof.
  intros Hok. unfold controllers.Update. destruct (ParseUint _ 32) as [id|]; [|done].
  destruct (gin.ShouldBindJSON _) as [req err]. destruct err; [done|].
  simpl. by apply agents_ok_touch.
Qed.

Lemma Delete_ok ctx d :
  panel.agents_ok d -> panel.agents_ok (snd (controllers.Delete ctx d)).
Proof.
  intros Hok. unfold controllers.Delete. destruct (ParseUint _ 32) as [id|]; [|done].
  unfold services.Delete. destruct (0 <? _)%nat; [done|].
  simpl. by apply agents_ok_delete.
Qed.

Lemma RegenerateToken_ok ctx now rnd updated d :
  panel.agents_ok d ->
  panel.agents_ok (snd (controllers.RegenerateToken ctx now rnd updated d)).
Proof.
  intros Hok. unfold controllers.RegenerateToken.
  destruct (ParseUint _ 32) as [id|]; [|done].
  unfold services.RegenerateToken. destruct updated; [done|]. simpl.
  apply agents_ok_update; [done| |done]. intros a _ _ (Hs & _ & _).
  unfold panel.row_ok. simpl. split_and!; [done|right; apply generateToken_hex|].
  intros _. apply hex_token_nonempty, generateToken_hex.
Qed.

Lemma ForceUpdate_ok ctx now d :
  panel.agents_ok d -> panel.agents_ok (snd (controllers.ForceUpdate ctx now d)).
Proof.
  intros Hok. unfold controllers.ForceUpdate. destruct (ParseUint _ 32) as [id|]; [|done].
  simpl. by apply agents_ok_touch.
Qed.

Lemma UpdateOfflineAgents_ok now d :
  panel.agents_ok d -> panel.agents_ok (services.UpdateOfflineAgents now d).
Proof.
  intros Hok. unfold services.UpdateOfflineAgents.
  apply agents_ok_update; [done| |done]. intros a _ Hp (_ & Ht & Hne).
  apply andb_true_iff in Hp as [Hs%String.eqb_eq _].
  apply (row_ok_issued _ "offline"); simpl; auto. apply Hne. by rewrite Hs.
Qed.

Lemma serve_ok r d : panel.agents_ok d -> panel.agents_ok (panel.serve r d).
Proof.
  destruct r; simpl;
    auto using Register_ok, CheckStatus_ok, Heartbeat_ok, ReportResult_ok, Approve_ok,
      Reject_ok, Update_ok, Delete_ok, RegenerateToken_ok, ForceUpdate_ok,
      UpdateOfflineAgents_ok.
Qed.

Lemma no_agents_ok d : panel.no_agents d -> panel.agents_ok d.
Proof.
  intros [E1 E2]. unfold panel.agents_ok, panel.agent_ids. rewrite E1, E2. simpl.
  split_and!; [apply Forall_nil_2|apply NoDup_nil_2|apply Forall_nil_2].
Qed.

(** X3: Whatever requests the panel serves, from a database in which no
    agent has registered: every agent row has status pending, online or
    offline, holds no token or one of 64 hexadecimal digits, and holds a token
    once it is no longer pending; primary keys are never shared, not even
    with a deleted agent, and stay below the next key. *)
Theorem served_agents_ok (rs : list panel.Request) (d : DB) :
  panel.no_agents d -> panel.agents_ok (panel.serve_all rs d).
Proof.
  intros H%no_agents_ok. revert d H. unfold panel.serve_all.
  induction rs as [|r rs IH]; intros d H; simpl; [done|].
  by apply IH, serve_ok.
Qed.

(** ** Heartbeats and the offline sweep *)

Lemma find_id_is rows a :
  NoDup (List.map ID rows) -> In a rows -> List.find (id_is (ID a)) rows = Some a.
Proof.
  intros Hnd Hin. destruct (List.find (id_is (ID a)) rows) as [b|] eqn:E.
  - apply find_some in E as [Hb E%N.eqb_eq]. f_equal. by eapply unique_key.
  - eapply find_none in E; [|exact Hin]. unfold id_is in E. by rewrite N.eqb_refl in E.
Qed.

Lemma GetByID_update id f now d a :
  (forall x, ID (f x) = ID x) ->
  services.GetByID id d = Some a ->
  services.GetByID id (gorm_update (id_is id) f now d) = Some (set_UpdatedAt now (f a)).
Proof.
  intros Hid Hfind. unfold services.GetByID, gorm_update. simpl.
  apply (find_update_where (id_is id) (id_is id) (fun a => set_UpdatedAt now (f a)));
    [done| |].
  - by apply find_some in Hfind as [_ ?].
  - intros x. unfold id_is. simpl. by rewrite Hid.
Qed.

Lemma update_where_none {A} (p : A -> bool) f rows :
  (forall r, In r rows -> p r = false) -> update_where p f rows = rows.
Proof.
  intros H. unfold update_where. induction rows as [|r rows IH]; simpl; [done|].
  rewrite (H r) by (by left). f_equal. apply IH. intros. apply H. by right.
Qed.

(** What a successful [Heartbeat] does, in terms of the agent found. *)
Lemma Heartbeat_effect (token ip version buildTime hostname osType arch : string)
    (now : LocalTime) (d d' : DB) (agent : Agent) :
  NoDup (List.map ID (db_agents d)) ->
  services.Heartbeat token ip version buildTime hostname osType arch now d
    = (inr agent, d') ->
  exists old,
    services.GetByToken token d = Some old /\ Enabled old = true /\ Token old = token
    /\ d' = gorm_update (id_is (ID old))
              (services.heartbeat_updates ip version buildTime hostname osType arch now)
              now d
    /\ services.GetByID (ID old) d'
       = Some (set_UpdatedAt now
                 (services.heartbeat_updates ip version buildTime hostname osType arch
                    now old))
    /\ agent = set_Arch arch (set_OS osType (set_Hostname hostname
                 (set_BuildTime buildTime (set_Version version
                    (set_IP ip (set_LastSeen (Some now) (set_Status "online" old))))))).
Proof.
  intros Hnd. unfold services.Heartbeat.
  destruct (services.GetByToken token d) as [old|] eqn:Hfind; [|done].
  destruct (Enabled old) eqn:Hen; [|done]. cbn [negb]. intros [= <- <-].
  pose proof (GetByToken_found _ _ _ Hfind) as [Hin Htok].
  exists old. split_and!; try done.
  apply GetByID_update; [intros x; apply heartbeat_updates_fields|].
  by apply find_id_is.
Qed.

(** X4: A successful [Heartbeat] stores, for the agent holding the
    token: status online, the time of the call, the caller's address, and
    each of version, build time, host name, system and architecture when the
    reported value is not empty; an empty value leaves the stored one as it
    was.  Name, token, description, the enabled and the force-update flag
    are kept.  The agent returned to the caller carries the reported
    values, empty ones included. *)
Theorem Heartbeat_stored_and_returned
    (token ip version buildTime hostname osType arch : string) (now : LocalTime)
    (d d' : DB) (agent : Agent) :
  NoDup (List.map ID (db_agents d)) ->
  services.Heartbeat token ip version buildTime hostname osType arch now d
    = (inr agent, d') ->
  exists old row,
    services.GetByToken token d = Some old /\ Enabled old = true
    /\ services.GetByID (ID old) d' = Some row /\ ID agent = ID old
    /\ Status row = "online" /\ LastSeen row = Some now /\ IP row = ip
    /\ Version row = (if String.eqb version "" then Version old else version)
    /\ BuildTime row = (if String.eqb buildTime "" then BuildTime old else buildTime)
    /\ Hostname row = (if String.eqb hostname "" then Hostname old else hostname)
    /\ OS row = (if String.eqb osType "" then OS old else osType)
    /\ Arch row = (if String.eqb arch "" then Arch old else arch)
    /\ Name row = Name old /\ Token row = token /\ Description row = Description old
    /\ Enabled row = true /\ ForceUpdate row = ForceUpdate old
    /\ Version agent = version /\ BuildTime agent = buildTime
    /\ Hostname agent = hostname /\ OS agent = osType /\ Arch agent = arch
    /\ Name agent = Name row /\ ForceUpdate agent = ForceUpdate row
    /\ Status agent = "online".
Proof.
  intros Hnd H.
  destruct (Heartbeat_effect _ _ _ _ _ _ _ _ _ _ _ Hnd H)
    as (old & Hfind & Hen & Htok & _ & Hrow & ->).
  exists old. eexists. split_and!; [done|done|exact Hrow|..].
  all: try done.
  all: try (simpl; rewrite <- ?Htok, <- ?Hen; apply heartbeat_updates_fields).
  all: try (simpl; symmetry; apply heartbeat_updates_fields).
  all: unfold services.heartbeat_updates;
    destruct (String.eqb version ""), (String.eqb buildTime ""), (String.eqb hostname ""),
      (String.eqb osType ""), (String.eqb arch ""); done.
Qed.

Lemma GetByID_gorm_update id p f now d a :
  (forall x, ID (f x) = ID x) ->
  services.GetByID id d = Some a ->
  services.GetByID id (gorm_update p f now d)
    = Some (if p a then set_UpdatedAt now (f a) else a).
Proof.
  intros Hid. unfold services.GetByID, gorm_update, update_where. simpl.
  induction (db_agents d) as [|r rows IH]; simpl; [done|].
  destruct (id_is id r) eqn:Hr.
  - intros [= ->]. destruct (p a); unfold id_is in *; simpl; by rewrite ?Hid, Hr.
  - intros H. destruct (p r); unfold id_is in *; simpl; rewrite ?Hid, Hr; auto.
Qed.

(** X5: An agent whose heartbeat arrived at time [now] is found
    offline by the sweep run at time [later] exactly when more than two
    minutes lie between them; otherwise it stays online.  The sweep leaves its
    token alone. *)
Theorem Heartbeat_then_sweep
    (token ip version buildTime hostname osType arch : string) (now later : LocalTime)
    (d d' : DB) (agent : Agent) :
  NoDup (List.map ID (db_agents d)) ->
  services.Heartbeat token ip version buildTime hostname osType arch now d
    = (inr agent, d') ->
  exists row,
    services.GetByID (ID agent) (services.UpdateOfflineAgents later d') = Some row
    /\ Status row = (if now <? later - 120 then "offline" else "online")
    /\ Token row = token /\ LastSeen row = Some now.
Proof.
  intros Hnd H.
  destruct (Heartbeat_effect _ _ _ _ _ _ _ _ _ _ _ Hnd H)
    as (old & Hfind & Hen & Htok & _ & Hrow & ->).
  pose proof (heartbeat_updates_fields ip version buildTime hostname osType arch now old)
    as (_ & Ht & Hs & _ & _ & _ & Hseen & _).
  unfold services.UpdateOfflineAgents. eexists. split.
  - apply GetByID_gorm_update; [done|exact Hrow].
  - cbn [Status LastSeen set_UpdatedAt]. rewrite Hs, Hseen. simpl.
    change (2 * 60) with 120.
    destruct (now <? later - 120); simpl; rewrite ?Hs, ?Hseen, ?Ht; by split_and!.
Qed.

(** ** Registration, approval and tokens *)

Lemma find_app_None {A} (p : A -> bool) l l' :
  List.find p l = None -> List.find p (l ++ l') = List.find p l'.
Proof.
  induction l as [|x l IH]; simpl; [done|]. destruct (p x); [done|]. exact IH.
Qed.

Lemma find_updated {A} (p q : A -> bool) (f : A -> A) rows a :
  List.find q rows = Some a ->
  (forall r, In r rows -> q r = false -> p r = false) ->
  (forall r, q r = true -> p (f r) = true) ->
  List.find p (update_where q f rows) = Some (f a).
Proof.
  intros Hfind Hother Hf. induction rows as [|r rows IH]; simpl in *; [done|].
  destruct (q r) eqn:Hq.
  - injection Hfind as ->. by rewrite (Hf _ Hq).
  - rewrite (Hother r) by auto. apply IH; auto.
Qed.

Lemma find_not_updated {A} (p q : A -> bool) (f : A -> A) rows :
  (forall r, In r rows -> q r = true -> p (f r) = false) ->
  (forall r, In r rows -> q r = false -> p r = false) ->
  List.find p (update_where q f rows) = None.
Proof.
  intros Hf Hother. induction rows as [|r rows IH]; simpl in *; [done|].
  destruct (q r) eqn:Hq.
  - rewrite (Hf r) by auto. apply IH; auto.
  - rewrite (Hother r) by auto. apply IH; auto.
Qed.

(** X7: Registering again under the name of a pending agent creates
    no second agent: the call answers with the agent registered before, still
    pending, and the table keeps its rows and its next key, whatever the
    address, the metadata and the time of the second call. *)
Theorem Register_again (req req' : AgentRegisterRequest) (ip ip' : string)
    (now now' : LocalTime) (created created' : Verdict) (d d1 : DB) (a : Agent) :
  services.Register req ip now created d = (inr a, d1) ->
  rq_Name req' = rq_Name req ->
  exists a' d2,
    services.Register req' ip' now' created' d1 = (inr a', d2)
    /\ ID a' = ID a /\ Status a' = "pending" /\ Name a' = rq_Name req
    /\ List.map ID (db_agents d2) = List.map ID (db_agents d1)
    /\ db_next_agent_id d2 = db_next_agent_id d1
    /\ Hostname a' = rq_Hostname req' /\ Version a' = rq_Version req' /\ IP a' = ip'
    /\ LastSeen a' = Some now'.
Proof.
  intros H Hname.
  set (pending := fun x : Agent =>
         String.eqb (Name x) (rq_Name req) && String.eqb (Status x) "pending").
  assert (exists e, List.find pending (db_agents d1) = Some e /\ ID e = ID a) as (e & He & Hid).
  { unfold services.Register in H. fold pending in H.
    destruct (List.find pending (db_agents d)) as [existing|] eqn:Hfind.
    - injection H as <- <-. eexists. split.
      + simpl. apply (find_update_where pending (id_is (ID existing))); [done| |done].
        unfold id_is. apply N.eqb_refl.
      + done.
    - destruct created; [done|]. injection H as <- <-. simpl. eexists. split.
      + rewrite find_app_None by done. simpl. unfold pending at 1. simpl.
        by rewrite String.eqb_refl.
      + done. }
  unfold services.Register at 1. rewrite Hname. fold pending. rewrite He.
  pose proof (find_some _ _ He) as [_ [Hn%String.eqb_eq Hs%String.eqb_eq]%andb_true_iff].
  do 2 eexists. split; [done|]. simpl. split_and!; try done.
  apply map_update_where. done.
Qed.

(** X9: The token [Approve] returns authenticates the approved
    agent: when the database accepted it as unique and the agent is enabled,
    a heartbeat with that token succeeds and is the approved agent's. *)
Theorem Approve_then_Heartbeat (id : N) (now now' : LocalTime) (rnd : list Byte.byte)
    (updated : Verdict) (d d1 : DB) (a : Agent)
    (ip version buildTime hostname osType arch : string) :
  services.Approve id now rnd updated d = (inr a, d1) ->
  (forall r, In r (db_agents d) -> Token r <> services.generateToken rnd) ->
  Enabled a = true ->
  exists agent d2,
    services.Heartbeat (Token a) ip version buildTime hostname osType arch now' d1
      = (inr agent, d2)
    /\ ID agent = id /\ Name agent = Name a.
Proof.
  unfold services.Approve.
  destruct (services.GetByID id d) as [agent|] eqn:Hfind; [|done].
  destruct (negb _); [done|]. destruct updated; [done|]. intros [= <- <-] Hfresh Hen.
  pose proof (GetByID_found _ _ _ Hfind) as [_ Hid]. simpl in Hen |- *.
  unfold services.Heartbeat.
  assert (services.GetByToken (services.generateToken rnd)
            (gorm_update (id_is (ID agent))
               (fun a => set_LastSeen (Some now) (set_Status "online"
                           (set_Token (services.generateToken rnd) a))) now d)
          = Some (set_UpdatedAt now (set_LastSeen (Some now) (set_Status "online"
                    (set_Token (services.generateToken rnd) agent))))) as ->.
  { unfold services.GetByToken, gorm_update. simpl. rewrite Hid.
    apply (find_updated _ (id_is id)
             (fun a => set_UpdatedAt now (set_LastSeen (Some now) (set_Status "online"
                         (set_Token (services.generateToken rnd) a))))); [done| |].
    - intros r Hr _. apply String.eqb_neq. by apply Hfresh.
    - intros r _. simpl. apply String.eqb_refl. }
  simpl. rewrite Hen. simpl. by do 2 eexists.
Qed.

Lemma gorm_update_none p f now d :
  (forall r, In r (db_agents d) -> p r = false) -> gorm_update p f now d = d.
Proof.
  intros H. unfold gorm_update. rewrite update_where_none by done. by destruct d.
Qed.

Lemma GetByID_None id d r : services.GetByID id d = None -> In r (db_agents d) -> ID r <> id.
Proof.
  intros Hnone Hr E. eapply find_none in Hnone; [|exact Hr].
  unfold id_is in Hnone. by rewrite E, N.eqb_refl in Hnone.
Qed.

(** X10: [RegenerateToken] replaces the token of the agent and
    nothing else of it: when tokens are unique, as the index on the column
    makes them, the old token authenticates nobody afterwards, and the new one
    finds the agent, whose status is what it was, pending included. *)
Theorem RegenerateToken_replaces (id : N) (now : LocalTime) (rnd : list Byte.byte)
    (updated : Verdict) (d d1 : DB) (token : string) (old : Agent) :
  services.RegenerateToken id now rnd updated d = (inr token, d1) ->
  services.GetByID id d = Some old ->
  (forall r, In r (db_agents d) -> Token r = Token old -> ID r = id) ->
  (forall r, In r (db_agents d) -> Token r <> services.generateToken rnd) ->
  token = services.generateToken rnd
  /\ services.GetByToken (Token old) d1 = None
  /\ exists row,
       services.GetByToken token d1 = Some row /\ ID row = id
       /\ Status row = Status old /\ Enabled row = Enabled old /\ Name row = Name old.
Proof.
  unfold services.RegenerateToken. destruct updated; [done|]. intros [= <- <-] Hold Huniq Hfresh.
  pose proof (GetByID_found _ _ _ Hold) as [Hin Hid]. split_and!; [done| |].
  - unfold services.GetByToken, gorm_update. simpl. apply find_not_updated.
    + intros r Hr _. simpl. apply String.eqb_neq. intros E. by apply (Hfresh old).
    + intros r Hr Hq. apply String.eqb_neq. intros E. apply Huniq in E; [|done].
      unfold id_is in Hq. by rewrite E, N.eqb_refl in Hq.
  - eexists. split.
    + unfold services.GetByToken, gorm_update. simpl.
      apply (find_updated _ (id_is id)
               (fun a => set_UpdatedAt now (set_Token (services.generateToken rnd) a)));
        [exact Hold| |].
      * intros r Hr _. apply String.eqb_neq. by apply Hfresh.
      * intros r _. simpl. apply String.eqb_refl.
    + done.
Qed.

(** X11: [RegenerateToken] does not check that the agent
    exists: for an id no agent has, the handler still answers success with a
    generated token, the database is unchanged, and the token authenticates
    nobody unless an agent held it already. *)
Theorem RegenerateToken_unknown_id (ctx : controllers.Route unit) (now : LocalTime)
    (rnd : list Byte.byte) (d : DB) (id : N) :
  ParseUint (controllers.Param ctx "id") 32 = Some id ->
  services.GetByID id d = None ->
  controllers.RegenerateToken ctx now rnd None d
    = (controllers.Success
         (controllers.Object (<["token" := JStr (services.generateToken rnd)]> ∅)), d).
Proof.
  intros Hid Hnone. unfold controllers.RegenerateToken, services.RegenerateToken.
  rewrite Hid. rewrite gorm_update_none; [done|].
  intros r Hr. apply N.eqb_neq. by eapply GetByID_None.
Qed.

Lemma count_positive {A} (p : A -> bool) l :
  (0 <? length (List.filter p l))%nat = existsb p l.
Proof.
  induction l as [|x l IH]; simpl; [done|]. destruct (p x); simpl; [done|]. exact IH.
Qed.

(** X12: [Delete] is refused exactly when a task refers to the agent,
    and then changes nothing; otherwise it does what [Reject] does.  After
    either, the agent is not found by its id nor by any token and is in
    neither list, the other agents are as before, and the row is kept among
    the deleted ones. *)
Theorem Delete_or_Reject (id : N) (d : DB) :
  services.Delete id d
    = (if existsb (fun t => match models.tk_AgentID t with
                            | Some aid => N.eqb aid id
                            | None => false
                            end) (db_tasks d)
       then (Some (services.serviceError "该 Agent 下还有关联任务，无法删除"), d)
       else services.Reject id d)
  /\ services.GetByID id (snd (services.Reject id d)) = None
  /\ (forall token a,
        services.GetByToken token (snd (services.Reject id d)) = Some a -> ID a <> id)
  /\ (forall a, In a (db_agents (snd (services.Reject id d)))
                <-> In a (db_agents d) /\ ID a <> id)
  /\ (forall a, In a (services.List_ (snd (services.Reject id d))
                      ++ services.ListPending (snd (services.Reject id d))) -> ID a <> id)
  /\ (forall a, In a (db_agents d) -> ID a = id ->
                In a (db_deleted_agents (snd (services.Reject id d)))).
Proof.
  split.
  - unfold services.Delete. rewrite count_positive. by destruct (existsb _ _).
  - simpl. unfold delete_where.
    assert (forall a, In a (List.filter (fun r => negb (id_is id r)) (db_agents d))
                      <-> In a (db_agents d) /\ ID a <> id) as Hlive.
    { intros a. rewrite filter_In, negb_true_iff. unfold id_is. by rewrite N.eqb_neq. }
    split_and!.
    + unfold services.GetByID. simpl.
      destruct (List.find _ _) as [a|] eqn:E; [|done].
      apply find_some in E as [Ha E%N.eqb_eq]. by destruct (proj1 (Hlive a) Ha).
    + intros token a [Ha _]%find_some. by destruct (proj1 (Hlive a) Ha).
    + exact Hlive.
    + intros a. unfold services.List_, services.ListPending. simpl.
      rewrite in_app_iff, <- !list_elem_of_In, !merge_sort_Permutation, !list_elem_of_In.
      rewrite !filter_In. intros [[Ha _]|[Ha _]]; by destruct (proj1 (Hlive a) Ha).
    + intros a Ha Hid. apply in_app_iff. right. apply filter_In. split; [done|].
      by apply N.eqb_eq.
Qed.

(** ** The operator's lists *)

#[local] Instance newest_agent_first_total : Total newest_agent_first.
Proof. intros a b. unfold newest_agent_first. lia. Qed.

#[local] Instance newest_agent_first_trans : Transitive newest_agent_first.
Proof. intros a b c. unfold newest_agent_first. lia. Qed.

Lemma filter_split {A} (p : A -> bool) l :
  (List.filter (fun x => negb (p x)) l ++ List.filter p l)%list ≡ₚ l.
Proof.
  induction l as [|x l IH]; simpl; [done|]. destruct (p x); simpl.
  - by rewrite <- Permutation_middle, IH.
  - by rewrite IH.
Qed.

(** X13: [List] and [ListPending] split the agents between them: every
    agent is in exactly one of the two lists, in [ListPending] when its status
    is pending and in [List] otherwise, and each list is in descending order
    of id. *)
Theorem List_and_ListPending (d : DB) :
  (services.List_ d ++ services.ListPending d)%list ≡ₚ db_agents d
  /\ Forall (fun a => Status a <> "pending") (services.List_ d)
  /\ Forall (fun a => Status a = "pending") (services.ListPending d)
  /\ StronglySorted (fun a b => (ID b <= ID a)%N) (services.List_ d)
  /\ StronglySorted (fun a b => (ID b <= ID a)%N) (services.ListPending d).
Proof.
  unfold services.List_, services.ListPending. split_and!.
  - rewrite !merge_sort_Permutation. apply filter_split.
  - apply Forall_forall. intros a. rewrite merge_sort_Permutation, list_elem_of_In, filter_In.
    intros [_ H%negb_true_iff]. by apply String.eqb_neq.
  - apply Forall_forall. intros a. rewrite merge_sort_Permutation, list_elem_of_In, filter_In.
    intros [_ H]. by apply String.eqb_eq.
  - apply (StronglySorted_merge_sort newest_agent_first).
  - apply (StronglySorted_merge_sort newest_agent_first).
Qed.

(** ** The gateway *)

Lemma GetByToken_update token id f now d a :
  (forall x, Token (f x) = Token x) ->
  services.GetByToken token d = Some a -> ID a = id ->
  services.GetByToken token (gorm_update (id_is id) f now d)
    = Some (set_UpdatedAt now (f a)).
Proof.
  intros Htok Hfind Hid. unfold services.GetByToken, gorm_update. simpl.
  apply (find_update_where _ (id_is id) (fun a => set_UpdatedAt now (f a))); [done| |].
  - unfold id_is. by apply N.eqb_eq.
  - intros x. simpl. by rewrite Htok.
Qed.

(** X14: Once the operator has disabled an agent with [Update], its
    token is refused by the three authenticated operations, and none of them
    writes anything: [Heartbeat] answers Unauthorized with the text of the
    service's error, [GetTasks] and [ReportResult] answer Forbidden. *)
Theorem disabled_agent_refused (token name description : string) (now now' : LocalTime)
    (d d1 : DB) (a : Agent) (hb : gin.Context HeartbeatRequest) (gt : gin.Context unit)
    (rr : gin.Context AgentTaskResult) (fs : FS) (compress : string -> option string) :
  token <> "" ->
  services.GetByToken token d = Some a ->
  services.Update (ID a) name description false now d = (None, d1) ->
  AgentController.getAgentToken hb = token ->
  AgentController.getAgentToken gt = token ->
  AgentController.getAgentToken rr = token ->
  controllers.Heartbeat hb now' fs d1
    = (utils.Unauthorized (utils.Text "Agent 已禁用"), d1)
  /\ controllers.GetTasks gt d1 = utils.Forbidden (utils.Text "Agent 已禁用")
  /\ controllers.ReportResult compress rr now' d1
       = (utils.Forbidden (utils.Text "Agent 已禁用"), d1).
Proof.
  intros Hne%String.eqb_neq Hfind [= <-] Hhb Hgt Hrr.
  pose proof (GetByToken_update token (ID a)
                (fun a => set_Enabled false (set_Description description (set_Name name a)))
                now d a (fun _ => eq_refl) Hfind eq_refl) as Hrow.
  unfold controllers.Heartbeat, controllers.GetTasks, controllers.ReportResult,
    services.Heartbeat.
  rewrite Hhb, Hgt, Hrr, Hne, Hrow. simpl.
  by destruct (gin.ShouldBindJSON hb).
Qed.

Lemma Heartbeat_accepted (ctx : gin.Context HeartbeatRequest) now fs d token a :
  AgentController.getAgentToken ctx = token -> token <> "" ->
  services.GetByToken token d = Some a -> Enabled a = true ->
  controllers.Heartbeat ctx now fs d =
    (utils.Success
       (<["agent_id" := JNum (ID a)]>
       (<["name" := JStr (Name a)]>
       (<["need_update" :=
            JBool (need_update (agent_files.GetLatestVersion fs) (hb_Version (gin.Bound ctx)))]>
       (<["force_update" := JBool (ForceUpdate a)]>
       (<["latest_version" := JStr (agent_files.GetLatestVersion fs)]> ∅))))),
     let d' :=
       gorm_update (id_is (ID a))
         (services.heartbeat_updates (gin.ClientIP ctx) (hb_Version (gin.Bound ctx))
            (hb_BuildTime (gin.Bound ctx)) (hb_Hostname (gin.Bound ctx))
            (hb_OS (gin.Bound ctx)) (hb_Arch (gin.Bound ctx)) now) now d in
     if ForceUpdate a
        && need_update (agent_files.GetLatestVersion fs) (hb_Version (gin.Bound ctx))
     then gorm_update (id_is (ID a)) (set_ForceUpdate false) now d'
     else d').
Proof.
  intros Htok Hne%String.eqb_neq Hfind Hen.
  unfold controllers.Heartbeat, services.Heartbeat, gin.ShouldBindJSON.
  rewrite Htok, Hne, Hfind, Hen. cbn [negb]. cbv zeta. unfold need_update. simpl.
  by destruct (ForceUpdate a && _).
Qed.

(** X15: The force-update flag is delivered once: after the operator's
    [ForceUpdate], the next heartbeat of the agent that reports a version
    other than the published one answers [force_update] true and resets the
    stored flag, so the heartbeat after it answers [force_update] false. *)
Theorem force_update_delivered_once (token : string) (d : DB) (a : Agent)
    (route : controllers.Route unit) (now0 now1 now2 : LocalTime) (fs1 fs2 : FS)
    (hb1 hb2 : gin.Context HeartbeatRequest) :
  token <> "" ->
  services.GetByToken token d = Some a -> Enabled a = true ->
  ParseUint (controllers.Param route "id") 32 = Some (ID a) ->
  AgentController.getAgentToken hb1 = token ->
  AgentController.getAgentToken hb2 = token ->
  need_update (agent_files.GetLatestVersion fs1) (hb_Version (gin.Bound hb1)) = true ->
  exists data1 data2 d1 d2 d3,
    controllers.ForceUpdate route now0 d
      = (controllers.SuccessMsg "已标记强制更新，Agent 下次心跳时将自动更新", d1)
    /\ controllers.Heartbeat hb1 now1 fs1 d1 = (utils.Success data1, d2)
    /\ data1 !! "force_update" = Some (JBool true)
    /\ data1 !! "need_update" = Some (JBool true)
    /\ controllers.Heartbeat hb2 now2 fs2 d2 = (utils.Success data2, d3)
    /\ data2 !! "force_update" = Some (JBool false).
Proof.
  intros Hne Hfind Hen Hid Hhb1 Hhb2 Hneed.
  pose proof (GetByToken_update token (ID a) (set_ForceUpdate true) now0 d a
                (fun _ => eq_refl) Hfind eq_refl) as H1.
  pose proof (Heartbeat_accepted hb1 now1 fs1 _ token _ Hhb1 Hne H1 Hen) as E1.
  rewrite Hneed in E1. cbv zeta in E1. cbn [ForceUpdate set_UpdatedAt set_ForceUpdate andb ID]
    in E1.
  set (upd := services.heartbeat_updates (gin.ClientIP hb1) (hb_Version (gin.Bound hb1))
                (hb_BuildTime (gin.Bound hb1)) (hb_Hostname (gin.Bound hb1))
                (hb_OS (gin.Bound hb1)) (hb_Arch (gin.Bound hb1)) now1) in *.
  assert (forall x, Token (upd x) = Token x /\ ID (upd x) = ID x
                    /\ Enabled (upd x) = Enabled x) as Hupd.
  { intros x. pose proof (heartbeat_updates_fields (gin.ClientIP hb1)
      (hb_Version (gin.Bound hb1)) (hb_BuildTime (gin.Bound hb1))
      (hb_Hostname (gin.Bound hb1)) (hb_OS (gin.Bound hb1)) (hb_Arch (gin.Bound hb1))
      now1 x) as H. cbv zeta in H. fold upd in H. tauto. }
  pose proof (GetByToken_update token (ID a) upd now1 _ _
                (fun x => proj1 (Hupd x)) H1 eq_refl) as H2.
  pose proof (GetByToken_update token (ID a) (set_ForceUpdate false) now1 _ _
                (fun _ => eq_refl) H2 (proj1 (proj2 (Hupd _)))) as H3.
  assert (Enabled (set_UpdatedAt now1 (set_ForceUpdate false
            (set_UpdatedAt now1 (upd (set_UpdatedAt now0 (set_ForceUpdate true a))))))
          = true) as Hen3.
  { simpl. etrans; [apply Hupd|done]. }
  pose proof (Heartbeat_accepted hb2 now2 fs2 _ token _ Hhb2 Hne H3 Hen3) as E2.
  do 5 eexists. split_and!.
  - unfold controllers.ForceUpdate, services.SetForceUpdate. by rewrite Hid.
  - exact E1.
  - done.
  - done.
  - exact E2.
  - done.
Qed.

(** ** Cleaning the task logs *)

Section CleanTaskLogs.

Variable Unmarshal : string -> option tasks.CleanConfig.
Variable AddDate : LocalTime -> Z -> LocalTime.

Lemma log_ids_desc_sorted taskID logs :
  StronglySorted (flip N.le) (tasks.log_ids_desc taskID logs).
Proof. apply StronglySorted_merge_sort; apply _. Qed.

Lemma log_ids_desc_Permutation taskID logs :
  tasks.log_ids_desc taskID logs
  ≡ₚ List.map models.tl_ID (List.filter (tasks.task_is taskID) logs).
Proof. apply merge_sort_Permutation. Qed.

Lemma log_ids_desc_NoDup taskID logs :
  NoDup (List.map models.tl_ID logs) -> NoDup (tasks.log_ids_desc taskID logs).
Proof. intros Hnd. rewrite log_ids_desc_Permutation. by apply NoDup_map_filter. Qed.

Lemma newer_logs_ids l logs :
  newer_logs l logs
  = length (List.filter (fun x => (models.tl_ID l <? x)%N)
              (tasks.log_ids_desc (models.tl_TaskID l) logs)).
Proof.
  unfold newer_logs.
  rewrite (Permutation_length (filter_Permutation _ _ _ (log_ids_desc_Permutation _ _))).
  by rewrite filter_map_swap, length_map, filter_filter.
Qed.

(** The count rule, on the logs. *)
Lemma count_rule_keeps taskID k logs b l :
  tasks.log_ids_desc taskID logs !! k = Some b ->
  In l (delete_where (fun l => tasks.task_is taskID l && N.ltb (models.tl_ID l) b) logs)
  <-> In l logs /\ (models.tl_TaskID l = taskID -> (newer_logs l logs < S k)%nat).
Proof.
  intros Hb. rewrite in_delete_where, andb_false_iff. unfold tasks.task_is.
  rewrite N.eqb_neq, N.ltb_ge. split; intros [Hin H]; (split; [done|]).
  - intros Ht. destruct H as [?|H]; [done|]. subst taskID.
    destruct (decide (S k <= newer_logs l logs)%nat) as [Hge|]; [|lia].
    rewrite newer_logs_ids in Hge.
    apply (newest_first_nth_newer _ _ _ (log_ids_desc_sorted _ _)) in Hge
      as (b' & Hb' & Hlt). rewrite Hb in Hb'. injection Hb' as <-. lia.
  - destruct (decide (models.tl_TaskID l = taskID)) as [Ht|]; [|by left]. right.
    specialize (H Ht). subst taskID. destruct (N.le_gt_cases b (models.tl_ID l)); [done|].
    assert (S k <= newer_logs l logs)%nat; [|lia].
    rewrite newer_logs_ids.
    apply (newest_first_nth_newer _ _ _ (log_ids_desc_sorted _ _)). eauto.
Qed.

Lemma count_rule_ids taskID k logs b :
  NoDup (List.map models.tl_ID logs) ->
  tasks.log_ids_desc taskID logs !! k = Some b ->
  tasks.log_ids_desc taskID
    (delete_where (fun l => tasks.task_is taskID l && N.ltb (models.tl_ID l) b) logs)
  = take (S k) (tasks.log_ids_desc taskID logs).
Proof.
  intros Hnd Hb. apply (Sorted_unique (flip N.le)).
  - apply StronglySorted_Sorted, log_ids_desc_sorted.
  - apply StronglySorted_Sorted.
    pose proof (log_ids_desc_sorted taskID logs) as Hs.
    rewrite <- (take_drop (S k) (tasks.log_ids_desc taskID logs)) in Hs.
    by apply StronglySorted_app_1_l in Hs.
  - rewrite log_ids_desc_Permutation.
    rewrite <- (newest_first_filter_take _ b k (log_ids_desc_sorted _ _)
                  (log_ids_desc_NoDup _ _ Hnd) Hb).
    rewrite (filter_Permutation _ _ _ (log_ids_desc_Permutation taskID logs)).
    rewrite filter_map_swap. unfold delete_where. rewrite !filter_filter.
    apply Permutation_map. erewrite filter_ext; [done|].
    intros r. simpl. destruct (tasks.task_is taskID r); simpl; [|done].
    by rewrite andb_true_r.
Qed.

(** X17: With a clean configuration of type count that keeps
    [keep] > 0 logs, and distinct log ids, [CleanTaskLogs] keeps a log of the
    task exactly when fewer than [keep] logs of the task are newer, and every
    log of another task; the ids left for the task are the first [keep] of
    the ids it had, newest first; a second run changes nothing. *)
Theorem CleanTaskLogs_count (taskID : N) (now : LocalTime) (d : DB) (task : models.Task)
    (config : tasks.CleanConfig) :
  List.find (fun t => N.eqb (models.tk_ID t) taskID) (db_tasks d) = Some task ->
  models.tk_CleanConfig task <> "" ->
  Unmarshal (models.tk_CleanConfig task) = Some config ->
  tasks.Type_ config = "count" -> 0 < tasks.Keep config ->
  NoDup (List.map models.tl_ID (db_task_logs d)) ->
  (forall l,
      In l (db_task_logs (tasks.CleanTaskLogs Unmarshal AddDate taskID now d)) <->
      In l (db_task_logs d)
      /\ (models.tl_TaskID l = taskID ->
          (newer_logs l (db_task_logs d) < Z.to_nat (tasks.Keep config))%nat))
  /\ tasks.log_ids_desc taskID
       (db_task_logs (tasks.CleanTaskLogs Unmarshal AddDate taskID now d))
     = take (Z.to_nat (tasks.Keep config)) (tasks.log_ids_desc taskID (db_task_logs d))
  /\ tasks.CleanTaskLogs Unmarshal AddDate taskID now
       (tasks.CleanTaskLogs Unmarshal AddDate taskID now d)
     = tasks.CleanTaskLogs Unmarshal AddDate taskID now d.
Proof.
  intros Hfind Hcfg%String.eqb_neq Hjson Htype Hkeep Hnd.
  assert (exists k, Z.to_nat (tasks.Keep config) = S k /\ Z.to_nat (tasks.Keep config - 1) = k)
    as (k & Hk & Hk1) by (exists (Z.to_nat (tasks.Keep config) - 1)%nat; lia).
  assert (forall d0, db_tasks d0 = db_tasks d ->
            tasks.CleanTaskLogs Unmarshal AddDate taskID now d0
            = match tasks.log_ids_desc taskID (db_task_logs d0) !! k with
              | Some b =>
                  tasks.with_task_logs
                    (delete_where
                       (fun l => tasks.task_is taskID l && N.ltb (models.tl_ID l) b)
                       (db_task_logs d0)) d0
              | None => d0
              end) as Hrun.
  { intros d0 E. unfold tasks.CleanTaskLogs, tasks.boundary_id.
    rewrite E, Hfind, Hcfg, Hjson, Htype, Hk1. simpl.
    rewrite (proj2 (Z.leb_gt _ 0)) by lia. by rewrite (proj2 (Z.ltb_ge _ 0)) by lia. }
  rewrite (Hrun d eq_refl), Hk.
  destruct (tasks.log_ids_desc taskID (db_task_logs d) !! k) as [b|] eqn:Hb.
  - simpl. split_and!.
    + intros l. by apply (count_rule_keeps taskID k _ b).
    + by apply (count_rule_ids taskID k _ b).
    + rewrite Hrun by done. simpl. rewrite (count_rule_ids taskID k _ b) by done.
      rewrite lookup_take_lt, Hb by lia. unfold tasks.with_task_logs. simpl. f_equal.
      unfold delete_where. rewrite filter_filter. apply filter_ext.
      intros r. by destruct (tasks.task_is taskID r && _).
  - split_and!.
    + intros l. split; [|tauto]. intros Hin. split; [done|]. intros Ht. subst taskID.
      rewrite newer_logs_ids. apply lookup_ge_None in Hb.
      pose proof (List.filter_length_le (fun x => (models.tl_ID l <? x)%N)
                    (tasks.log_ids_desc (models.tl_TaskID l) (db_task_logs d))). lia.
    + apply lookup_ge_None in Hb. by rewrite take_ge by lia.
    + rewrite Hrun by done. by rewrite Hb.
Qed.

End CleanTaskLogs.

(** X18: [CleanTaskLogs] only ever deletes logs of the task it is
    run for: no log is added, the logs of other tasks and all other tables
    are as before; and nothing at all changes when the task has no clean
    configuration, when the configuration cannot be parsed, when it keeps
    zero or fewer, or when its type is neither day nor count. *)
Theorem CleanTaskLogs_frame (Unmarshal : string -> option tasks.CleanConfig)
    (AddDate : LocalTime -> Z -> LocalTime) (taskID : N) (now : LocalTime) (d : DB) :
  (forall l, In l (db_task_logs (tasks.CleanTaskLogs Unmarshal AddDate taskID now d)) ->
             In l (db_task_logs d))
  /\ List.filter (fun l => negb (tasks.task_is taskID l))
       (db_task_logs (tasks.CleanTaskLogs Unmarshal AddDate taskID now d))
     = List.filter (fun l => negb (tasks.task_is taskID l)) (db_task_logs d)
  /\ tasks.with_task_logs (db_task_logs d)
       (tasks.CleanTaskLogs Unmarshal AddDate taskID now d) = d
  /\ (forall task,
        List.find (fun t => N.eqb (models.tk_ID t) taskID) (db_tasks d) = Some task ->
        models.tk_CleanConfig task = ""
        \/ Unmarshal (models.tk_CleanConfig task) = None
        \/ (exists config,
              Unmarshal (models.tk_CleanConfig task) = Some config
              /\ (tasks.Keep config <= 0
                  \/ tasks.Type_ config <> "day" /\ tasks.Type_ config <> "count")) ->
        tasks.CleanTaskLogs Unmarshal AddDate taskID now d = d).
Proof.
  assert (forall p, (forall l, p l = true -> tasks.task_is taskID l = true) ->
            (forall l, In l (delete_where p (db_task_logs d)) -> In l (db_task_logs d))
            /\ List.filter (fun l => negb (tasks.task_is taskID l))
                 (delete_where p (db_task_logs d))
               = List.filter (fun l => negb (tasks.task_is taskID l)) (db_task_logs d))
    as Hdel.
  { intros p Hp. split.
    - by intros l [? _]%in_delete_where.
    - unfold delete_where. rewrite filter_filter. apply filter_ext. intros l.
      destruct (p l) eqn:E; [|done]. by rewrite (Hp l E). }
  assert (tasks.with_task_logs (db_task_logs d) d = d) as Hsame by (by destruct d).
  unfold tasks.CleanTaskLogs.
  destruct (List.find _ (db_tasks d)) as [task|]; [|by split_and!].
  destruct (String.eqb_spec (models.tk_CleanConfig task) "") as [E|Hcfg].
  { split_and!; try done. }
  destruct (Unmarshal (models.tk_CleanConfig task)) as [config|] eqn:Hjson.
  2:{ split_and!; try done. }
  destruct (Z.leb_spec (tasks.Keep config) 0) as [Hle|Hgt].
  { split_and!; try done. }
  destruct (String.eqb_spec (tasks.Type_ config) "day") as [Hday|Hday].
  { destruct (Hdel (fun l => tasks.task_is taskID l
                             && (models.tl_CreatedAt l <? AddDate now (- tasks.Keep config))))
      as [H1 H2]; [by intros l [? _]%andb_true_iff|].
    split_and!; try done.
    intros ? [= <-] [?|[?|(c & Hc & [?|[? _]])]]; simplify_eq; done || lia. }
  destruct (String.eqb_spec (tasks.Type_ config) "count") as [Hcount|Hcount].
  { destruct (tasks.boundary_id taskID _ _) as [b|].
    - destruct (Hdel (fun l => tasks.task_is taskID l && N.ltb (models.tl_ID l) b))
        as [H1 H2]; [by intros l [? _]%andb_true_iff|].
      split_and!; try done.
      intros ? [= <-] [?|[?|(c & Hc & [?|[_ ?]])]]; simplify_eq; done || lia.
    - split_and!; try done. }
  split_and!; done.
Qed.

(** ** The conda manager *)

Lemma extractEnvName_last envPath :
  deps_env.extractEnvName envPath =
    (let name := List.last (split_char "/" envPath) "" in
     if String.eqb name "conda" || String.eqb name "miniconda3"
        || String.eqb name "anaconda3"
     then "base" else name).
Proof.
  unfold deps_env.extractEnvName. change "/"%string with (String "/" "") at 1 2.
  rewrite Split_char. pose proof (split_char_nonempty "/" envPath) as Hne.
  destruct (split_char "/" envPath) as [|p ps] eqn:E; [done|].
  change (0 <? length (p :: ps))%nat with true. cbv iota. by rewrite nth_last.
Qed.

Lemma extractEnvName_free envPath : free_of "/" (deps_env.extractEnvName envPath).
Proof.
  rewrite extractEnvName_last. cbv zeta.
  destruct (_ || _); [free_of_literal|apply last_piece_free].
Qed.

(** X19: The name of an environment is the last element of its path,
    whatever directories come before it, except that the three names of a
    conda installation directory stand for the base environment; the name
    never contains a slash, and taking the name of a name changes nothing. *)
Theorem extractEnvName_last_element (dir name : string) :
  free_of "/" name ->
  deps_env.extractEnvName (dir ++ "/" ++ name) = deps_env.extractEnvName name
  /\ deps_env.extractEnvName name
     = (if bool_decide (name ∈ ["conda"; "miniconda3"; "anaconda3"]) then "base" else name)
  /\ free_of "/" (deps_env.extractEnvName name)
  /\ deps_env.extractEnvName (deps_env.extractEnvName name) = deps_env.extractEnvName name.
Proof.
  intros Hfree.
  assert (deps_env.extractEnvName name
          = (if bool_decide (name ∈ ["conda"; "miniconda3"; "anaconda3"])
             then "base" else name)) as Hname.
  { rewrite extractEnvName_last, split_char_free by done. simpl.
    destruct (String.eqb_spec name "conda") as [->|H1]; [done|].
    destruct (String.eqb_spec name "miniconda3") as [->|H2]; [done|].
    destruct (String.eqb_spec name "anaconda3") as [->|H3]; [done|].
    simpl. rewrite bool_decide_eq_false_2; [done|].
    rewrite !elem_of_cons, elem_of_nil. tauto. }
  split_and!.
  - rewrite !extractEnvName_last. change ("/" ++ name) with (String "/" name).
    by rewrite last_piece_app, split_char_free.
  - exact Hname.
  - apply extractEnvName_free.
  - rewrite Hname. destruct (bool_decide _) eqn:E; [done|].
    rewrite extractEnvName_last, split_char_free by done. simpl.
    apply bool_decide_eq_false in E. rewrite !elem_of_cons, elem_of_nil in E.
    destruct (String.eqb_spec name "conda"); [tauto|].
    destruct (String.eqb_spec name "miniconda3"); [tauto|].
    destruct (String.eqb_spec name "anaconda3"); [tauto|]. done.
Qed.

Section CondaHost.

Variable LookPath : string -> option string.
Variable Output : list string -> deps_env.error + string.
Variable CombinedOutput : list string -> deps_env.error + string.
Variable UnmarshalEnvs : string -> deps_env.error + list string.

(** X20: A manager that has not remembered a path through a
    successful [IsAvailable] fails every operation with the not-found error
    and runs no command, also on a host where [LookPath] finds conda. *)
Theorem conda_path_not_remembered (cm : deps_env.CondaManager)
    (name version envName packageName : string) :
  deps_env.condaPath cm = "" ->
  deps_env.getCondaPath LookPath cm = ""
  /\ deps_env.ListEnvs LookPath Output UnmarshalEnvs cm = inl deps_env.ErrNotFound
  /\ deps_env.CreateEnv LookPath CombinedOutput cm name version
     = (Some deps_env.ErrNotFound, None)
  /\ deps_env.DeleteEnv LookPath CombinedOutput cm name = (Some deps_env.ErrNotFound, None)
  /\ deps_env.ListPackages LookPath Output cm envName = inl deps_env.ErrNotFound
  /\ deps_env.InstallPackage LookPath CombinedOutput cm envName packageName
     = (Some deps_env.ErrNotFound, None)
  /\ deps_env.UninstallPackage LookPath CombinedOutput cm envName packageName
     = (Some deps_env.ErrNotFound, None).
Proof.
  intros Hpath.
  unfold deps_env.ListEnvs, deps_env.CreateEnv, deps_env.DeleteEnv, deps_env.ListPackages,
    deps_env.InstallPackage, deps_env.UninstallPackage, deps_env.getCondaPath.
  rewrite Hpath. by split_and!.
Qed.

Lemma ListEnvs_accepted (cm : deps_env.CondaManager) (output : string)
    (paths : list string) :
  deps_env.condaPath cm <> "" ->
  Output [deps_env.condaPath cm; "env"; "list"; "--json"] = inr output ->
  UnmarshalEnvs output = inr paths ->
  deps_env.ListEnvs LookPath Output UnmarshalEnvs cm
    = inr (List.flat_map
             (fun envPath =>
                if HasPrefix (deps_env.extractEnvName envPath) "." then []
                else [{| deps_env.env_Name := deps_env.extractEnvName envPath;
                         deps_env.env_Path := envPath; deps_env.env_Version := "";
                         deps_env.env_Active := false |}]) paths).
Proof.
  intros Hpath%String.eqb_neq Hout Hjson. unfold deps_env.ListEnvs, deps_env.getCondaPath.
  by rewrite Hpath, Hout, Hjson.
Qed.

(** X21: The environments [ListEnvs] returns are those of the paths
    conda reports whose name does not start with a dot, in the order
    reported; each carries its path and the name taken from it, which has no
    slash, and none is marked active. *)
Theorem ListEnvs_result (cm : deps_env.CondaManager) (output : string)
    (paths : list string) (envs : list deps_env.RuntimeEnv) :
  deps_env.condaPath cm <> "" ->
  Output [deps_env.condaPath cm; "env"; "list"; "--json"] = inr output ->
  UnmarshalEnvs output = inr paths ->
  deps_env.ListEnvs LookPath Output UnmarshalEnvs cm = inr envs ->
  List.map deps_env.env_Path envs
    = List.filter (fun p => negb (HasPrefix (deps_env.extractEnvName p) ".")) paths
  /\ Forall (fun e => deps_env.env_Name e = deps_env.extractEnvName (deps_env.env_Path e)
                      /\ free_of "/" (deps_env.env_Name e)
                      /\ HasPrefix (deps_env.env_Name e) "." = false
                      /\ deps_env.env_Active e = false) envs.
Proof.
  intros Hpath Hout Hjson. rewrite (ListEnvs_accepted cm output paths) by done.
  intros [= <-]. clear Hout Hjson. split.
  - induction paths as [|p paths IH]; simpl; [done|].
    destruct (HasPrefix (deps_env.extractEnvName p) "."); simpl; by rewrite IH.
  - induction paths as [|p paths IH]; simpl; [apply Forall_nil_2|].
    destruct (HasPrefix (deps_env.extractEnvName p) ".") eqn:E; simpl; [done|].
    apply Forall_cons. split; [|done]. simpl. split_and!; try done.
    apply extractEnvName_free.
Qed.

(** X22: The base environment is the default one: [ListPackages],
    [InstallPackage] and [UninstallPackage] run for [base] the command they
    run for an empty environment name, which carries no [-n] option; and
    [DeleteEnv] of [base] reports success without running any command. *)
Theorem conda_base_is_default (cm : deps_env.CondaManager) (packageName : string) :
  deps_env.condaPath cm <> "" ->
  deps_env.ListPackages LookPath Output cm "base"
    = deps_env.ListPackages LookPath Output cm ""
  /\ deps_env.InstallPackage LookPath CombinedOutput cm "base" packageName
     = deps_env.InstallPackage LookPath CombinedOutput cm "" packageName
  /\ snd (deps_env.InstallPackage LookPath CombinedOutput cm "base" packageName)
     = Some [deps_env.condaPath cm; "install"; "-y"; packageName]
  /\ deps_env.UninstallPackage LookPath CombinedOutput cm "base" packageName
     = deps_env.UninstallPackage LookPath CombinedOutput cm "" packageName
  /\ snd (deps_env.UninstallPackage LookPath CombinedOutput cm "base" packageName)
     = Some [deps_env.condaPath cm; "remove"; "-y"; packageName]
  /\ deps_env.DeleteEnv LookPath CombinedOutput cm "base" = (None, None).
Proof.
  intros Hpath%String.eqb_neq.
  unfold deps_env.ListPackages, deps_env.InstallPackage, deps_env.UninstallPackage,
    deps_env.DeleteEnv, deps_env.getCondaPath.
  rewrite Hpath. simpl. split_and!; try done.
  - by destruct (CombinedOutput _).
  - by destruct (CombinedOutput _).
Qed.

End CondaHost.

Lemma space_width_0 c rest : space_width (String c rest) = 0%nat -> blank c = false.
Proof.
  unfold space_width, blank. cbv zeta.
  destruct ((9 <=? byte_of c) && (byte_of c <=? 13) || (byte_of c =? 32))%N; [done|done].
Qed.

Lemma fields_from_spec s skip :
  free_of_blank (fst (fields_from s skip))
  /\ Forall (fun f => f <> "" /\ free_of_blank f) (snd (fields_from s skip)).
Proof.
  revert skip. induction s as [|c rest IH]; intros skip.
  - simpl. split; [apply Forall_nil_2|apply Forall_nil_2].
  - assert (forall skip',
              free_of_blank ""
              /\ Forall (fun f => f <> "" /\ free_of_blank f)
                   (let (run, fs) := fields_from rest skip' in
                    if String.eqb run "" then fs else run :: fs)) as Hclose.
    { intros skip'. split; [apply Forall_nil_2|]. destruct (IH skip') as [H1 H2].
      destruct (fields_from rest skip') as [run fs]. simpl in *.
      destruct (String.eqb_spec run ""); [done|]. by apply Forall_cons. }
    cbn [fields_from]. destruct skip as [|skip'].
    + destruct (space_width (String c rest)) as [|w] eqn:Hw.
      * destruct (IH 0%nat) as [H1 H2]. destruct (fields_from rest 0) as [run fs].
        simpl in *. split; [|done]. apply Forall_cons. split; [|done].
        by eapply space_width_0.
      * specialize (Hclose w). destruct (fields_from rest w) as [run fs]. exact Hclose.
    + specialize (Hclose skip'). destruct (fields_from rest skip') as [run fs].
      exact Hclose.
Qed.

Lemma Fields_spec s : Forall (fun f => f <> "" /\ free_of_blank f) (Fields s).
Proof.
  unfold Fields. destruct (fields_from_spec s 0) as [H1 H2].
  destruct (fields_from s 0) as [run fs]. simpl in *.
  destruct (String.eqb_spec run ""); [done|]. by apply Forall_cons.
Qed.

(** X23: Every package [parseCondaList] reads from the output of
    [conda list] has a name and a version that are not empty and contain no
    white space, and a channel without white space; the channel is the
    fourth column of the line or empty. *)
Theorem parseCondaList_packages (output : string) :
  Forall (fun p => deps_env.pkg_Name p <> "" /\ free_of_blank (deps_env.pkg_Name p)
                   /\ deps_env.pkg_Version p <> ""
                   /\ free_of_blank (deps_env.pkg_Version p)
                   /\ free_of_blank (deps_env.pkg_Channel p))
         (deps_env.parseCondaList output).
Proof.
  unfold deps_env.parseCondaList. apply Forall_forall.
  intros p (line & _ & Hp)%list_elem_of_In%in_flat_map.
  unfold deps_env.package_of_line in Hp.
  destruct (_ || _); [done|].
  pose proof (Fields_spec line) as Hf. rewrite Forall_forall in Hf.
  destruct (2 <=? length (Fields line))%nat eqn:H2; [|done].
  apply Nat.leb_le in H2. destruct Hp as [<-|[]].
  cbn [deps_env.pkg_Name deps_env.pkg_Version deps_env.pkg_Channel].
  assert (forall n, (n < length (Fields line))%nat ->
            List.nth n (Fields line) "" <> "" /\ free_of_blank (List.nth n (Fields line) ""))
    as Hnth.
  { intros n Hn. apply Hf, list_elem_of_In, nth_In. lia. }
  destruct (Hnth 0%nat) as [? ?]; [lia|]. destruct (Hnth 1%nat) as [? ?]; [lia|].
  split_and!; try done.
  destruct (Nat.leb_spec 4 (length (Fields line))); [|apply Forall_nil_2].
  apply Hnth. lia.
Qed.

(** An indented comment line is read as a package. *)
Example indented_comment_is_a_package :
  deps_env.parseCondaList "  # packages in environment" =
    [{| deps_env.pkg_Name := "#"; deps_env.pkg_Version := "packages";
        deps_env.pkg_Channel := "environment" |}].
Proof. reflexivity. Qed.

(** ** The id of a route *)

Lemma digits_value_ge s acc n : digits_value s acc = Some n -> (acc <= n)%N.
Proof.
  revert acc. induction s as [|c s IH]; intros acc; simpl.
  - intros [= <-]. lia.
  - destruct (digit_value c) as [dgt|]; [|done]. intros H%IH. lia.
Qed.

Lemma parse_digits_value s acc maxVal :
  (acc <= maxVal)%N ->
  parse_digits s acc maxVal =
    match digits_value s acc with
    | Some n => if (maxVal <? n)%N then None else Some n
    | None => None
    end.
Proof.
  revert acc. induction s as [|c s IH]; intros acc Hacc; simpl.
  - by rewrite (proj2 (N.ltb_ge _ _)) by lia.
  - destruct (digit_value c) as [dgt|]; [|done].
    destruct (N.ltb_spec maxVal (acc * 10 + dgt)) as [Hlt|Hge].
    + destruct (digits_value s (acc * 10 + dgt)) as [n|] eqn:E; [|done].
      apply digits_value_ge in E. by rewrite (proj2 (N.ltb_lt _ _)) by lia.
    + by apply IH.
Qed.

Lemma ParseUint_route_id s : ParseUint s 32 = route_id s.
Proof.
  unfold ParseUint, route_id. destruct s as [|c s]; [done|].
  rewrite parse_digits_value by lia.
  destruct (digits_value (String c s) 0) as [n|]; [|done].
  change (2 ^ 32 - 1)%N with 4294967295%N. change (2 ^ 32)%N with 4294967296%N.
  destruct (N.ltb_spec 4294967295 n), (N.ltb_spec n 4294967296); done || lia.
Qed.

(** X24: The operator's handlers that take an id accept exactly the
    non-empty strings of digits_value digits whose value is below 2^32; for any
    other id parameter, the missing one included, each of them answers
    BadRequest with the same text and leaves the database as it is, whatever
    the rest of the request. *)
Theorem invalid_id_refused (ctx : controllers.Route unit)
    (uctx : controllers.Route controllers.UpdateRequest) (now : LocalTime)
    (rnd : list Byte.byte) (updated : Verdict) (d : DB) :
  route_id (controllers.Param ctx "id") = None ->
  route_id (controllers.Param uctx "id") = None ->
  ParseUint (controllers.Param ctx "id") 32 = None
  /\ controllers.Approve ctx now rnd updated d = (controllers.BadRequest "无效的 ID", d)
  /\ controllers.Reject ctx d = (controllers.BadRequest "无效的 ID", d)
  /\ controllers.Update uctx now d = (controllers.BadRequest "无效的 ID", d)
  /\ controllers.Delete ctx d = (controllers.BadRequest "无效的 ID", d)
  /\ controllers.RegenerateToken ctx now rnd updated d
     = (controllers.BadRequest "无效的 ID", d)
  /\ controllers.ForceUpdate ctx now d = (controllers.BadRequest "无效的 ID", d).
Proof.
  intros H Hu.
  unfold controllers.Approve, controllers.Reject, controllers.Update, controllers.Delete,
    controllers.RegenerateToken, controllers.ForceUpdate.
  by rewrite !ParseUint_route_id, H, Hu.
Qed.

(** ** The runtime service *)

(** X25: [GetAvailableRuntimes] names exactly the registered types
    whose manager answers [IsAvailable] with true, each once, and leaves every
    manager in the service as its [IsAvailable] left it. *)
Theorem GetAvailableRuntimes_spec {M : Type} `{deps_env.RuntimeManager M}
    (rs : deps_env.RuntimeService M) :
  (forall name,
      name ∈ fst (deps_env.GetAvailableRuntimes rs) <->
      exists m, deps_env.GetManager name rs = Some m
                /\ fst (deps_env.rm_IsAvailable m) = true)
  /\ NoDup (fst (deps_env.GetAvailableRuntimes rs))
  /\ (forall name,
        deps_env.GetManager name (snd (deps_env.GetAvailableRuntimes rs))
        = (fun m => snd (deps_env.rm_IsAvailable m)) <$> deps_env.GetManager name rs).
Proof.
  unfold deps_env.GetAvailableRuntimes, deps_env.GetManager. simpl. split_and!.
  - intros name. rewrite list_elem_of_fmap. split.
    + intros ([k [b m']] & -> & Hin). simpl.
      apply elem_of_map_to_list, map_lookup_filter_Some in Hin as [Hin Hb].
      apply lookup_fmap_Some in Hin as (m & Hm & Hlook). exists m. split; [done|].
      simpl in Hb. by rewrite Hm.
    + intros (m & Hm & Hb). exists (name, deps_env.rm_IsAvailable m). split; [done|].
      apply elem_of_map_to_list, map_lookup_filter_Some. split; [|done].
      by rewrite lookup_fmap, Hm.
  - apply NoDup_fst_map_to_list.
  - intros name. rewrite !lookup_fmap. by destruct (deps_env.managers rs !! name).
Qed.

(** X26: On a host where conda is found, the conda manager of a
    new runtime service fails [ListEnvs] with the not-found error; once
    [GetAvailableRuntimes] has been called, which answers conda, the manager
    the service hands out has remembered the path found, and [ListEnvs] on it
    runs [conda env list --json] at that path. *)
Theorem conda_works_after_poll (LookPath : string -> option string)
    (Output CombinedOutput : list string -> deps_env.error + string)
    (UnmarshalEnvs : string -> deps_env.error + list string)
    (path output : string) (paths : list string) :
  let H := deps_env.conda_manager LookPath Output CombinedOutput UnmarshalEnvs in
  deps_env.findCondaPath LookPath deps_env.NewCondaManager = inr path ->
  path <> "" ->
  Output [path; "env"; "list"; "--json"] = inr output ->
  UnmarshalEnvs output = inr paths ->
  (exists cm, deps_env.GetManager "conda" deps_env.NewRuntimeService = Some cm
              /\ deps_env.rm_ListEnvs cm = inl deps_env.ErrNotFound)
  /\ fst (deps_env.GetAvailableRuntimes deps_env.NewRuntimeService) = ["conda"]
  /\ exists cm envs,
       deps_env.GetManager "conda" (snd (deps_env.GetAvailableRuntimes deps_env.NewRuntimeService))
         = Some cm
       /\ deps_env.condaPath cm = path
       /\ deps_env.rm_ListEnvs cm = inr envs
       /\ List.map deps_env.env_Path envs
          = List.filter (fun p => negb (HasPrefix (deps_env.extractEnvName p) ".")) paths.
Proof.
  intros H Hfind Hpath Hout Hjson.
  assert (deps_env.rm_IsAvailable deps_env.NewCondaManager
          = (true, {| deps_env.condaPath := path |})) as Havail.
  { simpl. unfold deps_env.IsAvailable. by rewrite Hfind. }
  split_and!.
  - exists deps_env.NewCondaManager. split; [done|].
    reflexivity.
  - unfold deps_env.GetAvailableRuntimes, deps_env.NewRuntimeService,
      deps_env.RegisterManager. cbn [deps_env.managers fst].
    change (deps_env.rm_GetType deps_env.NewCondaManager) with "conda".
    rewrite insert_empty, map_fmap_singleton, Havail.
    rewrite map_filter_singleton_True by done. by rewrite map_to_list_singleton.
  - unfold deps_env.GetAvailableRuntimes, deps_env.NewRuntimeService,
      deps_env.RegisterManager, deps_env.GetManager. cbn [deps_env.managers snd].
    change (deps_env.rm_GetType deps_env.NewCondaManager) with "conda".
    rewrite insert_empty, !map_fmap_singleton, Havail, lookup_singleton. cbn [snd].
    eexists {| deps_env.condaPath := path |}, _. split_and!; [done|done| |].
    + by apply (ListEnvs_accepted LookPath Output UnmarshalEnvs
                  {| deps_env.condaPath := path |} output paths).
    + clear. induction paths as [|p paths IH]; simpl; [done|].
      destruct (HasPrefix (deps_env.extractEnvName p) "."); simpl; by rewrite IH.
Qed.

(** ** Polling for approval and fetching tasks *)

(** X27: In a well-formed agent table, [CheckStatus] answers for the
    first agent registered under the name from the caller's address: its id
    and status, and its token exactly when it is no longer pending; the time
    of the poll is stored as the agent's last heartbeat.  A name or an
    address that matches no agent is answered NotFound, and nothing is
    written. *)
Theorem CheckStatus_answer (ctx : gin.Context CheckStatusRequest) (now : LocalTime)
    (d : DB) :
  panel.agents_ok d -> gin.BindError ctx = false ->
  match List.find (fun a => String.eqb (Name a) (cs_Name (gin.Bound ctx))
                            && String.eqb (IP a) (gin.RemoteIP ctx)) (db_agents d) with
  | None =>
      controllers.CheckStatus ctx now d = (utils.NotFound (utils.Text "Agent 未注册"), d)
  | Some agent =>
      exists data d' row,
        controllers.CheckStatus ctx now d = (utils.Success data, d')
        /\ data !! "agent_id" = Some (JNum (ID agent))
        /\ data !! "status" = Some (JStr (Status agent))
        /\ data !! "token"
           = (if String.eqb (Status agent) "pending" then None
              else Some (JStr (Token agent)))
        /\ (Status agent <> "pending" -> panel.hex_token (Token agent))
        /\ services.GetByID (ID agent) d' = Some row
        /\ LastSeen row = Some now /\ Status row = Status agent
  end.
Proof.
  intros Hok Hbind. unfold controllers.CheckStatus, gin.ShouldBindJSON.
  rewrite Hbind. unfold services.CheckPendingAgent, gin.ClientIP.
  destruct (List.find _ (db_agents d)) as [agent|] eqn:Hfind; [|done].
  pose proof (find_some _ _ Hfind) as [Hin _].
  pose proof Hok as (Hrows & _). rewrite Forall_forall in Hrows.
  destruct (Hrows agent (proj2 (list_elem_of_In _ _) Hin)) as (_ & Htok & Hne).
  do 3 eexists. split; [reflexivity|]. cbn [Status Token ID set_UpdatedAt set_LastSeen].
  split_and!.
  - destruct (_ && _); by simplify_map_eq.
  - destruct (_ && _); by simplify_map_eq.
  - destruct (String.eqb_spec (Status agent) "pending") as [Hs|Hs]; simpl.
    + by simplify_map_eq.
    + destruct (String.eqb_spec (Token agent) "") as [E|_]; [by apply Hne in Hs|].
      simpl. by simplify_map_eq.
  - intros Hs. destruct Htok as [E|?]; [by apply Hne in Hs|done].
  - apply GetByID_update; [done|]. apply find_id_is; [|done].
    by apply agents_ok_live_NoDup.
  - done.
  - done.
Qed.

Lemma CheckStatus_answer_witness :
  exists data d',
    controllers.CheckStatus
      (gin.mkContext [] "10.0.0.7" {| cs_Name := "worker-1" |} false) 1015 db_approved
      = (utils.Success data, d')
    /\ data !! "token" = Some (JStr agent_token)
    /\ fst (controllers.CheckStatus
              (gin.mkContext [] "10.0.0.8" {| cs_Name := "worker-1" |} false) 1015
              db_approved)
       = utils.NotFound (utils.Text "Agent 未注册").
Proof.
  assert (panel.agents_ok db_approved) as Hok.
  { apply (serve_ok (panel.OperatorApprove (route_of "1" tt) 1010 [] None) db_registered).
    apply (serve_ok (panel.AgentRegister (gin.mkContext [] "10.0.0.7" worker1 false) 1000
                       None) db0).
    apply no_agents_ok. by split. }
  pose proof (CheckStatus_answer
                (gin.mkContext [] "10.0.0.7" {| cs_Name := "worker-1" |} false) 1015
                db_approved Hok eq_refl) as H1.
  pose proof (CheckStatus_answer
                (gin.mkContext [] "10.0.0.8" {| cs_Name := "worker-1" |} false) 1015
                db_approved Hok eq_refl) as H2.
  destruct (List.find _ (db_agents db_approved)) as [agent|] eqn:E1 in H1;
    [|by vm_compute in E1].
  destruct (List.find _ (db_agents db_approved)) as [agent'|] eqn:E2 in H2;
    [by vm_compute in E2|].
  destruct H1 as (data & d' & row & Hrun & _ & _ & Htok & _).
  assert (Status agent = "online" /\ Token agent = agent_token) as [Hs Ht]
    by (vm_compute in E1; by injection E1 as <-).
  exists data, d'. rewrite Hs, Ht in Htok. split_and!; [done|done|by rewrite H2].
Defined.

(** X28: [GetTasks] sends an agent its own enabled tasks and no others:
    the response to a valid token of an enabled agent carries the agent's id
    and, in table order, one entry for each task that refers to the agent and
    is enabled, with the fields of the task. *)
Theorem GetTasks_own_tasks (ctx : gin.Context unit) (d : DB) (data : gin.H) :
  controllers.GetTasks ctx d = utils.Success data ->
  exists agent sent,
    services.GetByToken (AgentController.getAgentToken ctx) d = Some agent
    /\ Enabled agent = true /\ AgentController.getAgentToken ctx <> ""
    /\ data !! "agent_id" = Some (JNum (ID agent))
    /\ data !! "tasks" = Some (JTasks sent)
    /\ List.map at_ID sent
       = List.map models.tk_ID
           (List.filter (fun t => bool_decide (models.tk_AgentID t = Some (ID agent))
                                  && models.tk_Enabled t) (db_tasks d))
    /\ Forall (fun t => exists task,
                 In task (db_tasks d) /\ models.tk_AgentID task = Some (ID agent)
                 /\ models.tk_Enabled task = true /\ at_ID t = models.tk_ID task
                 /\ at_Command t = models.tk_Command task
                 /\ at_Schedule t = models.tk_Schedule task) sent.
Proof.
  unfold controllers.GetTasks.
  destruct (String.eqb_spec (AgentController.getAgentToken ctx) "") as [|Hne]; [done|].
  destruct (services.GetByToken _ d) as [agent|] eqn:Hfind; [|done].
  destruct (Enabled agent) eqn:Hen; [|done]. cbn [negb]. intros [= <-].
  exists agent. eexists. split_and!; try done.
  - unfold services.GetTasks. rewrite List.map_map. cbn [at_ID].
    erewrite filter_ext; [reflexivity|]. intros t. cbv beta.
    case_bool_decide as Hag.
    + rewrite Hag, N.eqb_refl. by destruct (models.tk_Enabled t).
    + destruct (models.tk_AgentID t) as [aid|]; [|done].
      destruct (N.eqb_spec aid (ID agent)) as [->|]; [done|done].
  - unfold services.GetTasks. apply Forall_forall.
    intros t (task & <- & [Hin Hp]%filter_In)%list_elem_of_In%in_map_iff.
    apply andb_true_iff in Hp as [Hag Hen'].
    exists task. simpl. split_and!; try done.
    + destruct (models.tk_AgentID task) as [aid|]; [|done]. by apply N.eqb_eq in Hag as ->.
    + by destruct (models.tk_Enabled task).
Qed.

Lemma GetTasks_own_tasks_witness :
  exists data sent,
    controllers.GetTasks (bearer agent_token "10.0.0.7" tt) db_tasked = utils.Success data
    /\ data !! "tasks" = Some (JTasks sent)
    /\ List.map at_ID sent = [7%N].
Proof.
  destruct (controllers.GetTasks (bearer agent_token "10.0.0.7" tt) db_tasked)
    as [data| | | | | |] eqn:E; try (by vm_compute in E).
  destruct (GetTasks_own_tasks _ _ _ E) as (agent & sent & Hagent & _ & _ & _ & Hsent & Hids & _).
  assert (ID agent = 1%N) as Hid by (vm_compute in Hagent; by injection Hagent as <-).
  exists data, sent. rewrite Hid in Hids. by split_and!.
Defined.

(** ** Listing and downloading the agent programs *)

Lemma filepath_Join_plain name :
  name <> "" -> name <> "." -> name <> ".." -> free_of "/" name ->
  filepath_Join "/opt/agent" name = "/opt/agent/" ++ name.
Proof.
  intros N1 N2 N3 Hfree. unfold filepath_Join.
  change ("/opt/agent" ++ "/" ++ name)
    with (String "/" ("opt" ++ String "/" ("agent" ++ String "/" name))).
  rewrite Clean_rooted.
  rewrite !split_char_app by free_of_literal. rewrite split_char_free by done.
  cbn [clean_elements String.eqb Ascii.eqb Bool.eqb orb].
  apply String.eqb_neq in N1, N2, N3. by rewrite N1, N2, N3.
Qed.

Lemma binary_name_plain os arch :
  free_of "/" os -> free_of "/" arch ->
  agent_files.binary_name os arch <> "" /\ agent_files.binary_name os arch <> "."
  /\ agent_files.binary_name os arch <> ".."
  /\ free_of "/" (agent_files.binary_name os arch).
Proof.
  intros Hos Harch. unfold agent_files.binary_name.
  assert (free_of "/" ("baihu-agent-" ++ os ++ "-" ++ arch)) as Hfree.
  { apply free_of_app. split; [free_of_literal|]. apply free_of_app. split; [done|].
    change ("-" ++ arch) with (String "-" arch). apply free_of_cons. by split. }
  assert (forall t, "baihu-agent-" ++ t <> "" /\ "baihu-agent-" ++ t <> "."
                    /\ "baihu-agent-" ++ t <> "..") as Hne.
  { intros t. push_append. by split_and!. }
  destruct (String.eqb os "windows").
  - rewrite append_assoc. destruct (Hne ((os ++ "-" ++ arch) ++ ".exe")) as (? & ? & ?).
    split_and!; try done. rewrite <- append_assoc.
    apply free_of_app. split; [exact Hfree|free_of_literal].
  - destruct (Hne (os ++ "-" ++ arch)) as (? & ? & ?). by split_and!.
Qed.

(** X29: A program stored in the agent directory under the
    file name of its platform is both listed and served: [GetVersion] lists
    an entry with this system, this architecture and this file name, and
    [Download] for them answers with the content of that file and its name. *)
Theorem stored_platform_listed_and_served (ctx : controllers.Route unit) (fs : FS)
    (os arch : string) (files : list string) (data : string) :
  free_of "-" os -> free_of "-" arch -> free_of "/" os -> free_of "/" arch ->
  (os = "windows" \/ HasSuffix arch ".exe" = false) ->
  ReadDir fs "/opt/agent" = Some files ->
  In (agent_files.binary_name os arch) files ->
  ReadFile fs ("/opt/agent/" ++ agent_files.binary_name os arch) = Some data ->
  controllers.DefaultQuery ctx "os" "linux" = os ->
  controllers.DefaultQuery ctx "arch" "amd64" = arch ->
  (exists version platforms,
     controllers.GetVersion fs
       = controllers.Success (controllers.VersionInfo version platforms)
     /\ In (<["os" := os]> (<["arch" := arch]>
             (<["filename" := agent_files.binary_name os arch]> ∅))) platforms)
  /\ controllers.Download ctx fs =
       controllers.Data 200 "application/octet-stream"
         [("Content-Disposition",
           "attachment; filename=" ++ agent_files.binary_name os arch);
          ("Content-Type", "application/octet-stream");
          ("Content-Length", controllers.Itoa (N.of_nat (String.length data)))]
         data.
Proof.
  intros Hos Harch Hos' Harch' Hexe Hdir Hin Hread Eos Earch. split.
  - unfold controllers.GetVersion. do 2 eexists. split; [reflexivity|].
    unfold agent_files.GetAvailablePlatforms. rewrite Hdir. apply in_flat_map.
    exists (agent_files.binary_name os arch). split; [done|].
    rewrite platform_of_filename with (os := os) (arch := arch); [by left|done|done| |].
    + unfold agent_files.binary_name. destruct (String.eqb_spec os "windows") as [->|Hw].
      * apply TrimSuffix_app.
      * destruct Hexe as [?|Hexe]; [done|]. apply TrimSuffix_other. intros a.
        apply binary_name_not_exe; [done|]. intros b. by apply HasSuffix_false.
    + unfold agent_files.binary_name. destruct (String.eqb os "windows").
      * rewrite append_assoc. apply HasPrefix_app.
      * apply HasPrefix_app.
  - unfold controllers.Download, agent_files.GetAgentBinary. rewrite Eos, Earch.
    destruct (binary_name_plain os arch Hos' Harch') as (N1 & N2 & N3 & Hfree).
    by rewrite filepath_Join_plain, Hread.
Qed.

Lemma stored_platform_listed_and_served_witness :
  exists headers,
    controllers.Download
      (controllers.mkRoute (gin.mkContext [] "" tt false) []
         [("os", "windows"); ("arch", "amd64")])
      {| ReadFile := fun p =>
           if String.eqb p "/opt/agent/baihu-agent-windows-amd64.exe" then Some "MZ"
           else None;
         ReadDir := fun p =>
           if String.eqb p "/opt/agent"
           then Some ["version.txt"; "baihu-agent-windows-amd64.exe"] else None |}
    = controllers.Data 200 "application/octet-stream" headers "MZ".
Proof.
  eexists.
  apply (stored_platform_listed_and_served _ _ "windows" "amd64"
           ["version.txt"; "baihu-agent-windows-amd64.exe"] "MZ");
    try reflexivity; try free_of_literal.
  - by left.
  - right. by left.
Defined.

(** ** The published version *)

Lemma blanks_cons c s : blanks (String c s) <-> blank c = true /\ blanks s.
Proof. unfold blanks. simpl. by rewrite Forall_cons. Qed.

Lemma visible_ascii_cons c s :
  visible_ascii (String c s) <->
  (blank c = false /\ (byte_of c < 128)%N) /\ visible_ascii s.
Proof. unfold visible_ascii. simpl. by rewrite Forall_cons. Qed.

Lemma space_width_blank c rest : blank c = true -> space_width (String c rest) = 1%nat.
Proof. unfold space_width, blank. cbv zeta. by intros ->. Qed.

Lemma space_width_visible c rest :
  blank c = false -> (byte_of c < 128)%N -> space_width (String c rest) = 0%nat.
Proof.
  unfold space_width, blank. cbv zeta. intros -> Hlt.
  destruct rest as [|c1 rest]; [done|].
  rewrite (proj2 (N.eqb_neq (byte_of c) 194)) by lia. cbn [andb].
  destruct rest as [|c2 rest]; [done|].
  rewrite (proj2 (N.eqb_neq (byte_of c) 225)) by lia.
  rewrite (proj2 (N.eqb_neq (byte_of c) 226)) by lia.
  by rewrite (proj2 (N.eqb_neq (byte_of c) 227)) by lia.
Qed.

Lemma trim_left_blanks pre s : blanks pre -> trim_left (pre ++ s) 0 = trim_left s 0.
Proof.
  induction pre as [|c pre IH]; [done|]. intros [Hc Hpre]%blanks_cons.
  change (String c pre ++ s) with (String c (pre ++ s)). cbn [trim_left].
  rewrite (space_width_blank c _ Hc). by apply IH.
Qed.

Lemma fields_from_blanks s : blanks s -> fields_from s 0 = ("", []).
Proof.
  induction s as [|c s IH]; [done|]. intros [Hc Hs]%blanks_cons.
  cbn [fields_from]. rewrite (space_width_blank c _ Hc). by rewrite (IH Hs).
Qed.

Lemma all_space_blanks s : blanks s -> all_space s = true.
Proof. intros H. unfold all_space, Fields. by rewrite fields_from_blanks. Qed.

Lemma all_space_visible c s :
  blank c = false -> (byte_of c < 128)%N -> all_space (String c s) = false.
Proof.
  intros Hc Hlt. unfold all_space, Fields. cbn [fields_from].
  rewrite (space_width_visible c s Hc Hlt). by destruct (fields_from s 0).
Qed.

Lemma trim_right_blanks s : blanks s -> trim_right s = "".
Proof.
  intros H. destruct s as [|c s]; [done|]. cbn [trim_right].
  by rewrite all_space_blanks.
Qed.

Lemma TrimSpace_padded pre v post :
  blanks pre -> visible_ascii v -> blanks post -> TrimSpace (pre ++ v ++ post) = v.
Proof.
  intros Hpre Hv Hpost. unfold TrimSpace. rewrite trim_left_blanks by done.
  destruct v as [|c v].
  - change ("" ++ post) with post.
    assert (trim_left post 0 = "") as ->; [|done].
    rewrite <- (append_nil_r post). rewrite trim_left_blanks by done. done.
  - apply visible_ascii_cons in Hv as [[Hc Hlt] Hv].
    change (String c v ++ post) with (String c (v ++ post)). cbn [trim_left].
    rewrite (space_width_visible c _ Hc Hlt).
    cbn [trim_right]. rewrite (all_space_visible c _ Hc Hlt). f_equal.
    clear c Hc Hlt. induction v as [|c v IH].
    + by apply trim_right_blanks.
    + apply visible_ascii_cons in Hv as [[Hc Hlt] Hv].
      change (String c v ++ post) with (String c (v ++ post)). cbn [trim_right].
      rewrite (all_space_visible c _ Hc Hlt). f_equal. by apply IH.
Qed.

(** X30: The published version is the content of [version.txt]
    without the white space around it: when the file holds a text of
    visible ASCII bytes between runs of ASCII white space (such as the line
    feed the build writes after the version), [GetLatestVersion] returns that
    text, from [/opt/agent] when the file can be read there and otherwise
    from [data/agent]; and it returns the empty version when neither file can
    be read. *)
Theorem GetLatestVersion_trimmed (fs : FS) (pre v post : string) :
  blanks pre -> visible_ascii v -> blanks post ->
  (ReadFile fs "/opt/agent/version.txt" = Some (pre ++ v ++ post) ->
   agent_files.GetLatestVersion fs = v)
  /\ (ReadFile fs "/opt/agent/version.txt" = None ->
      ReadFile fs "data/agent/version.txt" = Some (pre ++ v ++ post) ->
      agent_files.GetLatestVersion fs = v)
  /\ (ReadFile fs "/opt/agent/version.txt" = None ->
      ReadFile fs "data/agent/version.txt" = None ->
      agent_files.GetLatestVersion fs = "").
Proof.
  intros Hpre Hv Hpost. unfold agent_files.GetLatestVersion. split_and!.
  - intros ->. by apply TrimSpace_padded.
  - intros -> ->. by apply TrimSpace_padded.
  - by intros -> ->.
Qed.

Lemma GetLatestVersion_trimmed_witness :
  agent_files.GetLatestVersion
    {| ReadFile := fun p =>
         if String.eqb p "data/agent/version.txt"
         then Some (" " ++ "v1.4.2" ++ String "013" (String "010" "")) else None;
       ReadDir := fun _ => None |} = "v1.4.2".
Proof.
  assert (blanks " ") as H1.
  { repeat (apply Forall_cons; split; [reflexivity|]). apply Forall_nil_2. }
  assert (visible_ascii "v1.4.2") as H2.
  { repeat (apply Forall_cons; split; [by split|]). apply Forall_nil_2. }
  assert (blanks (String "013" (String "010" ""))) as H3.
  { repeat (apply Forall_cons; split; [reflexivity|]). apply Forall_nil_2. }
  exact (proj1 (proj2 (GetLatestVersion_trimmed
                         {| ReadFile := fun p =>
                              if String.eqb p "data/agent/version.txt"
                              then Some (" " ++ "v1.4.2" ++ String "013" (String "010" ""))
                              else None;
                            ReadDir := fun _ => None |}
                         " " "v1.4.2" (String "013" (String "010" "")) H1 H2 H3))
           eq_refl eq_refl).
Defined.

(** ** What each handler of the agent API does to the world *)

Lemma Heartbeat_run ctx now fs w :
  let token := AgentController.getAgentToken ctx in
  let req := gin.Bound ctx in
  AgentController.Heartbeat ctx now fs w =
    if String.eqb token "" then (utils.Unauthorized (utils.Text "缺少认证 Token"), w)
    else
      match services.Heartbeat token (gin.ClientIP ctx) (hb_Version req)
              (hb_BuildTime req) (hb_Hostname req) (hb_OS req) (hb_Arch req) now (store w) with
      | (inl e, d1) =>
          (utils.Unauthorized (utils.Text (services.Error e)),
           {| store := d1; calls := calls w ++ [CallHeartbeat token] |})
      | (inr agent, d1) =>
          let latest := agent_files.GetLatestVersion fs in
          let need := need_update latest (hb_Version req) in
          let force := ForceUpdate agent in
          (utils.Success
             (<["agent_id" := JNum (ID agent)]>
             (<["name" := JStr (Name agent)]>
             (<["need_update" := JBool need]>
             (<["force_update" := JBool force]>
             (<["latest_version" := JStr latest]> ∅))))),
           {| store := if force && need
                       then snd (services.ClearForceUpdate (ID agent) now d1) else d1;
              calls := ((calls w ++ [CallHeartbeat token]) ++ [CallGetLatestVersion])
                       ++ (if force && need then [CallClearForceUpdate (ID agent)] else []) |})
      end.
Proof.
  cbv zeta. unfold AgentController.Heartbeat. cbv zeta.
  destruct (String.eqb (AgentController.getAgentToken ctx) ""); [done|].
  unfold gin.ShouldBindJSON, bind, invoke, query, perform, ret, invoke. simpl.
  destruct (services.Heartbeat _ _ _ _ _ _ _ _ _) as [[e|agent] d1]; [done|].
  simpl. unfold need_update.
  destruct (ForceUpdate agent && _); simpl; [done|]. by rewrite app_nil_r.
Qed.

Lemma GetTasks_run ctx w :
  let token := AgentController.getAgentToken ctx in
  AgentController.GetTasks ctx w =
    if String.eqb token "" then (utils.Unauthorized (utils.Text "缺少认证 Token"), w)
    else
      match services.GetByToken token (store w) with
      | None =>
          (utils.Unauthorized (utils.Text "无效的 Token"),
           {| store := store w; calls := calls w ++ [CallGetByToken token] |})
      | Some agent =>
          if Enabled agent then
            (utils.Success
               (<["agent_id" := JNum (ID agent)]>
               (<["tasks" := JTasks (services.GetTasks (ID agent) (store w))]> ∅)),
             {| store := store w;
                calls := (calls w ++ [CallGetByToken token]) ++ [CallGetTasks (ID agent)] |})
          else
            (utils.Forbidden (utils.Text "Agent 已禁用"),
             {| store := store w; calls := calls w ++ [CallGetByToken token] |})
      end.
Proof.
  cbv zeta. unfold AgentController.GetTasks. cbv zeta.
  destruct (String.eqb (AgentController.getAgentToken ctx) ""); [done|].
  unfold bind, invoke, query, ret, invoke. simpl.
  destruct (services.GetByToken _ _) as [agent|]; [|done].
  by destruct (Enabled agent).
Qed.

Lemma ReportResult_run compress ctx now w :
  let token := AgentController.getAgentToken ctx in
  AgentController.ReportResult compress ctx now w =
    if String.eqb token "" then (utils.Unauthorized (utils.Text "缺少认证 Token"), w)
    else
      match services.GetByToken token (store w) with
      | None =>
          (utils.Unauthorized (utils.Text "无效的 Token"),
           {| store := store w; calls := calls w ++ [CallGetByToken token] |})
      | Some agent =>
          if Enabled agent then
            if gin.BindError ctx then
              (utils.BadRequest (utils.Text "参数错误"),
               {| store := store w; calls := calls w ++ [CallGetByToken token] |})
            else
              (utils.SuccessMsg (utils.Text "上报成功"),
               {| store := snd (services.ReportResult compress
                                  (stamp agent (gin.Bound ctx)) now (store w));
                  calls := (calls w ++ [CallGetByToken token])
                           ++ [CallReportResult (stamp agent (gin.Bound ctx))] |})
          else
            (utils.Forbidden (utils.Text "Agent 已禁用"),
             {| store := store w; calls := calls w ++ [CallGetByToken token] |})
      end.
Proof.
  cbv zeta. unfold AgentController.ReportResult. cbv zeta.
  destruct (String.eqb (AgentController.getAgentToken ctx) ""); [done|].
  unfold bind, invoke, query, ret, invoke, gin.ShouldBindJSON. simpl.
  destruct (services.GetByToken _ _) as [agent|]; [|done].
  destruct (Enabled agent); [|done]. simpl. by destruct (gin.BindError ctx).
Qed.

Lemma CheckStatus_run ctx now w :
  let name := cs_Name (gin.Bound ctx) in
  AgentController.CheckStatus ctx now w =
    if gin.BindError ctx then (utils.BadRequest (utils.Text "参数错误"), w)
    else
      match services.CheckPendingAgent name (gin.ClientIP ctx) now (store w) with
      | (inl e, d1) =>
          (utils.NotFound (utils.Text (services.Error e)),
           {| store := d1;
              calls := calls w ++ [CallCheckPendingAgent name (gin.ClientIP ctx)] |})
      | (inr agent, d1) =>
          (utils.Success
             (if negb (String.eqb (Status agent) "pending")
                 && negb (String.eqb (Token agent) "")
              then <["token" := JStr (Token agent)]>
                     (<["agent_id" := JNum (ID agent)]> (<["status" := JStr (Status agent)]> ∅))
              else <["agent_id" := JNum (ID agent)]> (<["status" := JStr (Status agent)]> ∅)),
           {| store := d1;
              calls := calls w ++ [CallCheckPendingAgent name (gin.ClientIP ctx)] |})
      end.
Proof.
  cbv zeta. unfold AgentController.CheckStatus, gin.ShouldBindJSON.
  destruct (gin.BindError ctx); [done|].
  unfold bind, invoke, ret. cbv zeta.
  by destruct (services.CheckPendingAgent _ _ _ _) as [[e|agent] d1].
Qed.

Lemma Register_run ctx now created w :
  let req := gin.Bound ctx in
  AgentController.Register ctx now created w =
    if gin.BindError ctx then (utils.BadRequest (utils.Text "参数错误"), w)
    else if String.eqb (rq_Name req) "" then (utils.BadRequest (utils.Text "名称不能为空"), w)
    else
      match services.Register req (gin.ClientIP ctx) now created (store w) with
      | (inl e, d1) =>
          (utils.ServerError (utils.Text (services.Error e)),
           {| store := d1; calls := calls w ++ [CallRegister req (gin.ClientIP ctx)] |})
      | (inr agent, d1) =>
          (utils.Success
             (<["agent_id" := JNum (ID agent)]>
             (<["status" := JStr (Status agent)]>
             (<["message" := JStr "注册成功，等待审核"]> ∅))),
           {| store := d1; calls := calls w ++ [CallRegister req (gin.ClientIP ctx)] |})
      end.
Proof.
  cbv zeta. unfold AgentController.Register, gin.ShouldBindJSON.
  destruct (gin.BindError ctx); [done|].
  destruct (String.eqb _ ""); [done|].
  unfold bind, invoke, ret. cbv zeta.
  by destruct (services.Register _ _ _ _ _) as [[e|agent] d1].
Qed.

(** The record of calls has no part in what a handler answers or writes: on
    the database, each handler is the handler without the record. *)
Lemma handlers_agree w :
  (forall ctx now created,
      fst (AgentController.Register ctx now created w)
      = fst (controllers.Register ctx now created (store w))
      /\ store (snd (AgentController.Register ctx now created w))
         = snd (controllers.Register ctx now created (store w)))
  /\ (forall ctx now,
        fst (AgentController.CheckStatus ctx now w)
        = fst (controllers.CheckStatus ctx now (store w))
        /\ store (snd (AgentController.CheckStatus ctx now w))
           = snd (controllers.CheckStatus ctx now (store w)))
  /\ (forall ctx now fs,
        fst (AgentController.Heartbeat ctx now fs w)
        = fst (controllers.Heartbeat ctx now fs (store w))
        /\ store (snd (AgentController.Heartbeat ctx now fs w))
           = snd (controllers.Heartbeat ctx now fs (store w)))
  /\ (forall ctx,
        fst (AgentController.GetTasks ctx w) = controllers.GetTasks ctx (store w)
        /\ store (snd (AgentController.GetTasks ctx w)) = store w)
  /\ (forall compress ctx now,
        fst (AgentController.ReportResult compress ctx now w)
        = fst (controllers.ReportResult compress ctx now (store w))
        /\ store (snd (AgentController.ReportResult compress ctx now w))
           = snd (controllers.ReportResult compress ctx now (store w))).
Proof.
  split_and!.
  - intros ctx now created. rewrite Register_run. cbv zeta.
    unfold controllers.Register, gin.ShouldBindJSON.
    destruct (gin.BindError ctx); [done|]. destruct (String.eqb _ ""); [done|].
    by destruct (services.Register _ _ _ _ _) as [[e|agent] d1].
  - intros ctx now. rewrite CheckStatus_run. cbv zeta.
    unfold controllers.CheckStatus, gin.ShouldBindJSON.
    destruct (gin.BindError ctx); [done|].
    destruct (services.CheckPendingAgent _ _ _ _) as [[e|agent] d1]; [done|].
    cbv zeta. by destruct (negb _ && negb _).
  - intros ctx now fs. rewrite Heartbeat_run. cbv zeta.
    unfold controllers.Heartbeat, gin.ShouldBindJSON.
    destruct (String.eqb _ ""); [done|].
    destruct (services.Heartbeat _ _ _ _ _ _ _ _ _) as [[e|agent] d1]; [done|].
    cbv zeta. unfold need_update. by destruct (ForceUpdate agent && _).
  - intros ctx. rewrite GetTasks_run. cbv zeta. unfold controllers.GetTasks.
    destruct (String.eqb _ ""); [done|].
    destruct (services.GetByToken _ _) as [agent|]; [|done].
    by destruct (Enabled agent).
  - intros compress ctx now. rewrite ReportResult_run. cbv zeta.
    unfold controllers.ReportResult, gin.ShouldBindJSON.
    destruct (String.eqb _ ""); [done|].
    destruct (services.GetByToken _ _) as [agent|]; [|done].
    destruct (Enabled agent); [|done]. cbn [negb].
    destruct (gin.BindError ctx); [done|]. by unfold services.ReportResult.
Qed.

(** A successful heartbeat request, end to end. *)
Lemma Heartbeat_success ctx now fs w data w' :
  AgentController.Heartbeat ctx now fs w = (utils.Success data, w') ->
  let token := AgentController.getAgentToken ctx in
  let req := gin.Bound ctx in
  let renew := services.heartbeat_updates (gin.ClientIP ctx) (hb_Version req)
                 (hb_BuildTime req) (hb_Hostname req) (hb_OS req) (hb_Arch req) now in
  let latest := agent_files.GetLatestVersion fs in
  let need := need_update latest (hb_Version req) in
  exists agent,
    token <> ""
    /\ services.GetByToken token (store w) = Some agent
    /\ Enabled agent = true
    /\ data = <["agent_id" := JNum (ID agent)]>
              (<["name" := JStr (Name agent)]>
              (<["need_update" := JBool need]>
              (<["force_update" := JBool (ForceUpdate agent)]>
              (<["latest_version" := JStr latest]> ∅))))
    /\ calls w' = (calls w ++ [CallHeartbeat token; CallGetLatestVersion]
                   ++ (if ForceUpdate agent && need
                       then [CallClearForceUpdate (ID agent)] else []))%list
    /\ store w' = (let d1 := gorm_update (id_is (ID agent)) renew now (store w) in
                   if ForceUpdate agent && need
                   then gorm_update (id_is (ID agent)) (set_ForceUpdate false) now d1
                   else d1)
    /\ services.GetByToken token (store w') =
         Some (if ForceUpdate agent && need
               then set_UpdatedAt now (set_ForceUpdate false (set_UpdatedAt now (renew agent)))
               else set_UpdatedAt now (renew agent)).
Proof.
  rewrite Heartbeat_run. cbv zeta.
  destruct (String.eqb_spec (AgentController.getAgentToken ctx) "") as [|Htok]; [done|].
  unfold services.Heartbeat.
  destruct (services.GetByToken _ (store w)) as [agent|] eqn:Hfind; [|done].
  destruct (Enabled agent) eqn:Hen; [|done]. cbn [negb]. cbv zeta.
  cbn [ForceUpdate ID Name set_Arch set_OS set_Hostname set_BuildTime set_Version set_IP
       set_LastSeen set_Status].
  intros [= <- <-]. exists agent. cbn [store calls].
  set (renew := services.heartbeat_updates _ _ _ _ _ _ _).
  assert (forall x, Token (renew x) = Token x /\ ID (renew x) = ID x) as Hrenew.
  { intros x. pose proof (heartbeat_updates_fields (gin.ClientIP ctx)
      (hb_Version (gin.Bound ctx)) (hb_BuildTime (gin.Bound ctx))
      (hb_Hostname (gin.Bound ctx)) (hb_OS (gin.Bound ctx)) (hb_Arch (gin.Bound ctx))
      now x) as H. cbv zeta in H. fold renew in H. tauto. }
  pose proof (GetByToken_update _ (ID agent) renew now (store w) agent
                (fun x => proj1 (Hrenew x)) Hfind eq_refl) as Hnew.
  split_and!; try done.
  - by rewrite <- !app_assoc.
  - destruct (ForceUpdate agent && _); [|done]. simpl.
    apply (GetByToken_update _ (ID agent) (set_ForceUpdate false) now _ _
             (fun _ => eq_refl) Hnew).
    simpl. apply Hrenew.
Qed.

(** ** C10: the bearer token of a request *)

Lemma getAgentToken_Headers {B1 B2} (ctx1 : gin.Context B1) (ctx2 : gin.Context B2) :
  gin.Headers ctx1 = gin.Headers ctx2 ->
  AgentController.getAgentToken ctx1 = AgentController.getAgentToken ctx2.
Proof.
  intros E. unfold AgentController.getAgentToken, gin.GetHeader. by rewrite E.
Qed.




(** ** C2: authentication at the gateway *)

(** A missing or unknown token is answered Unauthorized by the three
    token-bound operations, and none of them writes to the database. *)
Lemma gateway_unknown_token compress hb_ctx tasks_ctx result_ctx now fs w :
  (AgentController.getAgentToken hb_ctx = ""
   \/ services.GetByToken (AgentController.getAgentToken hb_ctx) (store w) = None ->
   (exists m, fst (AgentController.Heartbeat hb_ctx now fs w) = utils.Unauthorized m)
   /\ store (snd (AgentController.Heartbeat hb_ctx now fs w)) = store w)
  /\ (AgentController.getAgentToken tasks_ctx = ""
      \/ services.GetByToken (AgentController.getAgentToken tasks_ctx) (store w) = None ->
      (exists m, fst (AgentController.GetTasks tasks_ctx w) = utils.Unauthorized m)
      /\ store (snd (AgentController.GetTasks tasks_ctx w)) = store w)
  /\ (AgentController.getAgentToken result_ctx = ""
      \/ services.GetByToken (AgentController.getAgentToken result_ctx) (store w) = None ->
      (exists m, fst (AgentController.ReportResult compress result_ctx now w)
                 = utils.Unauthorized m)
      /\ store (snd (AgentController.ReportResult compress result_ctx now w)) = store w).
Proof.
  split_and!.
  - rewrite Heartbeat_run. cbv zeta. unfold services.Heartbeat.
    destruct (String.eqb_spec (AgentController.getAgentToken hb_ctx) "") as [|Hne];
      [by eauto|].
    intros [|Hnone]; [done|]. rewrite Hnone. simpl. eauto.
  - rewrite GetTasks_run. cbv zeta.
    destruct (String.eqb_spec (AgentController.getAgentToken tasks_ctx) "") as [|Hne];
      [by eauto|].
    intros [|Hnone]; [done|]. rewrite Hnone. simpl. eauto.
  - rewrite ReportResult_run. cbv zeta.
    destruct (String.eqb_spec (AgentController.getAgentToken result_ctx) "") as [|Hne];
      [by eauto|].
    intros [|Hnone]; [done|]. rewrite Hnone. simpl. eauto.
Qed.

(** GetTasks and ReportResult answer Forbidden to a disabled agent. *)
Lemma gateway_disabled_siblings compress tasks_ctx result_ctx now w agent :
  Enabled agent = false ->
  (AgentController.getAgentToken tasks_ctx <> "" ->
   services.GetByToken (AgentController.getAgentToken tasks_ctx) (store w) = Some agent ->
   fst (AgentController.GetTasks tasks_ctx w) = utils.Forbidden (utils.Text "Agent 已禁用"))
  /\ (AgentController.getAgentToken result_ctx <> "" ->
      services.GetByToken (AgentController.getAgentToken result_ctx) (store w) = Some agent ->
      fst (AgentController.ReportResult compress result_ctx now w)
      = utils.Forbidden (utils.Text "Agent 已禁用")).
Proof.
  intros Hoff. split.
  - intros Hne Hfind. rewrite GetTasks_run. cbv zeta.
    destruct (String.eqb_spec (AgentController.getAgentToken tasks_ctx) ""); [done|].
    by rewrite Hfind, Hoff.
  - intros Hne Hfind. rewrite ReportResult_run. cbv zeta.
    destruct (String.eqb_spec (AgentController.getAgentToken result_ctx) ""); [done|].
    by rewrite Hfind, Hoff.
Qed.

(** Heartbeat has no Forbidden answer at all. *)
Lemma Heartbeat_never_Forbidden ctx now fs w m :
  fst (AgentController.Heartbeat ctx now fs w) <> utils.Forbidden m.
Proof.
  rewrite Heartbeat_run. cbv zeta. destruct (String.eqb _ ""); [done|].
  by destruct (services.Heartbeat _ _ _ _ _ _ _ _ _) as [[e|agent] d1].
Qed.

(** Heartbeat answers Unauthorized to a disabled agent holding a valid token,
    and writes nothing. *)
Lemma Heartbeat_disabled ctx now fs w agent :
  AgentController.getAgentToken ctx <> "" ->
  services.GetByToken (AgentController.getAgentToken ctx) (store w) = Some agent ->
  Enabled agent = false ->
  fst (AgentController.Heartbeat ctx now fs w) = utils.Unauthorized (utils.Text "Agent 已禁用")
  /\ store (snd (AgentController.Heartbeat ctx now fs w)) = store w.
Proof.
  intros Hne Hfind Hoff. rewrite Heartbeat_run. cbv zeta.
  destruct (String.eqb_spec (AgentController.getAgentToken ctx) ""); [done|].
  unfold services.Heartbeat. by rewrite Hfind, Hoff.
Qed.

(** C2 (the code departs from the claim): for the disabled agent of [disabled]
    presenting its valid token, GetTasks and ReportResult answer Forbidden while
    Heartbeat answers Unauthorized. *)
Theorem C2_heartbeat_disabled_agent :
  fst (AgentController.Heartbeat (bearer agent_token "10.0.0.7" hb_old) 1020
         (published "1.1") disabled)
  = utils.Unauthorized (utils.Text "Agent 已禁用")
  /\ fst (AgentController.GetTasks (bearer agent_token "10.0.0.7" tt) disabled)
     = utils.Forbidden (utils.Text "Agent 已禁用")
  /\ fst (AgentController.ReportResult id_codec (bearer agent_token "10.0.0.7" (result0 1))
            1020 disabled)
     = utils.Forbidden (utils.Text "Agent 已禁用").
Proof. split_and!; vm_compute; reflexivity. Qed.

(** ** C3: the update test of a heartbeat *)

Lemma need_update_true latest reported :
  need_update latest reported = true <->
  latest <> "" /\ reported <> "" /\ reported <> latest.
Proof.
  unfold need_update. rewrite !andb_true_iff, !negb_true_iff, !String.eqb_neq. tauto.
Qed.

(** C3: on every successful Heartbeat the response holds exactly the fields
    agent_id, name, need_update, force_update and latest_version, and
    need_update is true if and only if the published version is non-empty, the
    reported version is non-empty, and the two differ. *)
Theorem C3_heartbeat_need_update ctx now fs w data w' :
  AgentController.Heartbeat ctx now fs w = (utils.Success data, w') ->
  dom data = ({["agent_id"; "name"; "need_update"; "force_update"; "latest_version"]}
              : gset string)
  /\ data !! "latest_version" = Some (JStr (agent_files.GetLatestVersion fs))
  /\ exists need,
       data !! "need_update" = Some (JBool need)
       /\ (need = true <->
           agent_files.GetLatestVersion fs <> "" /\ hb_Version (gin.Bound ctx) <> ""
           /\ hb_Version (gin.Bound ctx) <> agent_files.GetLatestVersion fs).
Proof.
  intros (agent & _ & _ & _ & -> & _)%Heartbeat_success. split_and!.
  - rewrite !dom_insert_L, dom_empty_L. set_solver.
  - done.
  - eexists. split; [done|]. apply need_update_true.
Qed.

Lemma C3_heartbeat_need_update_witness :
  exists data,
    fst (AgentController.Heartbeat (bearer agent_token "10.0.0.7" hb_old) 1020
           (published "1.1") approved)
    = utils.Success data
    /\ data !! "need_update" = Some (JBool true)
    /\ dom data = ({["agent_id"; "name"; "need_update"; "force_update"; "latest_version"]}
                   : gset string).
Proof.
  destruct (AgentController.Heartbeat (bearer agent_token "10.0.0.7" hb_old) 1020
              (published "1.1") approved) as [resp w'] eqn:E.
  assert (exists data, resp = utils.Success data) as [data ->].
  { vm_compute in E. injection E as <- _. eauto. }
  destruct (C3_heartbeat_need_update _ _ _ _ _ _ E) as (Hdom & _ & need & Hneed & Hiff).
  exists data. split; [reflexivity|]. split; [|exact Hdom].
  rewrite Hneed. do 2 f_equal. apply Hiff. vm_compute. repeat split; discriminate.
Defined.

(** ** C4: consuming the force-update flag *)

(** C4: on every successful Heartbeat, with [agent] the caller's record when
    the request arrives, ClearForceUpdate is among the service calls of the
    request exactly when the agent's flag and the update test are both true,
    and then it is called on that agent; afterwards the agent's flag is reset
    in that case and is what it was otherwise (in particular, it stays set when
    no update is needed); the force_update field of the response is the flag
    as it was before any clearing. *)
Theorem C4_force_update_consumed ctx now fs w data w' :
  AgentController.Heartbeat ctx now fs w = (utils.Success data, w') ->
  let token := AgentController.getAgentToken ctx in
  let need := need_update (agent_files.GetLatestVersion fs) (hb_Version (gin.Bound ctx)) in
  exists agent made agent',
    services.GetByToken token (store w) = Some agent
    /\ calls w' = (calls w ++ made)%list
    /\ (In (CallClearForceUpdate (ID agent)) made <-> ForceUpdate agent = true /\ need = true)
    /\ (forall id, In (CallClearForceUpdate id) made -> id = ID agent)
    /\ services.GetByToken token (store w') = Some agent'
    /\ (ForceUpdate agent = true -> need = true -> ForceUpdate agent' = false)
    /\ (need = false -> ForceUpdate agent' = ForceUpdate agent)
    /\ data !! "force_update" = Some (JBool (ForceUpdate agent)).
Proof.
  intros (agent & _ & Hfind & _ & -> & Hcalls & _ & Hafter)%Heartbeat_success. cbv zeta.
  set (need := need_update _ _) in *.
  eexists agent, _, _. split; [exact Hfind|]. split; [exact Hcalls|].
  split; [|split; [|split; [exact Hafter|]]].
  - rewrite in_app_iff. simpl.
    destruct (ForceUpdate agent), need; simpl; split; intros H;
      repeat (destruct H as [H|H]; try discriminate H); try done; try tauto;
      destruct H; discriminate.
  - intros id. rewrite in_app_iff. simpl.
    destruct (ForceUpdate agent && need); simpl; intros H;
      repeat (destruct H as [H|H]; try discriminate H); try done.
    by injection H.
  - split_and!.
    + by intros -> ->.
    + intros ->. rewrite andb_false_r. simpl.
      apply (heartbeat_updates_fields (gin.ClientIP ctx) (hb_Version (gin.Bound ctx))
               (hb_BuildTime (gin.Bound ctx)) (hb_Hostname (gin.Bound ctx))
               (hb_OS (gin.Bound ctx)) (hb_Arch (gin.Bound ctx)) now agent).
    + done.
Qed.

Lemma C4_force_update_consumed_witness :
  exists agent',
    services.GetByToken agent_token
      (store (snd (AgentController.Heartbeat (bearer agent_token "10.0.0.7" hb_old) 1020
                     (published "1.1") flagged)))
    = Some agent'
    /\ ForceUpdate agent' = false.
Proof.
  destruct (AgentController.Heartbeat (bearer agent_token "10.0.0.7" hb_old) 1020
              (published "1.1") flagged) as [resp w'] eqn:E.
  assert (exists data, resp = utils.Success data) as [data ->].
  { vm_compute in E. injection E as <- _. eauto. }
  destruct (C4_force_update_consumed _ _ _ _ _ _ E)
    as (agent & made & agent' & Hfind & _ & _ & _ & Hafter & Hreset & _).
  exists agent'. split; [exact Hafter|]. apply Hreset.
  - vm_compute in Hfind. by injection Hfind as <-.
  - reflexivity.
Defined.

(** ** C9: a heartbeat never blanks a stored field *)

Lemma heartbeat_updates_overwritten ip version buildTime hostname osType arch now a :
  let b := services.heartbeat_updates ip version buildTime hostname osType arch now a in
  overwritten version (Version a) (Version b)
  /\ overwritten buildTime (BuildTime a) (BuildTime b)
  /\ overwritten hostname (Hostname a) (Hostname b)
  /\ overwritten osType (OS a) (OS b)
  /\ overwritten arch (Arch a) (Arch b)
  /\ CreatedAt b = CreatedAt a.
Proof.
  unfold services.heartbeat_updates, overwritten.
  destruct (String.eqb_spec version ""), (String.eqb_spec buildTime ""),
    (String.eqb_spec hostname ""), (String.eqb_spec osType ""), (String.eqb_spec arch "");
    simpl; by repeat split.
Qed.

(** C9: on every successful Heartbeat, with [before] and [after] the caller's
    record when the request arrives and when it has been served, each of
    version, buildTime, hostname, os and arch is the incoming value when that
    value is non-empty and the stored value when it is empty, while status is
    online, last-seen is the time of the call and ip is the caller's address;
    the identity of the record (id, name, token), its description, its
    enabled flag and its creation time are untouched, no row is added or
    removed, and the rows of the other agents are as they were. *)
Theorem C9_heartbeat_partial_update ctx now fs w data w' :
  AgentController.Heartbeat ctx now fs w = (utils.Success data, w') ->
  let token := AgentController.getAgentToken ctx in
  let req := gin.Bound ctx in
  exists before after,
    services.GetByToken token (store w) = Some before
    /\ services.GetByToken token (store w') = Some after
    /\ overwritten (hb_Version req) (Version before) (Version after)
    /\ overwritten (hb_BuildTime req) (BuildTime before) (BuildTime after)
    /\ overwritten (hb_Hostname req) (Hostname before) (Hostname after)
    /\ overwritten (hb_OS req) (OS before) (OS after)
    /\ overwritten (hb_Arch req) (Arch before) (Arch after)
    /\ Status after = "online"
    /\ LastSeen after = Some now
    /\ IP after = gin.ClientIP ctx
    /\ ID after = ID before /\ Name after = Name before /\ Token after = Token before
    /\ Description after = Description before /\ Enabled after = Enabled before
    /\ CreatedAt after = CreatedAt before
    /\ length (db_agents (store w')) = length (db_agents (store w))
    /\ (forall a, In a (db_agents (store w)) -> ID a <> ID before ->
                  In a (db_agents (store w'))).
Proof.
  intros (agent & _ & Hfind & _ & _ & _ & Hstore & Hafter)%Heartbeat_success. cbv zeta.
  eexists agent, _. split; [exact Hfind|]. split; [exact Hafter|].
  pose proof (heartbeat_updates_fields (gin.ClientIP ctx) (hb_Version (gin.Bound ctx))
                (hb_BuildTime (gin.Bound ctx)) (hb_Hostname (gin.Bound ctx))
                (hb_OS (gin.Bound ctx)) (hb_Arch (gin.Bound ctx)) now agent)
    as (E1 & E2 & E3 & E4 & E5 & E6 & E7 & E8 & E9).
  pose proof (heartbeat_updates_overwritten (gin.ClientIP ctx) (hb_Version (gin.Bound ctx))
                (hb_BuildTime (gin.Bound ctx)) (hb_Hostname (gin.Bound ctx))
                (hb_OS (gin.Bound ctx)) (hb_Arch (gin.Bound ctx)) now agent)
    as (O1 & O2 & O3 & O4 & O5 & O6).
  cbv zeta in Hstore.
  assert (length (db_agents (store w')) = length (db_agents (store w))
          /\ forall a, In a (db_agents (store w)) -> ID a <> ID agent ->
                       In a (db_agents (store w'))) as [Hlen Hframe].
  { rewrite Hstore. unfold gorm_update, update_where.
    destruct (ForceUpdate agent && _); simpl; rewrite ?length_map; (split; [done|]);
      intros a Ha Hid; rewrite ?in_map_iff.
    - eexists. split; [|apply in_map_iff; exists a; split; [reflexivity|exact Ha]].
      unfold id_is. rewrite (proj2 (N.eqb_neq _ _) Hid).
      by rewrite (proj2 (N.eqb_neq _ _) Hid).
    - exists a. split; [|done]. unfold id_is. by rewrite (proj2 (N.eqb_neq _ _) Hid). }
  destruct (ForceUpdate agent && _); simpl; split_and!; done.
Qed.

Lemma C9_heartbeat_partial_update_witness :
  exists after,
    services.GetByToken agent_token
      (store (snd (AgentController.Heartbeat (bearer agent_token "10.0.0.9" hb_old) 1020
                     (published "1.1") approved)))
    = Some after
    /\ Hostname after = "host-a" /\ OS after = "linux" /\ IP after = "10.0.0.9".
Proof.
  destruct (AgentController.Heartbeat (bearer agent_token "10.0.0.9" hb_old) 1020
              (published "1.1") approved) as [resp w'] eqn:E.
  assert (exists data, resp = utils.Success data) as [data ->].
  { vm_compute in E. injection E as <- _. eauto. }
  destruct (C9_heartbeat_partial_update _ _ _ _ _ _ E)
    as (before & after & Hfind & Hafter & _ & _ & [Hhost _] & [_ Hos] & _ & _ & _ & Hip & _).
  exists after. split; [exact Hafter|]. split_and!.
  - rewrite Hhost; [|reflexivity]. vm_compute in Hfind. by injection Hfind as <-.
  - by apply Hos.
  - exact Hip.
Defined.

(** ** C7: the liveness sweep *)

Lemma stale_spec now a :
  String.eqb (Status a) "online"
  && match LastSeen a with
     | Some seen => seen <? now - 2 * 60
     | None => false
     end = true
  <-> stale now a.
Proof.
  unfold stale. rewrite andb_true_iff, String.eqb_eq. change (2 * 60) with 120.
  destruct (LastSeen a) as [seen|].
  - rewrite Z.ltb_lt. split; [intros []; eauto|]. by intros [? (? & [= <-] & ?)].
  - split; [by intros []|]. by intros [? (? & ? & ?)].
Qed.

(** C7: one run of the sweep (MarkStaleOffline in the specification,
    [UpdateOfflineAgents] in the service) keeps every row in place; a row
    whose status is online and whose last-seen time is older than the
    two-minute window becomes the same row with status offline, its
    [updated_at] column set to the time of the sweep; every other row
    (pending, offline, never seen, or seen within the window) is left as it
    was, and nothing else of the database changes. *)
Theorem C7_mark_stale_offline now d i a :
  db_agents d !! i = Some a ->
  let d' := services.UpdateOfflineAgents now d in
  let swept := db_agents d' in
  length swept = length (db_agents d)
  /\ (stale now a -> swept !! i = Some (set_UpdatedAt now (set_Status "offline" a)))
  /\ (~ stale now a -> swept !! i = Some a)
  /\ (Status a = "pending" \/ Status a = "offline" -> swept !! i = Some a)
  /\ with_agents (db_agents d) d' = d.
Proof.
  intros Hi. cbv zeta. unfold services.UpdateOfflineAgents, gorm_update, update_where.
  cbn [db_agents with_agents].
  change (List.map ?f ?l) with (f <$> l). rewrite length_fmap, list_lookup_fmap, Hi. simpl.
  split_and!; [done| | | |by destruct d].
  - intros H%stale_spec. by rewrite H.
  - intros H. destruct (_ && _) eqn:E; [|done]. destruct H. by apply stale_spec.
  - intros Hs. destruct (_ && _) eqn:E; [|done].
    apply stale_spec in E as [E _]. destruct Hs; congruence.
Qed.

Lemma C7_mark_stale_offline_witness :
  Status <$> db_agents (services.UpdateOfflineAgents 2000 db_approved) !! 0%nat
  = Some "offline".
Proof.
  assert (exists a, db_agents db_approved !! 0%nat = Some a
                    /\ Status a = "online" /\ LastSeen a = Some 1010) as (a & Ha & Hs & Hl).
  { vm_compute. eauto. }
  destruct (C7_mark_stale_offline 2000 db_approved 0 a Ha) as (_ & Hoff & _).
  rewrite Hoff; [reflexivity|].
  split; [exact Hs|]. exists 1010. split; [exact Hl|reflexivity].
Defined.

(** ** The sweep settles *)

(** X6: After [UpdateOfflineAgents] no agent is online with a last
    heartbeat older than two minutes.  Row by row the sweep keeps id, token,
    enabled flag and last-seen time; a row that is not online (pending or
    offline) is never changed; a row changes only by being stale, and then it
    becomes the same row with status offline and the time of the sweep in
    [updated_at].  No other table changes, and a second sweep at the same
    time changes nothing. *)
Theorem UpdateOfflineAgents_settles (now : LocalTime) (d : DB) :
  Forall (fun a => Status a = "online" ->
                   forall seen, LastSeen a = Some seen -> now - 120 <= seen)
         (db_agents (services.UpdateOfflineAgents now d))
  /\ Forall2 (fun a a' => ID a' = ID a /\ Token a' = Token a /\ Enabled a' = Enabled a
                          /\ LastSeen a' = LastSeen a
                          /\ (Status a' = Status a
                              \/ Status a = "online" /\ Status a' = "offline")
                          /\ (Status a <> "online" -> a' = a)
                          /\ (a' = a
                              \/ stale now a
                                 /\ a' = set_UpdatedAt now (set_Status "offline" a)))
       (db_agents d) (db_agents (services.UpdateOfflineAgents now d))
  /\ with_agents (db_agents d) (services.UpdateOfflineAgents now d) = d
  /\ services.UpdateOfflineAgents now (services.UpdateOfflineAgents now d)
     = services.UpdateOfflineAgents now d.
Proof.
  unfold services.UpdateOfflineAgents, gorm_update, update_where. simpl. split_and!.
  - change (2 * 60) with 120.
    apply Forall_forall. intros x (r & <- & Hr)%list_elem_of_In%in_map_iff.
    destruct (String.eqb (Status r) "online") eqn:Hs; simpl.
    + destruct (LastSeen r) as [seen|] eqn:Hseen; [|by rewrite Hseen].
      destruct (Z.ltb_spec seen (now - 120)); simpl; [done|].
      rewrite Hseen. intros _ ? [= <-]. lia.
    + apply String.eqb_neq in Hs. done.
  - induction (db_agents d) as [|r rows IH]; simpl; constructor; [|done].
    destruct (_ && _) eqn:E.
    + apply stale_spec in E. pose proof E as [Hs _]. simpl.
      split_and!; [done..|by right|by intros []|by right].
    + split_and!; [done..|by left|done|by left].
  - by destruct d.
  - change (2 * 60) with 120.
    destruct d as [rows del nid tasks logs nlog stats]. unfold with_agents. simpl.
    f_equal. rewrite List.map_map. apply List.map_ext. intros r.
    destruct (String.eqb (Status r) "online") eqn:Hs; simpl; [|by rewrite Hs].
    destruct (LastSeen r) as [seen|] eqn:Hseen; [|by rewrite Hs, Hseen].
    destruct (seen <? now - 120) eqn:Hlt; simpl; [done|]. by rewrite Hs, Hseen, Hlt.
Qed.

(** ** C8: retention by count *)

(** In a duplicate-free list sorted newest first, an entry is at position [k]
    exactly when [k] entries are greater. *)
Lemma newest_first_lookup_count l k x :
  StronglySorted (flip N.le) l -> NoDup l -> l !! k = Some x ->
  length (List.filter (fun y => (x <? y)%N) l) = k.
Proof.
  intros Hs. revert k. induction Hs as [|h t Hs IH Hall]; intros k Hnd Hk; [done|].
  rewrite Forall_forall in Hall. apply NoDup_cons in Hnd as [Hh Hnd].
  destruct k as [|k]; simpl in Hk.
  - injection Hk as ->. simpl. rewrite N.ltb_irrefl. apply length_zero_iff_nil, filter_none.
    intros y Hy%list_elem_of_In%Hall. unfold flip in Hy. apply N.ltb_ge. lia.
  - pose proof (list_elem_of_lookup_2 _ _ _ Hk) as Hin. pose proof (Hall x Hin) as Hle.
    unfold flip in Hle. assert (x <> h) by (by intros ->). simpl.
    rewrite (proj2 (N.ltb_lt x h)) by lia. simpl. f_equal. by apply IH.
Qed.

Lemma newest_first_count_lookup l k x :
  StronglySorted (flip N.le) l -> NoDup l -> x ∈ l ->
  length (List.filter (fun y => (x <? y)%N) l) = k -> l !! k = Some x.
Proof.
  intros Hs Hnd [j Hj]%list_elem_of_lookup_1 Hk.
  by rewrite <- Hk, (newest_first_lookup_count _ _ _ Hs Hnd Hj).
Qed.

(** The log with exactly [k] newer logs of its task is the one whose id is
    at position [k] of the ids of the task, newest first. *)
Lemma newer_logs_position taskID logs k b :
  NoDup (List.map models.tl_ID logs) ->
  In b logs -> models.tl_TaskID b = taskID ->
  (newer_logs b logs = k <-> tasks.log_ids_desc taskID logs !! k = Some (models.tl_ID b)).
Proof.
  intros Hnd Hin <-. rewrite newer_logs_ids.
  assert (models.tl_ID b ∈ tasks.log_ids_desc (models.tl_TaskID b) logs) as Hb.
  { rewrite log_ids_desc_Permutation. apply list_elem_of_In, in_map, filter_In.
    split; [done|]. unfold tasks.task_is. apply N.eqb_refl. }
  split.
  - apply newest_first_count_lookup;
      [apply log_ids_desc_sorted|by apply log_ids_desc_NoDup|done].
  - apply newest_first_lookup_count; [apply log_ids_desc_sorted|by apply log_ids_desc_NoDup].
Qed.

Lemma log_ids_desc_log taskID logs k bid :
  tasks.log_ids_desc taskID logs !! k = Some bid ->
  exists b, In b logs /\ models.tl_TaskID b = taskID /\ models.tl_ID b = bid.
Proof.
  intros Hk%list_elem_of_lookup_2. rewrite log_ids_desc_Permutation in Hk.
  apply list_elem_of_In, in_map_iff in Hk as (b & Hid & [Hin Ht%N.eqb_eq]%filter_In).
  by exists b.
Qed.

Lemma filter_sublist {A} (p : A -> bool) l : sublist (List.filter p l) l.
Proof.
  induction l as [|x l IH]; simpl; [constructor|].
  destruct (p x); by constructor.
Qed.

Lemma log_ids_desc_length taskID logs :
  length (tasks.log_ids_desc taskID logs) = length (List.filter (tasks.task_is taskID) logs).
Proof. by rewrite log_ids_desc_Permutation, length_map. Qed.

(** C8: for a task whose clean configuration is of type count and keeps
    [n] > 0 logs, and a log table with distinct ids, one run of the cleaning
    (ApplyRetention in the specification, [CleanTaskLogs] in the service)
    deletes exactly the logs of the task whose id is less than the id of its
    [n]-th most recent log, the log of the task with [n - 1] newer ones; what
    is left of the task are its [n] most recent logs, all of its logs when it
    has fewer, each newer than every deleted one; the logs that stay keep
    their order, nothing else of the database changes, and a second run
    deletes nothing. *)
Theorem C8_retention_count (Unmarshal : string -> option tasks.CleanConfig)
    (AddDate : LocalTime -> Z -> LocalTime) (taskID : N) (now : LocalTime) (d : DB)
    (task : models.Task) (config : tasks.CleanConfig) :
  List.find (fun t => N.eqb (models.tk_ID t) taskID) (db_tasks d) = Some task ->
  models.tk_CleanConfig task <> "" ->
  Unmarshal (models.tk_CleanConfig task) = Some config ->
  tasks.Type_ config = "count" -> 0 < tasks.Keep config ->
  NoDup (List.map models.tl_ID (db_task_logs d)) ->
  let d' := tasks.CleanTaskLogs Unmarshal AddDate taskID now d in
  let n := Z.to_nat (tasks.Keep config) in
  let logs := db_task_logs d in
  let of_task l := models.tl_TaskID l = taskID in
  (forall l, In l logs ->
     (~ In l (db_task_logs d') <->
      of_task l
      /\ exists b, In b logs /\ of_task b /\ newer_logs b logs = (n - 1)%nat
                   /\ (models.tl_ID l < models.tl_ID b)%N))
  /\ sublist (db_task_logs d') logs
  /\ length (List.filter (tasks.task_is taskID) (db_task_logs d'))
     = (n `min` length (List.filter (tasks.task_is taskID) logs))%nat
  /\ (forall kept gone,
        In kept (db_task_logs d') -> of_task kept ->
        In gone logs -> of_task gone -> ~ In gone (db_task_logs d') ->
        (models.tl_ID gone < models.tl_ID kept)%N)
  /\ tasks.with_task_logs logs d' = d
  /\ tasks.CleanTaskLogs Unmarshal AddDate taskID now d' = d'.
Proof.
  intros Hfind Hcfg Hjson Htype Hkeep Hnd. cbv zeta.
  assert (exists k, Z.to_nat (tasks.Keep config) = S k /\ Z.to_nat (tasks.Keep config - 1) = k)
    as (k & Hk & Hk1) by (exists (Z.to_nat (tasks.Keep config) - 1)%nat; lia).
  pose proof Hcfg as Hcfg'%String.eqb_neq.
  assert (forall d0, db_tasks d0 = db_tasks d ->
            tasks.CleanTaskLogs Unmarshal AddDate taskID now d0
            = match tasks.log_ids_desc taskID (db_task_logs d0) !! k with
              | Some b =>
                  tasks.with_task_logs
                    (delete_where
                       (fun l => tasks.task_is taskID l && N.ltb (models.tl_ID l) b)
                       (db_task_logs d0)) d0
              | None => d0
              end) as Hrun.
  { intros d0 E. unfold tasks.CleanTaskLogs, tasks.boundary_id.
    rewrite E, Hfind, Hcfg', Hjson, Htype, Hk1. simpl.
    rewrite (proj2 (Z.leb_gt _ 0)) by lia. by rewrite (proj2 (Z.ltb_ge _ 0)) by lia. }
  rewrite (Hrun d eq_refl), Hk. replace (S k - 1)%nat with k by lia.
  destruct (tasks.log_ids_desc taskID (db_task_logs d) !! k) as [bid|] eqn:Hb.
  - destruct (log_ids_desc_log _ _ _ _ Hb) as (b & Hbin & Hbt & Hbid).
    pose proof (proj2 (newer_logs_position taskID _ k b Hnd Hbin Hbt)) as Hbk.
    rewrite Hbid in Hbk. specialize (Hbk Hb).
    assert (forall l, In l (db_task_logs d) ->
              (~ In l (delete_where
                         (fun l => tasks.task_is taskID l && N.ltb (models.tl_ID l) bid)
                         (db_task_logs d))
               <-> models.tl_TaskID l = taskID /\ (models.tl_ID l < bid)%N)) as Hgone.
    { intros l Hl. rewrite in_delete_where, andb_false_iff. unfold tasks.task_is.
      rewrite N.eqb_neq, N.ltb_ge. split.
      - intros H. destruct (decide (models.tl_TaskID l = taskID)) as [Ht|Ht]; [|tauto].
        split; [done|]. destruct (N.lt_ge_cases (models.tl_ID l) bid); [done|].
        destruct H. split; [done|]. right. lia.
      - intros [Ht Hlt] [_ [H|H]]; [done|lia]. }
    cbn [db_task_logs tasks.with_task_logs]. split_and!.
    + intros l Hl. rewrite (Hgone l Hl). split.
      * intros [Ht Hlt]. split; [done|]. exists b. by rewrite Hbid.
      * intros [Ht (b' & Hb'in & Hb't & Hb'k & Hlt)]. split; [done|].
        apply (newer_logs_position taskID _ k b' Hnd Hb'in Hb't) in Hb'k.
        rewrite Hb in Hb'k. injection Hb'k as ->. done.
    + apply filter_sublist.
    + rewrite <- !log_ids_desc_length, (count_rule_ids taskID k _ bid) by done.
      by rewrite length_take.
    + intros kept gone Hkept Hkt Hgin Hgt Hgnot.
      apply (Hgone gone Hgin) in Hgnot as [_ Hlt].
      apply in_delete_where in Hkept as [_ Hk'].
      apply andb_false_iff in Hk' as [Hk'|Hk'].
      * unfold tasks.task_is in Hk'. apply N.eqb_neq in Hk'. done.
      * apply N.ltb_ge in Hk'. lia.
    + by destruct d.
    + rewrite Hrun by done. simpl. rewrite (count_rule_ids taskID k _ bid) by done.
      rewrite lookup_take_lt, Hb by lia. unfold tasks.with_task_logs. simpl. f_equal.
      unfold delete_where. rewrite filter_filter. apply filter_ext.
      intros r. by destruct (tasks.task_is taskID r && _).
  - split_and!.
    + intros l Hl. split; [done|]. intros [_ (b & Hbin & Hbt & Hbk & _)].
      apply (newer_logs_position taskID _ k b Hnd Hbin Hbt) in Hbk. by rewrite Hb in Hbk.
    + done.
    + apply lookup_ge_None in Hb. rewrite log_ids_desc_length in Hb. lia.
    + intros kept gone _ _ Hgin _ Hgnot. done.
    + by destruct d.
    + rewrite Hrun by done. by rewrite Hb.
Qed.

Lemma C8_retention_count_witness :
  List.map models.tl_ID
    (db_task_logs (tasks.CleanTaskLogs read_config (fun t days => t + days * 86400) 7 2000
                     db_logs))
  = [2; 4; 5; 6; 7]%N
  /\ tasks.CleanTaskLogs read_config (fun t days => t + days * 86400) 7 2000
       (tasks.CleanTaskLogs read_config (fun t days => t + days * 86400) 7 2000 db_logs)
     = tasks.CleanTaskLogs read_config (fun t days => t + days * 86400) 7 2000 db_logs.
Proof.
  assert (NoDup (List.map models.tl_ID (db_task_logs db_logs))) as Hnd.
  { apply (bool_decide_unpack _). vm_compute. exact I. }
  destruct (C8_retention_count read_config (fun t days => t + days * 86400) 7 2000 db_logs
              keep3 {| tasks.Type_ := "count"; tasks.Keep := 3 |}
              eq_refl ltac:(discriminate) eq_refl eq_refl eq_refl Hnd)
    as (_ & _ & _ & _ & _ & Hagain).
  split; [|exact Hagain]. vm_compute. reflexivity.
Defined.

(** ** What a request does to the agent table *)

Lemma update_where_twice {A} (p : A -> bool) (f g : A -> A) rows :
  (forall a, p (f a) = p a) ->
  update_where p g (update_where p f rows) = update_where p (fun a => g (f a)) rows.
Proof.
  intros Hp. unfold update_where. rewrite List.map_map. apply List.map_ext.
  intros a. destruct (p a) eqn:E; by rewrite ?Hp, E.
Qed.

Lemma change_frame kt d d' :
  db_agents d' = db_agents d -> db_deleted_agents d' = db_deleted_agents d ->
  db_next_agent_id d' = db_next_agent_id d -> table_change kt d d'.
Proof.
  intros E1 E2 E3. apply (change_rows kt d d' (fun _ => false) (fun a => a)); try done.
  by rewrite update_where_none.
Qed.

Lemma change_update kt p f now d :
  (forall a, In a (db_agents d) -> p a = true -> row_step kt a (f a)) ->
  table_change kt d (gorm_update p f now d).
Proof.
  intros Hf. apply (change_rows kt _ _ p (fun a => set_UpdatedAt now (f a))); try done.
Qed.

Lemma row_step_same kt a b :
  ID b = ID a -> Status b = Status a -> Token b = Token a -> row_step kt a b.
Proof. intros E1 E2 E3. split; [done|]. by rewrite E2, E3. Qed.

Lemma row_step_left kt a b :
  ID b = ID a -> Status b <> "pending" -> row_step kt a b.
Proof. intros E1 E2. split; [done|]. by intros ?. Qed.

(** Every request the panel serves changes the agent table in one of the
    three ways; tokens of pending rows stay as they are unless the request
    regenerates the token of a pending agent. *)
Lemma serve_change kt r d :
  (kt = true -> ~ regenerates_pending_token r d) ->
  table_change kt d (panel.serve r d).
Proof.
  intros Hkt. destruct r; simpl in *.
  - unfold controllers.Register. destruct (gin.ShouldBindJSON ctx) as [req err].
    destruct err; [by apply change_frame|].
    destruct (String.eqb (rq_Name req) ""); [by apply change_frame|].
    unfold services.Register. destruct (List.find _ (db_agents d)) as [existing|].
    + simpl. apply change_update. intros a _ _. by apply row_step_same.
    + destruct created as [err|]; [by apply change_frame|]. simpl.
      by eapply change_create.
  - unfold controllers.CheckStatus. destruct (gin.ShouldBindJSON ctx) as [req err].
    destruct err; [by apply change_frame|]. unfold services.CheckPendingAgent.
    destruct (List.find _ (db_agents d)) as [agent|]; [|by apply change_frame].
    simpl. apply change_update. intros a _ _. by apply row_step_same.
  - unfold controllers.Heartbeat.
    destruct (String.eqb (AgentController.getAgentToken ctx) ""); [by apply change_frame|].
    destruct (gin.ShouldBindJSON ctx) as [req err]. unfold services.Heartbeat.
    destruct (services.GetByToken _ d) as [agent|]; [|by apply change_frame].
    destruct (Enabled agent); [|by apply change_frame]. cbn [negb]. cbv zeta.
    set (renew := services.heartbeat_updates _ _ _ _ _ _ _).
    assert (forall a, ID (renew a) = ID a /\ Status (renew a) = "online") as Hrenew.
    { intros a. pose proof (heartbeat_updates_fields (gin.ClientIP ctx) (hb_Version req)
        (hb_BuildTime req) (hb_Hostname req) (hb_OS req) (hb_Arch req) now a) as H.
      cbv zeta in H. fold renew in H. tauto. }
    simpl. destruct (_ && _); simpl.
    + apply (change_rows kt _ _ (id_is (ID agent))
               (fun a => set_UpdatedAt now (set_ForceUpdate false
                           (set_UpdatedAt now (renew a))))); try done.
      * unfold gorm_update. simpl.
        apply (update_where_twice _ (fun a => set_UpdatedAt now (renew a))
                 (fun a => set_UpdatedAt now (set_ForceUpdate false a))).
        intros a. unfold id_is. simpl. by rewrite (proj1 (Hrenew a)).
      * intros a _ _. apply row_step_left; simpl; [apply Hrenew|].
        by rewrite (proj2 (Hrenew a)).
    + apply change_update. intros a _ _. apply row_step_left; [apply Hrenew|].
      by rewrite (proj2 (Hrenew a)).
  - unfold controllers.ReportResult.
    destruct (String.eqb _ ""); [by apply change_frame|].
    destruct (services.GetByToken _ d) as [agent|]; [|by apply change_frame].
    destruct (negb (Enabled agent)); [by apply change_frame|].
    destruct (gin.ShouldBindJSON ctx) as [result err].
    destruct err; by apply change_frame.
  - unfold controllers.Approve. destruct (ParseUint _ 32) as [id|]; [|by apply change_frame].
    unfold services.Approve.
    destruct (services.GetByID id d) as [agent|]; [|by apply change_frame].
    destruct (negb _); [by apply change_frame|].
    destruct updated; [by apply change_frame|]. simpl.
    apply change_update. intros a _ _. by apply row_step_left.
  - unfold controllers.Reject. destruct (ParseUint _ 32) as [id|]; [|by apply change_frame].
    simpl. by eapply change_delete.
  - unfold controllers.Update. destruct (ParseUint _ 32) as [id|]; [|by apply change_frame].
    destruct (gin.ShouldBindJSON _) as [req err]. destruct err; [by apply change_frame|].
    simpl. apply change_update. intros a _ _. by apply row_step_same.
  - unfold controllers.Delete. destruct (ParseUint _ 32) as [id|]; [|by apply change_frame].
    unfold services.Delete. destruct (0 <? _)%nat; [by apply change_frame|].
    simpl. by eapply change_delete.
  - unfold controllers.RegenerateToken.
    destruct (ParseUint _ 32) as [id|] eqn:Hid; [|by apply change_frame].
    unfold services.RegenerateToken. destruct updated; [by apply change_frame|]. simpl.
    apply change_update. intros a Ha Hp%N.eqb_eq. split; [done|]. simpl.
    intros Hs. split; [done|]. intros ->. destruct (Hkt eq_refl). by exists id, a.
  - unfold controllers.ForceUpdate.
    destruct (ParseUint _ 32) as [id|]; [|by apply change_frame].
    simpl. apply change_update. intros a _ _. by apply row_step_same.
  - unfold services.UpdateOfflineAgents. apply change_update.
    intros a _ _. by apply row_step_left.
Qed.

(** ** The invariants of the agent table *)

Lemma token_rule_issued k a :
  Token a <> "" -> Status a <> "pending" -> token_rule k a.
Proof. unfold token_rule. tauto. Qed.

Lemma row_ok_token_rule a : panel.row_ok a -> token_rule false a.
Proof. intros (_ & _ & H). by split. Qed.

(** The token rule is kept by a change of the table that leads to a
    well-formed table. *)
Lemma change_registry_inv k d d' :
  table_change k d d' -> panel.agents_ok d' -> registry_inv k d -> registry_inv k d'.
Proof.
  intros Hch Hok' [Hrule Hok]. split; [|done].
  rewrite Forall_forall in Hrule. apply Forall_forall. intros x Hx.
  assert (Status x <> "pending" -> x ∈ db_agents d' -> Token x <> "") as Hlive.
  { intros Hs Hin. destruct Hok' as (Hrows & _). rewrite Forall_forall in Hrows.
    by apply (Hrows x Hin). }
  apply elem_of_app in Hx.
  destruct Hch as [p f E1 E2 E3 Hf|id E1 E2 E3|a E1 E2 E3 Hid Ha].
  - rewrite E2 in Hx. destruct Hx as [Hx|Hx]; [|apply Hrule, elem_of_app; tauto].
    split; [by auto|]. intros -> Hs.
    rewrite E1 in Hx. apply list_elem_of_In, in_update_where in Hx as (r & Hr & ->).
    pose proof (Hrule r) as [_ Hstrict].
    { apply elem_of_app. left. by apply list_elem_of_In. }
    destruct (p r) eqn:Hp; [|by auto].
    destruct (Hf r Hr Hp) as [_ Hstep]. destruct (Hstep Hs) as [Hs' Ht].
    rewrite Ht by done. by auto.
  - apply Hrule. rewrite E1, E2 in Hx. apply elem_of_app.
    destruct Hx as [Hx|Hx].
    + left. by apply list_elem_of_In, in_delete_where in Hx as [?%list_elem_of_In _].
    + apply elem_of_app in Hx as [Hx|Hx]; [by right|]. left.
      by apply list_elem_of_In, filter_In in Hx as [?%list_elem_of_In _].
  - rewrite E1, E2 in Hx. destruct Hx as [Hx|Hx]; [|apply Hrule, elem_of_app; tauto].
    apply elem_of_app in Hx as [Hx|Hx]; [apply Hrule, elem_of_app; tauto|].
    apply list_elem_of_singleton in Hx as ->. split; [|by auto].
    intros Hs. apply Hlive; [done|]. rewrite E1. apply elem_of_app. right.
    by apply list_elem_of_singleton.
Qed.

Lemma StronglySorted_lt_filter (q : N -> bool) l :
  StronglySorted N.lt l -> StronglySorted N.lt (List.filter q l).
Proof.
  induction 1 as [|x l Hs IH Hall]; simpl; [constructor|].
  destruct (q x); [|done]. constructor; [done|].
  rewrite Forall_forall in *. intros y [Hy _]%list_elem_of_In%filter_In.
  by apply Hall, list_elem_of_In.
Qed.

Lemma StronglySorted_lt_snoc l x :
  StronglySorted N.lt l -> Forall (fun y => (y < x)%N) l -> StronglySorted N.lt (l ++ [x]).
Proof.
  induction 1 as [|h t Hs IH Hall]; simpl; intros Hlt.
  - repeat constructor.
  - apply Forall_cons in Hlt as [Hh Ht]. constructor; [by apply IH|].
    apply Forall_app. split; [done|]. by apply Forall_singleton.
Qed.

Lemma map_filter_key {A K} (key : A -> K) (q : K -> bool) (l : list A) :
  List.map key (List.filter (fun a => q (key a)) l) = List.filter q (List.map key l).
Proof.
  induction l as [|a l IH]; simpl; [done|]. destruct (q (key a)); simpl; by rewrite IH.
Qed.

(** The live rows stay in the order of their keys. *)
Lemma change_keys_ascend k d d' :
  table_change k d d' -> panel.agents_ok d -> keys_ascend d -> keys_ascend d'.
Proof.
  unfold keys_ascend. intros Hch Hok Hs.
  destruct Hch as [p f E1 E2 E3 Hf|id E1 E2 E3|a E1 E2 E3 Hid Ha]; rewrite E1.
  - assert (List.map ID (update_where p f (db_agents d)) = List.map ID (db_agents d)) as ->;
      [|done].
    unfold update_where. rewrite List.map_map. apply map_ext_in. intros r Hr.
    destruct (p r) eqn:Hp; [|done]. apply (Hf r Hr Hp).
  - unfold delete_where, id_is.
    rewrite (map_filter_key ID (fun k => negb (N.eqb k id))).
    by apply StronglySorted_lt_filter.
  - rewrite List.map_app. simpl. apply StronglySorted_lt_snoc; [done|].
    destruct Hok as (_ & _ & Hlt). rewrite Hid. unfold panel.agent_ids in Hlt.
    rewrite List.map_app in Hlt. by apply Forall_app in Hlt as [? _].
Qed.

(** A key whose live row, if any, has left the pending state, and that is
    below the next key, stays so: no row goes back to pending, and no key is
    given twice. *)
Lemma change_approved k id d d' :
  table_change k d d' ->
  (forall a, In a (db_agents d) -> ID a = id -> Status a <> "pending") ->
  (id < db_next_agent_id d)%N ->
  (forall a, In a (db_agents d') -> ID a = id -> Status a <> "pending")
  /\ (id < db_next_agent_id d')%N.
Proof.
  intros Hch Hst Hlt.
  destruct Hch as [p f E1 E2 E3 Hf|id' E1 E2 E3|a E1 E2 E3 Hid Ha]; rewrite E1, E3.
  - split; [|done]. intros x (r & Hr & ->)%in_update_where Hx.
    destruct (p r) eqn:Hp; [|by apply Hst].
    destruct (Hf r Hr Hp) as [Hk Hstep]. intros Hs. destruct (Hstep Hs) as [Hs' _].
    apply (Hst r Hr); [|done]. by rewrite <- Hk.
  - split; [|done]. intros x [Hx _]%in_delete_where. by apply Hst.
  - split; [|lia]. intros x [Hx|[<-|[]]]%in_app_iff; [by apply Hst|]. lia.
Qed.

(** ** Every operation preserves the invariants *)

(** [CleanTaskLogs] leaves the agent table alone. *)
Lemma CleanTaskLogs_agents Unmarshal AddDate taskID now d :
  let d' := tasks.CleanTaskLogs Unmarshal AddDate taskID now d in
  db_agents d' = db_agents d /\ db_deleted_agents d' = db_deleted_agents d
  /\ db_next_agent_id d' = db_next_agent_id d.
Proof.
  cbv zeta. unfold tasks.CleanTaskLogs. by repeat case_match.
Qed.

Lemma step_change k op p :
  (k = true -> ~ regenerates_pending op p) ->
  table_change k (database p) (database (step op p)).
Proof.
  intros Hk. destruct op; simpl.
  - by apply serve_change.
  - by apply change_frame.
  - unfold RegistrationCodeIssuer.Redeem.
    destruct (List.find _ (codes p)) as [c|]; [|by apply change_frame].
    destruct (RegistrationCodeIssuer.expired now c); [by apply change_frame|].
    destruct (RegistrationCodeIssuer.exhausted c); [by apply change_frame|]. simpl.
    by eapply change_create.
  - by apply change_frame.
  - destruct (CleanTaskLogs_agents Unmarshal AddDate taskID now (database p))
      as (E1 & E2 & E3).
    by apply change_frame.
  - by apply change_frame.
Qed.

Lemma step_ok op p :
  panel.agents_ok (database p) -> panel.agents_ok (database (step op p)).
Proof.
  intros Hok. destruct op; simpl.
  - by apply serve_ok.
  - done.
  - unfold RegistrationCodeIssuer.Redeem.
    destruct (List.find _ (codes p)) as [c|]; [|done].
    destruct (RegistrationCodeIssuer.expired now c); [done|].
    destruct (RegistrationCodeIssuer.exhausted c); [done|]. simpl.
    destruct Hok as (Hrows & Hnd & Hlt). unfold panel.agents_ok.
    match goal with
    | |- context [panel.agent_ids ?d'] =>
        assert (panel.agent_ids d'
                ≡ₚ db_next_agent_id (database p) :: panel.agent_ids (database p)) as ->
    end.
    { unfold panel.agent_ids. simpl. rewrite <- (assoc_L app). simpl.
      rewrite !List.map_app. simpl. by rewrite <- Permutation_middle. }
    simpl. split_and!.
    + apply Forall_app. split; [done|]. apply Forall_singleton.
      apply (row_ok_issued _ "online"); simpl; auto using generateToken_hex.
      apply hex_token_nonempty, generateToken_hex.
    + apply NoDup_cons. split; [|done]. intros Hin.
      rewrite Forall_forall in Hlt. apply Hlt in Hin. lia.
    + apply Forall_cons. split; [lia|].
      eapply Forall_impl; [exact Hlt|]. simpl. intros; lia.
  - done.
  - destruct (CleanTaskLogs_agents Unmarshal AddDate taskID now (database p))
      as (E1 & E2 & E3).
    by eapply agents_ok_frame.
  - by eapply agents_ok_frame.
Qed.

Lemma step_inv k op p :
  (k = true -> ~ regenerates_pending op p) ->
  registry_inv k (database p) /\ keys_ascend (database p) ->
  registry_inv k (database (step op p)) /\ keys_ascend (database (step op p)).
Proof.
  intros Hk [Hinv Hasc]. pose proof (step_change k op p Hk) as Hch. split.
  - eapply change_registry_inv; [done| |done]. apply step_ok, Hinv.
  - eapply change_keys_ascend; [done| |done]. apply Hinv.
Qed.

Lemma initial_inv k d :
  panel.no_agents d -> registry_inv k d /\ keys_ascend d.
Proof.
  intros Hno. pose proof (no_agents_ok d Hno) as Hok. destruct Hno as [E1 E2].
  unfold registry_inv, keys_ascend. rewrite E1, E2. simpl.
  split_and!; [apply Forall_nil_2|done|constructor].
Qed.

Lemma reachable_inv p :
  reachable p -> registry_inv false (database p) /\ keys_ascend (database p).
Proof.
  induction 1 as [p Hno|op p _ IH]; [by apply initial_inv|]. by apply step_inv.
Qed.

Lemma reachable_approved_regen_inv p :
  reachable_approved_regen p -> registry_inv true (database p) /\ keys_ascend (database p).
Proof.
  induction 1 as [p Hno|op p _ IH Hop]; [by apply initial_inv|]. by apply step_inv.
Qed.

(** ** An approval is final *)

Lemma serve_all_approved id rs d :
  (forall a, In a (db_agents d) -> ID a = id -> Status a <> "pending") ->
  (id < db_next_agent_id d)%N ->
  (forall a, In a (db_agents (panel.serve_all rs d)) -> ID a = id -> Status a <> "pending")
  /\ (id < db_next_agent_id (panel.serve_all rs d))%N.
Proof.
  unfold panel.serve_all. revert d. induction rs as [|r rs IH]; intros d Hst Hlt; [done|].
  simpl. assert (table_change false d (panel.serve r d)) as Hch by (by apply serve_change).
  destruct (change_approved false id d _ Hch Hst Hlt) as [Hst' Hlt']. by apply IH.
Qed.

Lemma Approve_refused id now rnd updated d :
  (forall a, In a (db_agents d) -> ID a = id -> Status a <> "pending") ->
  services.Approve id now rnd updated d
  = (inl (services.serviceError
            (match services.GetByID id d with
             | Some _ => "Agent 状态不是待审核"
             | None => "Agent 不存在"
             end)), d).
Proof.
  intros Hst. unfold services.Approve.
  destruct (services.GetByID id d) as [agent|] eqn:Hfind; [|done].
  apply GetByID_found in Hfind as [Hin Hid].
  by destruct (String.eqb_spec (Status agent) "pending") as [Hs%(Hst agent Hin Hid)|].
Qed.

(** X8: An approval is not repeated: once [Approve] has succeeded for
    an agent, which then is online and holds the generated token, a second
    [Approve] of the same agent fails with the state error and leaves the
    database as it is; and so does every later one, whatever requests the
    panel has served in between: it fails with the state error while the
    agent has a live row, and with 'Agent 不存在' once the row was rejected
    or deleted, and changes nothing. *)
Theorem Approve_once (id : N) (now now' : LocalTime) (rnd rnd' : list Byte.byte)
    (updated updated' : Verdict) (d d1 : DB) (a : Agent) (rs : list panel.Request) :
  panel.agents_ok d ->
  services.Approve id now rnd updated d = (inr a, d1) ->
  ID a = id /\ Status a = "online" /\ Token a = services.generateToken rnd
  /\ panel.hex_token (Token a)
  /\ (exists row, services.GetByID id d1 = Some row /\ Status row = "online"
                  /\ Token row = Token a)
  /\ services.Approve id now' rnd' updated' d1
       = (inl (services.serviceError "Agent 状态不是待审核"), d1)
  /\ (let d2 := panel.serve_all rs d1 in
      services.Approve id now' rnd' updated' d2
      = (inl (services.serviceError
                (match services.GetByID id d2 with
                 | Some _ => "Agent 状态不是待审核"
                 | None => "Agent 不存在"
                 end)), d2)).
Proof.
  intros Hok. unfold services.Approve at 1.
  destruct (services.GetByID id d) as [agent|] eqn:Hfind; [|done].
  destruct (negb _); [done|]. destruct updated; [done|]. intros [= <- <-].
  pose proof (GetByID_found _ _ _ Hfind) as [Hin Hid]. rewrite Hid.
  pose proof (GetByID_update id
                (fun a => set_LastSeen (Some now) (set_Status "online"
                            (set_Token (services.generateToken rnd) a)))
                now d agent (fun _ => eq_refl) Hfind) as Hrow.
  split_and!; try done.
  - apply generateToken_hex.
  - by eexists.
  - unfold services.Approve. by rewrite Hrow.
  - cbv zeta. apply Approve_refused. apply serve_all_approved.
    + unfold gorm_update. simpl. intros x (r & Hr & ->)%in_update_where Hx.
      destruct (id_is id r) eqn:Hp; [done|]. exfalso.
      unfold id_is in Hp. apply N.eqb_neq in Hp. by apply Hp.
    + simpl. destruct Hok as (_ & _ & Hlt). rewrite Forall_forall in Hlt.
      apply Hlt. unfold panel.agent_ids. rewrite <- Hid.
      apply list_elem_of_In, in_map, in_or_app. by left.
Qed.

(** ** Binding the body of a report *)

(** Whether a value can be stored into a field does not depend on the
    struct. *)
Lemma store_field_fits intSize f v r :
  json.store_field intSize f v r = None <-> ~ json.fits intSize f v.
Proof.
  unfold json.fits.
  destruct f, v; simpl;
    try match goal with
        | |- context [json.to_uint ?b ?l] => destruct (json.to_uint b l)
        | |- context [json.to_int ?b ?l] => destruct (json.to_int b l)
        end; simpl;
    (split; [intros E H; try discriminate E; by apply H
            |intros H; try reflexivity; destruct H; discriminate]).
Qed.

Lemma store_field_Some intSize f v r r' :
  json.store_field intSize f v r = Some r' -> json.fits intSize f v.
Proof.
  intros E Hz. apply (store_field_fits intSize f v json.zero) in Hz.
  apply (store_field_fits intSize f v r) in Hz. congruence.
Qed.

(** Storing a member leaves the other fields as they are. *)
Lemma store_field_others intSize f v r r' g :
  json.store_field intSize f v r = Some r' -> g <> f -> json.get g r' = json.get g r.
Proof.
  intros H Hg.
  destruct f, v; simpl in H;
    try match type of H with
        | context [json.to_uint ?b ?l] => destruct (json.to_uint b l)
        | context [json.to_int ?b ?l] => destruct (json.to_int b l)
        end; simpl in H; simplify_eq; by destruct g.
Qed.

(** The same value stored into the same field of two structs gives the same
    value of the field, unless it is [null], which gives nothing. *)
Lemma store_field_same intSize f v r1 r2 r1' r2' :
  json.store_field intSize f v r1 = Some r1' ->
  json.store_field intSize f v r2 = Some r2' ->
  json.get f r1' = json.get f r2' \/ r1' = r1 /\ r2' = r2.
Proof.
  intros H1 H2.
  destruct f, v; simpl in H1, H2;
    try match type of H1 with
        | context [json.to_uint ?b ?l] => destruct (json.to_uint b l)
        | context [json.to_int ?b ?l] => destruct (json.to_int b l)
        end; simpl in H1, H2; simplify_eq; (by right) || (by left).
Qed.

Lemma store_field_agree intSize ignored f v1 v2 r1 r2 r1' r2' :
  json.same_fields_but ignored r1 r2 ->
  v1 = v2 \/ ignored f = true ->
  json.store_field intSize f v1 r1 = Some r1' ->
  json.store_field intSize f v2 r2 = Some r2' ->
  json.same_fields_but ignored r1' r2'.
Proof.
  intros Hsame Hv H1 H2 g Hg.
  destruct (decide (g = f)) as [->|Hne].
  - destruct Hv as [<-|Hig]; [|congruence].
    destruct (store_field_same _ _ _ _ _ _ _ H1 H2) as [E|[-> ->]]; [done|by apply Hsame].
  - rewrite (store_field_others _ _ _ _ _ _ H1 Hne), (store_field_others _ _ _ _ _ _ H2 Hne).
    by apply Hsame.
Qed.

(** The decoder reports an error exactly when a member names a field that
    cannot store its value. *)
Lemma decode_members_error intSize ms r :
  snd (json.decode_members intSize ms r) = false
  <-> Forall (fun m => forall f, json.field_of (fst m) = Some f ->
                                 json.fits intSize f (snd m)) ms.
Proof.
  revert r. induction ms as [|[key v] ms IH]; intros r; simpl.
  - split; [intros _; apply Forall_nil_2|done].
  - rewrite Forall_cons. simpl. destruct (json.field_of key) as [f|].
    + destruct (json.store_field intSize f v r) as [r'|] eqn:E.
      * rewrite IH. split; [|tauto]. intros H. split; [|done]. intros ? [= <-].
        by eapply store_field_Some.
      * simpl. split; [done|]. intros [H _].
        apply store_field_fits in E. destruct E. by apply H.
    + rewrite IH. split; [|tauto]. intros H. by split.
Qed.

Lemma decode_members_agree intSize ignored ms1 ms2 r1 r2 :
  json.same_members_but ignored ms1 ms2 ->
  json.same_fields_but ignored r1 r2 ->
  snd (json.decode_members intSize ms1 r1) = false ->
  snd (json.decode_members intSize ms2 r2) = false ->
  json.same_fields_but ignored (fst (json.decode_members intSize ms1 r1))
    (fst (json.decode_members intSize ms2 r2)).
Proof.
  intros Hms. revert r1 r2.
  induction Hms as [|[key v1] [key' v2] ms1 ms2 [Hkey Hv] _ IH]; intros r1 r2 Hr; [done|].
  simpl in Hkey, Hv. subst key'. simpl.
  destruct (json.field_of key) as [f|]; [|by apply IH].
  destruct (json.store_field intSize f v1 r1) as [r1'|] eqn:E1; [|done].
  destruct (json.store_field intSize f v2 r2) as [r2'|] eqn:E2; [|done].
  apply IH. eapply store_field_agree; [exact Hr| |exact E1|exact E2].
  destruct Hv as [?|(f' & [= <-] & ?)]; auto.
Qed.

(** Two bodies that differ in ignored fields only: when the first binds and
    the ignored members of the second fit their fields, the second binds too,
    and the two structs are the same but for the ignored fields. *)
Lemma Bind_agree intSize ignored body1 body2 :
  json.same_body_but ignored body1 body2 ->
  snd (json.Bind intSize body1) = false ->
  json.ignored_fit intSize ignored body2 ->
  snd (json.Bind intSize body2) = false
  /\ json.same_fields_but ignored (fst (json.Bind intSize body1))
       (fst (json.Bind intSize body2)).
Proof.
  intros [<-|(ms1 & ms2 & -> & -> & Hms)] H1 Hfit; [done|]. simpl in *.
  specialize (Hfit ms2 eq_refl).
  assert (snd (json.decode_members intSize ms2 json.zero) = false) as H2.
  { apply decode_members_error. apply decode_members_error in H1.
    clear -Hms H1 Hfit. induction Hms as [|[key v1] [key' v2] ms1 ms2 [Hkey Hv] _ IH];
      [apply Forall_nil_2|].
    simpl in Hkey, Hv. subst key'.
    apply Forall_cons in H1 as [H1 H1'], Hfit as [Hfit Hfit']. simpl in *.
    apply Forall_cons. split; [|by apply IH]. simpl. intros f Hf.
    destruct (ignored f) eqn:Hig; [by apply Hfit|].
    destruct Hv as [<-|(f' & Hf' & ?)]; [by apply H1|]. congruence. }
  split; [done|]. by apply decode_members_agree.
Qed.

(** A member that names a field and holds a value the field cannot store
    makes the binding fail. *)
Lemma Bind_rejects intSize ms key v f :
  In (key, v) ms -> json.field_of key = Some f -> ~ json.fits intSize f v ->
  snd (json.Bind intSize (json.TopObject ms)) = true.
Proof.
  intros Hin Hf Hfit. simpl.
  destruct (snd (json.decode_members intSize ms json.zero)) eqn:E; [done|].
  apply decode_members_error in E. rewrite Forall_forall in E.
  destruct Hfit. by apply (E (key, v) (proj2 (list_elem_of_In _ _) Hin)).
Qed.

(** Structs that agree but for the agent id are stamped alike. *)
Lemma stamp_agree agent r1 r2 :
  json.same_fields_but agent_id_only r1 r2 -> stamp agent r1 = stamp agent r2.
Proof.
  intros H. unfold stamp.
  pose proof (H json.TaskID eq_refl) as [= E1].
  pose proof (H json.Command eq_refl) as [= E2].
  pose proof (H json.Output eq_refl) as [= E3].
  pose proof (H json.Status eq_refl) as [= E4].
  pose proof (H json.Duration eq_refl) as [= E5].
  pose proof (H json.ExitCode eq_refl) as [= E6].
  pose proof (H json.StartTime eq_refl) as [= E7].
  pose proof (H json.EndTime eq_refl) as [= E8].
  by rewrite E1, E2, E3, E4, E5, E6, E7, E8.
Qed.

(** Structs that agree on what is stored give the same stored result. *)
Lemma ReportResult_agree compress agent r1 r2 now d :
  json.same_fields_but not_stored r1 r2 ->
  services.ReportResult compress (stamp agent r1) now d
  = services.ReportResult compress (stamp agent r2) now d.
Proof.
  intros H. unfold services.ReportResult, stamp. simpl.
  pose proof (H json.TaskID eq_refl) as [= E1].
  pose proof (H json.Command eq_refl) as [= E2].
  pose proof (H json.Output eq_refl) as [= E3].
  pose proof (H json.Status eq_refl) as [= E4].
  pose proof (H json.Duration eq_refl) as [= E5].
  pose proof (H json.ExitCode eq_refl) as [= E6].
  by rewrite E1, E2, E3, E4, E5, E6.
Qed.

(** ** C5: a result is filed under the caller's identity *)

Lemma getAgentToken_report intSize headers ip body1 body2 :
  AgentController.getAgentToken (json.report intSize headers ip body1)
  = AgentController.getAgentToken (json.report intSize headers ip body2).
Proof. by apply getAgentToken_Headers. Qed.

(** What [ReportResult] does for an enabled agent that presents its token. *)
Lemma ReportResult_accepted compress ctx now w agent :
  AgentController.getAgentToken ctx <> "" ->
  services.GetByToken (AgentController.getAgentToken ctx) (store w) = Some agent ->
  Enabled agent = true ->
  AgentController.ReportResult compress ctx now w =
    if gin.BindError ctx then
      (utils.BadRequest (utils.Text "参数错误"),
       {| store := store w;
          calls := calls w ++ [CallGetByToken (AgentController.getAgentToken ctx)] |})
    else
      (utils.SuccessMsg (utils.Text "上报成功"),
       {| store := snd (services.ReportResult compress (stamp agent (gin.Bound ctx)) now
                          (store w));
          calls := (calls w ++ [CallGetByToken (AgentController.getAgentToken ctx)])
                   ++ [CallReportResult (stamp agent (gin.Bound ctx))] |}).
Proof.
  intros Hne%String.eqb_neq Hfind Hen. rewrite ReportResult_run. cbv zeta.
  by rewrite Hne, Hfind, Hen.
Qed.

(** C5, as stated, fails: of two reports of the approved agent that differ in
    the agent_id of the payload only, the one that names agent 1 is stored,
    and the one that names agent -1 is refused, since the value does not
    decode into the unsigned field, and nothing is stored. *)
Lemma C5_counterexample :
  exists body1 body2,
    json.same_body_but agent_id_only body1 body2
    /\ db_task_logs
         (store (snd (AgentController.ReportResult id_codec
                        (json.report 64 [("Authorization", "Bearer " ++ agent_token)]
                           "10.0.0.7" body1) 1040 approved)))
       <> db_task_logs
            (store (snd (AgentController.ReportResult id_codec
                           (json.report 64 [("Authorization", "Bearer " ++ agent_token)]
                              "10.0.0.7" body2) 1040 approved))).
Proof.
  exists (report_body "1"), (report_body "-1"). split.
  - right. do 2 eexists. split; [reflexivity|]. split; [reflexivity|].
    repeat (constructor;
            [split; [reflexivity| first [by left | right; by exists json.AgentID]]|]).
    constructor.
  - vm_compute. discriminate.
Qed.

(** C5 (amended): for a report that presents the token of an enabled agent and
    whose body binds, exactly one log is stored, under the id of the agent the
    token resolves to, with the task, command, status, duration and exit code
    of the payload; and a second report that differs from it only in the
    agent_id of the payload, naming any value the unsigned field can store
    (or [null]), has the same outcome: the same response and the same world,
    stored log included.  A report whose agent_id is any other value is
    refused as malformed, and nothing is stored. *)
Theorem C5_report_result_identity (intSize : N) (compress : string -> option string)
    (headers : list (string * string)) (ip : string) (body1 body2 : json.Body)
    (now : LocalTime) (w : World) (agent : Agent) :
  let ctx1 := json.report intSize headers ip body1 in
  let ctx2 := json.report intSize headers ip body2 in
  let token := AgentController.getAgentToken ctx1 in
  token <> "" ->
  services.GetByToken token (store w) = Some agent ->
  Enabled agent = true ->
  json.same_body_but agent_id_only body1 body2 ->
  gin.BindError ctx1 = false ->
  (json.ignored_fit intSize agent_id_only body2 ->
   exists log w',
     AgentController.ReportResult compress ctx1 now w
     = (utils.SuccessMsg (utils.Text "上报成功"), w')
     /\ AgentController.ReportResult compress ctx2 now w
        = (utils.SuccessMsg (utils.Text "上报成功"), w')
     /\ db_task_logs (store w') = (db_task_logs (store w) ++ [log])%list
     /\ models.tl_AgentID log = Some (ID agent)
     /\ models.tl_ID log = db_next_log_id (store w)
     /\ models.tl_TaskID log = r_TaskID (gin.Bound ctx1)
     /\ models.tl_Command log = r_Command (gin.Bound ctx1)
     /\ models.tl_Status log = r_Status (gin.Bound ctx1)
     /\ models.tl_Duration log = r_Duration (gin.Bound ctx1)
     /\ models.tl_ExitCode log = r_ExitCode (gin.Bound ctx1)
     /\ calls w' = (calls w ++ [CallGetByToken token;
                                CallReportResult (stamp agent (gin.Bound ctx1))])%list)
  /\ (forall ms key v,
        body2 = json.TopObject ms -> In (key, v) ms ->
        json.field_of key = Some json.AgentID -> ~ json.fits intSize json.AgentID v ->
        fst (AgentController.ReportResult compress ctx2 now w)
        = utils.BadRequest (utils.Text "参数错误")
        /\ store (snd (AgentController.ReportResult compress ctx2 now w)) = store w).
Proof.
  cbv zeta. intros Hne Hfind Hen Hsame Hbind.
  pose proof (ReportResult_accepted compress _ now w agent Hne Hfind Hen) as E1.
  pose proof Hne as Hne2. pose proof Hfind as Hfind2.
  rewrite (getAgentToken_report intSize headers ip body1 body2) in Hne2, Hfind2.
  pose proof (ReportResult_accepted compress _ now w agent Hne2 Hfind2 Hen) as E2.
  split.
  - intros Hfit. destruct (Bind_agree intSize _ _ _ Hsame Hbind Hfit) as [Hbind2 Hagree].
    apply (stamp_agree agent) in Hagree.
    change (snd (json.Bind intSize body2)) with
      (gin.BindError (json.report intSize headers ip body2)) in Hbind2.
    change (fst (json.Bind intSize body1)) with
      (gin.Bound (json.report intSize headers ip body1)) in Hagree.
    change (fst (json.Bind intSize body2)) with
      (gin.Bound (json.report intSize headers ip body2)) in Hagree.
    rewrite Hbind in E1. rewrite Hbind2, <- Hagree in E2.
    rewrite <- (getAgentToken_report intSize headers ip body1 body2) in E2.
    do 2 eexists. split; [exact E1|]. split; [exact E2|]. simpl.
    split_and!; try done. by rewrite <- app_assoc.
  - intros ms key v -> Hin Hkey Hfit.
    pose proof (Bind_rejects intSize ms key v json.AgentID Hin Hkey Hfit) as Hrej.
    change (snd (json.Bind intSize (json.TopObject ms))) with
      (gin.BindError (json.report intSize headers ip (json.TopObject ms))) in Hrej.
    rewrite Hrej in E2. by rewrite E2.
Qed.

Lemma C5_report_result_identity_witness :
  exists log w',
    AgentController.ReportResult id_codec
      (json.report 64 [("Authorization", "Bearer " ++ agent_token)] "10.0.0.7"
         (report_body "99")) 1040 approved
    = (utils.SuccessMsg (utils.Text "上报成功"), w')
    /\ db_task_logs (store w') = [log]
    /\ models.tl_AgentID log = Some 1%N.
Proof.
  destruct (C5_report_result_identity 64 id_codec
              [("Authorization", "Bearer " ++ agent_token)] "10.0.0.7"
              (report_body "1") (report_body "99") 1040 approved
              (set_UpdatedAt 1010
                 (set_LastSeen (Some 1010)
                    (set_Status "online"
                       (set_Token agent_token
                          {| ID := 1; Name := "worker-1"; Token := ""; Description := "";
                             Status := "pending"; LastSeen := Some 1000; IP := "10.0.0.7";
                             Version := "1.0"; BuildTime := ""; Hostname := "host-a";
                             OS := ""; Arch := ""; ForceUpdate := false; Enabled := true;
                             CreatedAt := 1000; UpdatedAt := 1000 |})))))
    as [Hstored _].
  - vm_compute. discriminate.
  - vm_compute. reflexivity.
  - reflexivity.
  - right. do 2 eexists. split; [reflexivity|]. split; [reflexivity|].
    repeat (constructor;
            [split; [reflexivity| first [by left | right; by exists json.AgentID]]|]).
    constructor.
  - vm_compute. reflexivity.
  - destruct Hstored as (log & w' & _ & E2 & Hlogs & Hagent & _).
    + intros ms [= <-]. repeat (apply Forall_cons; split); try apply Forall_nil_2;
        simpl; intros f Hf Hig; vm_compute in Hf; injection Hf as <-;
        try discriminate Hig.
      vm_compute. discriminate.
    + exists log, w'. split; [exact E2|]. split; [exact Hlogs|exact Hagent].
Defined.

(** ** What a report stores *)

(** X16: An accepted report is stored as one new task log, under the
    next log key and the id of the agent that holds the token; the start and
    end time of the log stay empty.  The task's statistics are incremented
    once and no agent row changes.  What the payload says about the agent id,
    the start time and the end time has no effect on a report that binds:
    two bound payloads that agree on the rest, and two bodies that differ
    only in values these fields can store, have the same response and
    effect.  A body that gives a field a value it cannot store is refused as
    malformed, and nothing is stored. *)
Theorem ReportResult_stores (compress : string -> option string)
    (ctx : gin.Context AgentTaskResult) (now : LocalTime) (d : DB) (token : string)
    (agent : Agent) :
  AgentController.getAgentToken ctx = token -> token <> "" ->
  services.GetByToken token d = Some agent -> Enabled agent = true ->
  gin.BindError ctx = false ->
  (exists log d',
     controllers.ReportResult compress ctx now d
       = (utils.SuccessMsg (utils.Text "上报成功"), d')
     /\ db_task_logs d' = (db_task_logs d ++ [log])%list
     /\ models.tl_ID log = db_next_log_id d
     /\ models.tl_AgentID log = Some (ID agent)
     /\ models.tl_TaskID log = r_TaskID (gin.Bound ctx)
     /\ models.tl_Status log = r_Status (gin.Bound ctx)
     /\ models.tl_StartTime log = None /\ models.tl_EndTime log = None
     /\ db_stats d' = (db_stats d ++ [(r_TaskID (gin.Bound ctx), r_Status (gin.Bound ctx))])%list
     /\ db_agents d' = db_agents d)
  /\ (forall ctx' : gin.Context AgentTaskResult,
        gin.Headers ctx' = gin.Headers ctx -> gin.BindError ctx' = false ->
        same_run (gin.Bound ctx') (gin.Bound ctx) ->
        controllers.ReportResult compress ctx' now d
          = controllers.ReportResult compress ctx now d)
  /\ (forall (intSize : N) (ip ip' : string) (body body' : json.Body),
        ctx = json.report intSize (gin.Headers ctx) ip body ->
        json.same_body_but not_stored body body' ->
        json.ignored_fit intSize not_stored body' ->
        controllers.ReportResult compress
          (json.report intSize (gin.Headers ctx) ip' body') now d
        = controllers.ReportResult compress ctx now d)
  /\ (forall (intSize : N) (ip' : string) ms key v f,
        In (key, v) ms -> json.field_of key = Some f -> ~ json.fits intSize f v ->
        controllers.ReportResult compress
          (json.report intSize (gin.Headers ctx) ip' (json.TopObject ms)) now d
        = (utils.BadRequest (utils.Text "参数错误"), d)).
Proof.
  intros Htok Hne%String.eqb_neq Hfind Hen Hbind.
  assert (forall ctx' : gin.Context AgentTaskResult,
            gin.Headers ctx' = gin.Headers ctx ->
            AgentController.getAgentToken ctx' = token) as Hsame.
  { intros ctx' Hh. rewrite <- Htok.
    unfold AgentController.getAgentToken, gin.GetHeader. by rewrite Hh. }
  split_and!.
  - unfold controllers.ReportResult, gin.ShouldBindJSON.
    rewrite Htok, Hne, Hfind, Hen, Hbind. simpl. do 2 eexists. split; [done|].
    simpl. by split_and!.
  - intros ctx' Hh Hb' (E1 & E2 & E3 & E4 & E5 & E6).
    unfold controllers.ReportResult, gin.ShouldBindJSON.
    rewrite Htok, (Hsame ctx' Hh), Hne, Hfind, Hen, Hbind, Hb'. simpl.
    unfold services.ReportResult. simpl. by rewrite E1, E2, E3, E4, E5, E6.
  - intros intSize ip ip' body body' Hctx Hbodies Hfit.
    assert (snd (json.Bind intSize body) = false) as Hb by (by rewrite Hctx in Hbind).
    destruct (Bind_agree intSize _ _ _ Hbodies Hb Hfit) as [Hb' Hagree].
    unfold controllers.ReportResult, gin.ShouldBindJSON.
    rewrite Htok, (Hsame (json.report intSize (gin.Headers ctx) ip' body') eq_refl).
    rewrite Hne, Hfind, Hen, Hbind. cbn [json.report gin.Bound gin.BindError].
    rewrite Hb'. rewrite Hctx. cbn [json.report gin.Bound gin.BindError].
    by rewrite (ReportResult_agree compress agent _ _ now d Hagree).
  - intros intSize ip' ms key v f Hin Hkey Hfit.
    unfold controllers.ReportResult, gin.ShouldBindJSON.
    rewrite (Hsame (json.report intSize (gin.Headers ctx) ip' (json.TopObject ms)) eq_refl).
    rewrite Hne, Hfind, Hen. cbn [json.report gin.Bound gin.BindError].
    by rewrite (Bind_rejects intSize ms key v f Hin Hkey Hfit).
Qed.

(** ** C1: the token of an agent and its status *)

(** In every reachable state, an agent that is not pending holds a token. *)
Lemma reachable_token_issued p a :
  reachable p -> In a (db_agents (database p) ++ db_deleted_agents (database p)) ->
  Status a <> "pending" -> Token a <> "".
Proof.
  intros [[Hrule _] _]%reachable_inv Ha. rewrite Forall_forall in Hrule.
  apply (Hrule a). by apply list_elem_of_In.
Qed.

(** C1, as stated, fails: after an agent registers and the operator
    regenerates its token before approving it, the agent is pending and holds
    a token. *)
Lemma C1_counterexample :
  exists p a,
    reachable p /\ In a (db_agents (database p))
    /\ ~ (Token a = "" <-> Status a = "pending").
Proof.
  pose (p := step regenerate1 panel_registered).
  assert (exists a, In a (db_agents (database p)) /\ Status a = "pending" /\ Token a <> "")
    as (a & Ha & Hs & Ht).
  { vm_compute. eexists. split; [left; reflexivity|]. split; [reflexivity|discriminate]. }
  exists p, a. split.
  - do 2 apply reachable_step. apply reachable_initial. by split.
  - split; [done|]. intros [_ H]. auto.
Qed.

(** C1 (amended): for every agent record, soft-deleted ones included, of a
    state reached through requests to the handlers, runs of the offline sweep
    and redemptions of registration codes, among which RegenerateToken is
    never applied to an agent that is still pending, the token is the empty
    string if and only if the status is pending. *)
Theorem C1_token_empty_iff_pending (p : Panel) (a : Agent) :
  reachable_approved_regen p ->
  In a (db_agents (database p) ++ db_deleted_agents (database p)) ->
  (Token a = "" <-> Status a = "pending").
Proof.
  intros [[Hrule _] _]%reachable_approved_regen_inv Ha. rewrite Forall_forall in Hrule.
  destruct (Hrule a (proj2 (list_elem_of_In _ _) Ha)) as [Hissued Hpending]. split.
  - intros Htok. destruct (decide (Status a = "pending")) as [|Hs]; [done|].
    by destruct (Hissued Hs).
  - by apply Hpending.
Qed.

Lemma C1_token_empty_iff_pending_witness :
  Token approved_row = "" <-> Status approved_row = "pending".
Proof.
  apply (C1_token_empty_iff_pending panel_approved approved_row).
  - apply rar_step; [apply rar_step; [apply rar_initial; split; reflexivity|]|];
      simpl; intros H; exact H.
  - left. reflexivity.
Defined.

(** ** C6: the answer to a status poll *)

(** In a table in the order of its keys, the first row that satisfies a test
    is the one of least key among those that do. *)
Lemma find_sorted_least (q : Agent -> bool) (l : list Agent) (a : Agent) :
  StronglySorted N.lt (List.map ID l) -> List.find q l = Some a ->
  forall b, In b l -> q b = true -> (ID a <= ID b)%N.
Proof.
  induction l as [|x l IH]; [done|]. simpl. intros Hs Hfind b Hb Hq.
  apply StronglySorted_inv in Hs as [Hs Hx]. destruct (q x) eqn:Hqx.
  - injection Hfind as <-. destruct Hb as [->|Hb]; [lia|].
    rewrite Forall_forall in Hx.
    assert (ID x < ID b)%N by (apply Hx, list_elem_of_In, in_map_iff; by exists b).
    lia.
  - destruct Hb as [->|Hb]; [congruence|]. by apply IH.
Qed.

Lemma find_none_iff {A} (q : A -> bool) (l : list A) :
  List.find q l = None <-> forall a, In a l -> q a = false.
Proof.
  split; [apply find_none|]. induction l as [|x l IH]; [done|]. simpl. intros H.
  rewrite (H x (or_introl eq_refl)). apply IH. intros a Ha. apply H. by right.
Qed.

(** C6: in every reachable state, a status poll whose body does not bind is
    answered BadRequest; one that matches no live agent on (name, ip) is
    answered NotFound, and neither changes the database; one that some live
    agent matches is answered for the matching row of least key, with that
    row's id and status, with its token exactly when its status is not
    pending, and with nothing else, and it refreshes the last-seen time of
    that row alone. *)
Theorem C6_check_status (p : Panel) (cs : list SvcCall)
    (ctx : gin.Context CheckStatusRequest) (now : LocalTime) :
  reachable p ->
  let w := {| store := database p; calls := cs |} in
  let name := cs_Name (gin.Bound ctx) in
  let ip := gin.ClientIP ctx in
  let matches a := In a (db_agents (database p)) /\ Name a = name /\ IP a = ip in
  let out := AgentController.CheckStatus ctx now w in
  (gin.BindError ctx = true ->
   out = (utils.BadRequest (utils.Text "参数错误"), w))
  /\ (gin.BindError ctx = false -> (forall a, ~ matches a) ->
      fst out = utils.NotFound (utils.Text "Agent 未注册")
      /\ store (snd out) = database p)
  /\ (gin.BindError ctx = false -> (exists a, matches a) ->
      exists a data,
        matches a
        /\ (forall b, matches b -> (ID a <= ID b)%N)
        /\ fst out = utils.Success data
        /\ data !! "agent_id" = Some (JNum (ID a))
        /\ data !! "status" = Some (JStr (Status a))
        /\ (Status a <> "pending" ->
            data !! "token" = Some (JStr (Token a)) /\ Token a <> "")
        /\ (Status a = "pending" -> data !! "token" = None)
        /\ (forall k, is_Some (data !! k) ->
                      k = "agent_id" \/ k = "status" \/ k = "token")
        /\ store (snd out)
           = with_agents
               (update_where (id_is (ID a))
                  (fun x => set_UpdatedAt now (set_LastSeen (Some now) x))
                  (db_agents (database p))) (database p)
        /\ calls (snd out) = (cs ++ [CallCheckPendingAgent name ip])%list).
Proof.
  intros Hreach. pose proof (reachable_inv p Hreach) as [_ Hkeys]. cbv zeta.
  rewrite CheckStatus_run. cbv zeta. split_and!.
  - by intros ->.
  - intros -> Hnone. unfold services.CheckPendingAgent.
    replace (List.find _ _) with (@None Agent); [done|]. symmetry.
    apply find_none_iff. intros a Ha. apply andb_false_iff.
    destruct (String.eqb_spec (Name a) (cs_Name (gin.Bound ctx))) as [Hn|]; [|by left].
    destruct (String.eqb_spec (IP a) (gin.ClientIP ctx)) as [Hi|]; [|by right].
    by destruct (Hnone a).
  - intros -> (a0 & Ha0 & Hn0 & Hi0). unfold services.CheckPendingAgent.
    match goal with
    | |- context [List.find ?q ?l] => destruct (List.find q l) as [a|] eqn:Hfind
    end.
    2:{ pose proof (proj1 (find_none_iff _ _) Hfind a0 Ha0) as E.
        apply andb_false_iff in E as [E|E]; apply String.eqb_neq in E; done. }
    pose proof (find_sorted_least _ _ a Hkeys Hfind) as Hleast.
    apply find_some in Hfind as [Ha [Hn%String.eqb_eq Hi%String.eqb_eq]%andb_true_iff].
    exists a. simpl.
    assert (forall b,
              In b (db_agents (database p))
              /\ Name b = cs_Name (gin.Bound ctx) /\ IP b = gin.ClientIP ctx ->
              (ID a <= ID b)%N) as Hmin.
    { intros b (Hb & Hbn & Hbi). apply Hleast; [done|].
      apply andb_true_iff. split; by apply String.eqb_eq. }
    destruct (String.eqb_spec (Status a) "pending") as [Hs|Hs]; simpl.
    + eexists. split_and!; try done.
      intros k [v Hk]. destruct (decide (k = "agent_id")) as [|Hk1]; [by left|].
      destruct (decide (k = "status")) as [|Hk2]; [by right; left|].
      by rewrite !lookup_insert_ne in Hk.
    + assert (Token a <> "") as Ht.
      { apply (reachable_token_issued p a Hreach); [|done]. apply in_or_app. by left. }
      destruct (String.eqb_spec (Token a) "") as [|_]; [done|]. simpl.
      eexists. split_and!; try done.
      intros k [v Hk]. destruct (decide (k = "token")) as [|Hk0]; [by right; right|].
      destruct (decide (k = "agent_id")) as [|Hk1]; [by left|].
      destruct (decide (k = "status")) as [|Hk2]; [by right; left|].
      by rewrite !lookup_insert_ne in Hk.
Qed.

Lemma C6_check_status_witness :
  exists data,
    fst (AgentController.CheckStatus
           (gin.mkContext [] "10.0.0.7" {| cs_Name := "worker-1" |} false) 1020
           {| store := database panel_approved; calls := [] |})
    = utils.Success data
    /\ data !! "status" = Some (JStr "online")
    /\ data !! "token" = Some (JStr agent_token).
Proof.
  destruct (C6_check_status panel_approved []
              (gin.mkContext [] "10.0.0.7" {| cs_Name := "worker-1" |} false) 1020)
    as (_ & _ & Hfound).
  - do 2 apply reachable_step. apply reachable_initial. split; reflexivity.
  - destruct Hfound as (a & data & (Ha & _) & _ & Hout & _ & Hstatus & Htoken & _).
    + reflexivity.
    + exists approved_row. split; [left; reflexivity|]. split; reflexivity.
    + destruct Ha as [<-|[]]. exists data. split; [exact Hout|].
      split; [exact Hstatus|]. apply Htoken. discriminate.
Defined.

(** ** Worked examples *)

Lemma served_agents_ok_witness : panel.agents_ok (panel.serve_all session db0).
Proof. apply (served_agents_ok session db0). split; reflexivity. Defined.

Lemma db_approved_NoDup : NoDup (List.map ID (db_agents db_approved)).
Proof. vm_compute. apply NoDup_singleton. Qed.

Lemma Heartbeat_stored_and_returned_witness :
  exists agent d' row,
    services.Heartbeat agent_token "10.0.0.9" "" "" "" "linux" "" 1020 db_approved
      = (inr agent, d')
    /\ services.GetByID 1 d' = Some row
    /\ Version row = "1.0" /\ Version agent = "" /\ OS row = "linux" /\ IP row = "10.0.0.9".
Proof.
  destruct (services.Heartbeat agent_token "10.0.0.9" "" "" "" "linux" "" 1020 db_approved)
    as [[err|agent] d'] eqn:E; [by vm_compute in E|].
  destruct (Heartbeat_stored_and_returned _ _ _ _ _ _ _ _ _ _ _ db_approved_NoDup E)
    as (old & row & Hold & _ & Hrow & _ & _ & _ & Hip & Hv & _ & _ & Hos & _ & _ & _ & _
        & _ & _ & Hva & _).
  assert (ID old = 1%N /\ Version old = "1.0") as [Hid Hvo].
  { vm_compute in Hold. by injection Hold as <-. }
  exists agent, d', row. rewrite Hid in Hrow. simpl in Hv, Hos. rewrite Hvo in Hv.
  by split_and!.
Defined.

Lemma Heartbeat_then_sweep_witness :
  exists agent d' row,
    services.Heartbeat agent_token "10.0.0.9" "" "" "" "linux" "" 1020 db_approved
      = (inr agent, d')
    /\ services.GetByID (ID agent) (services.UpdateOfflineAgents 1140 d') = Some row
    /\ Status row = "online"
    /\ exists row',
         services.GetByID (ID agent) (services.UpdateOfflineAgents 1141 d') = Some row'
         /\ Status row' = "offline".
Proof.
  destruct (services.Heartbeat agent_token "10.0.0.9" "" "" "" "linux" "" 1020 db_approved)
    as [[err|agent] d'] eqn:E; [by vm_compute in E|].
  destruct (Heartbeat_then_sweep _ _ _ _ _ _ _ 1020 1140 _ _ _ db_approved_NoDup E)
    as (row & Hrow & Hs & _).
  destruct (Heartbeat_then_sweep _ _ _ _ _ _ _ 1020 1141 _ _ _ db_approved_NoDup E)
    as (row' & Hrow' & Hs' & _).
  exists agent, d', row. split_and!; [done|done|done|]. by exists row'.
Defined.

Lemma Register_again_witness :
  exists a' d2,
    services.Register worker1 "10.0.0.8" 1005 (Some "UNIQUE constraint failed") db_registered
      = (inr a', d2)
    /\ ID a' = 1%N /\ IP a' = "10.0.0.8"
    /\ List.map ID (db_agents d2) = [1%N].
Proof.
  destruct (services.Register worker1 "10.0.0.7" 1000 None db0) as [r d1] eqn:E.
  assert (exists a, r = inr a /\ ID a = 1%N) as (a & -> & Hid).
  { vm_compute in E. injection E as <- _. eauto. }
  assert (d1 = db_registered) as -> by (unfold db_registered; by rewrite E).
  destruct (Register_again worker1 worker1 "10.0.0.7" "10.0.0.8" 1000 1005 None
              (Some "UNIQUE constraint failed") db0 db_registered a E eq_refl)
    as (a' & d2 & H & Hid' & _ & _ & Hids & _ & _ & _ & Hip & _).
  exists a', d2. rewrite Hids, Hid', Hid. by split_and!.
Defined.

Lemma Approve_then_Heartbeat_witness :
  exists a d1 agent d2,
    services.Approve 1 1010 [] None db_registered = (inr a, d1)
    /\ services.Heartbeat (Token a) "10.0.0.7" "1.0" "" "" "" "" 1020 d1 = (inr agent, d2)
    /\ ID agent = 1%N.
Proof.
  destruct (services.Approve 1 1010 [] None db_registered) as [[err|a] d1] eqn:E;
    [by vm_compute in E|].
  assert (Enabled a = true) as Hen by (vm_compute in E; by injection E as <- _).
  destruct (Approve_then_Heartbeat 1 1010 1020 [] None db_registered d1 a
              "10.0.0.7" "1.0" "" "" "" "" E) as (agent & d2 & H & Hid & _).
  - intros r [<-|[]]. by vm_compute.
  - exact Hen.
  - by exists a, d1, agent, d2.
Defined.

Lemma RegenerateToken_replaces_witness :
  exists token d1,
    services.RegenerateToken 1 1210 [Byte.x01] None db_approved = (inr token, d1)
    /\ services.GetByToken agent_token d1 = None
    /\ exists row, services.GetByToken token d1 = Some row /\ ID row = 1%N.
Proof.
  destruct (services.RegenerateToken 1 1210 [Byte.x01] None db_approved)
    as [[err|token] d1] eqn:E; [by vm_compute in E|].
  destruct (services.GetByID 1 db_approved) as [old|] eqn:Hold; [|by vm_compute in Hold].
  assert (Token old = agent_token) as Htok by (vm_compute in Hold; by injection Hold as <-).
  destruct (RegenerateToken_replaces 1 1210 [Byte.x01] None db_approved d1 token old E Hold)
    as (_ & Hgone & row & Hrow & Hid & _).
  - intros r [<-|[]] _. by vm_compute.
  - intros r [<-|[]]. by vm_compute.
  - exists token, d1. rewrite <- Htok. split_and!; [done|done|]. by exists row.
Defined.

Lemma RegenerateToken_unknown_id_witness :
  controllers.RegenerateToken (route_of "42" tt) 1210 [] None db_approved
    = (controllers.Success
         (controllers.Object (<["token" := JStr (services.generateToken [])]> ∅)),
       db_approved).
Proof.
  apply (RegenerateToken_unknown_id (route_of "42" tt) 1210 [] db_approved 42);
    reflexivity.
Defined.

Lemma disabled_agent_refused_witness :
  exists d1,
    services.Update 1 "worker-1" "" false 1030 db_approved = (None, d1)
    /\ controllers.Heartbeat (bearer agent_token "10.0.0.7" hb_old) 1040 (published "1.1") d1
       = (utils.Unauthorized (utils.Text "Agent 已禁用"), d1)
    /\ controllers.GetTasks (bearer agent_token "10.0.0.7" tt) d1
       = utils.Forbidden (utils.Text "Agent 已禁用").
Proof.
  destruct (services.GetByToken agent_token db_approved) as [a|] eqn:Ha;
    [|by vm_compute in Ha].
  assert (ID a = 1%N) as Hid by (vm_compute in Ha; by injection Ha as <-).
  eexists. split; [reflexivity|].
  destruct (disabled_agent_refused agent_token "worker-1" "" 1030 1040 db_approved
              (snd (services.Update 1 "worker-1" "" false 1030 db_approved)) a
              (bearer agent_token "10.0.0.7" hb_old) (bearer agent_token "10.0.0.7" tt)
              (bearer agent_token "10.0.0.7" (result0 9)) (published "1.1") id_codec)
    as (H1 & H2 & _); try done.
  by rewrite Hid.
Defined.

Lemma force_update_delivered_once_witness :
  exists data1 data2 d1 d2 d3,
    controllers.ForceUpdate (route_of "1" tt) 1030 db_approved
      = (controllers.SuccessMsg "已标记强制更新，Agent 下次心跳时将自动更新", d1)
    /\ controllers.Heartbeat (bearer agent_token "10.0.0.7" hb_old) 1040 (published "1.1") d1
       = (utils.Success data1, d2)
    /\ data1 !! "force_update" = Some (JBool true)
    /\ data1 !! "need_update" = Some (JBool true)
    /\ controllers.Heartbeat (bearer agent_token "10.0.0.7" hb_old) 1050 (published "1.1") d2
       = (utils.Success data2, d3)
    /\ data2 !! "force_update" = Some (JBool false).
Proof.
  destruct (services.GetByToken agent_token db_approved) as [a|] eqn:Ha;
    [|by vm_compute in Ha].
  assert (ID a = 1%N /\ Enabled a = true) as [Hid Hen]
    by (vm_compute in Ha; by injection Ha as <-).
  apply (force_update_delivered_once agent_token db_approved a); try done.
  by rewrite Hid.
Defined.

Lemma CleanTaskLogs_count_witness :
  List.map models.tl_ID
    (db_task_logs (tasks.CleanTaskLogs read_config (fun now days => now + days * 86400) 7
                     2000 db_logs))
    = [2; 4; 5; 6; 7]%N
  /\ tasks.log_ids_desc 7
       (db_task_logs (tasks.CleanTaskLogs read_config (fun now days => now + days * 86400) 7
                        2000 db_logs))
     = [7; 6; 4]%N.
Proof.
  assert (NoDup (List.map models.tl_ID (db_task_logs db_logs))) as Hnd.
  { apply (bool_decide_unpack _). vm_compute. exact I. }
  destruct (CleanTaskLogs_count read_config (fun now days => now + days * 86400) 7 2000
              db_logs keep3 {| tasks.Type_ := "count"; tasks.Keep := 3 |}
              eq_refl ltac:(discriminate) eq_refl eq_refl eq_refl Hnd)
    as (_ & Hids & _).
  split; [by vm_compute|]. rewrite Hids. by vm_compute.
Defined.

Lemma extractEnvName_last_element_witness :
  deps_env.extractEnvName "/opt/conda/envs/py311" = "py311"
  /\ deps_env.extractEnvName "/root/miniconda3" = "base".
Proof.
  destruct (extractEnvName_last_element "/opt/conda/envs" "py311") as (H1 & H2 & _);
    [free_of_literal|].
  destruct (extractEnvName_last_element "/root" "miniconda3") as (H3 & H4 & _);
    [free_of_literal|].
  split.
  - etrans; [exact H1|]. etrans; [exact H2|]. reflexivity.
  - etrans; [exact H3|]. etrans; [exact H4|]. reflexivity.
Defined.

Lemma conda_path_not_remembered_witness :
  deps_env.ListEnvs conda_host_LookPath conda_host_Output conda_host_Unmarshal
    deps_env.NewCondaManager = inl deps_env.ErrNotFound
  /\ deps_env.findCondaPath conda_host_LookPath deps_env.NewCondaManager
     = inr "/opt/conda/bin/conda".
Proof.
  destruct (conda_path_not_remembered conda_host_LookPath conda_host_Output
              conda_host_Output conda_host_Unmarshal deps_env.NewCondaManager
              "py311" "3.11" "py311" "numpy" eq_refl) as (_ & H & _).
  split; [exact H|reflexivity].
Defined.

Lemma ListEnvs_result_witness :
  exists envs,
    deps_env.ListEnvs conda_host_LookPath conda_host_Output conda_host_Unmarshal
      {| deps_env.condaPath := "/opt/conda/bin/conda" |} = inr envs
    /\ List.map deps_env.env_Path envs = ["/opt/conda"; "/opt/conda/envs/py311"]
    /\ List.map deps_env.env_Name envs = ["base"; "py311"].
Proof.
  destruct (deps_env.ListEnvs conda_host_LookPath conda_host_Output conda_host_Unmarshal
              {| deps_env.condaPath := "/opt/conda/bin/conda" |}) as [err|envs] eqn:E;
    [by vm_compute in E|].
  destruct (ListEnvs_result conda_host_LookPath conda_host_Output conda_host_Unmarshal
              {| deps_env.condaPath := "/opt/conda/bin/conda" |} "envs"
              ["/opt/conda"; "/opt/conda/envs/py311"; "/opt/conda/envs/.hidden"] envs
              ltac:(discriminate) eq_refl eq_refl E) as [Hpaths _].
  exists envs. split; [done|]. split; [by rewrite Hpaths|].
  vm_compute in E. by injection E as <-.
Defined.

Lemma conda_base_is_default_witness :
  snd (deps_env.InstallPackage conda_host_LookPath conda_host_Output
         {| deps_env.condaPath := "/opt/conda/bin/conda" |} "base" "numpy")
    = Some ["/opt/conda/bin/conda"; "install"; "-y"; "numpy"]
  /\ deps_env.DeleteEnv conda_host_LookPath conda_host_Output
       {| deps_env.condaPath := "/opt/conda/bin/conda" |} "base" = (None, None).
Proof.
  destruct (conda_base_is_default conda_host_LookPath conda_host_Output conda_host_Output
              {| deps_env.condaPath := "/opt/conda/bin/conda" |} "numpy"
              ltac:(discriminate)) as (_ & _ & H1 & _ & _ & H2).
  by split.
Defined.

Lemma invalid_id_refused_witness :
  controllers.Delete (route_of "1e3" tt) db_approved
    = (controllers.BadRequest "无效的 ID", db_approved)
  /\ controllers.Approve (route_of "4294967296" tt) 1010 [] None db_registered
     = (controllers.BadRequest "无效的 ID", db_registered).
Proof.
  destruct (invalid_id_refused (route_of "1e3" tt)
              (route_of "-1" (controllers.mkUpdateRequest "n" "" true)) 1010 [] None
              db_approved eq_refl eq_refl) as (_ & _ & _ & _ & H1 & _).
  destruct (invalid_id_refused (route_of "4294967296" tt)
              (route_of "" (controllers.mkUpdateRequest "n" "" true)) 1010 [] None
              db_registered eq_refl eq_refl) as (_ & H2 & _).
  by split.
Defined.

Lemma conda_works_after_poll_witness :
  fst (deps_env.GetAvailableRuntimes (H := conda_host)
         (deps_env.NewRuntimeService (H := conda_host))) = ["conda"]
  /\ (deps_env.condaPath <$>
        deps_env.GetManager "conda"
          (snd (deps_env.GetAvailableRuntimes (H := conda_host)
                  (deps_env.NewRuntimeService (H := conda_host)))))
     = Some "/opt/conda/bin/conda".
Proof.
  destruct (conda_works_after_poll conda_host_LookPath conda_host_Output conda_host_Output
              conda_host_Unmarshal "/opt/conda/bin/conda" "envs"
              ["/opt/conda"; "/opt/conda/envs/py311"; "/opt/conda/envs/.hidden"]
              eq_refl ltac:(discriminate) eq_refl eq_refl)
    as (_ & Hnames & cm & envs & Hcm & Hpath & _).
  split; [exact Hnames|]. unfold conda_host. by rewrite Hcm, <- Hpath.
Defined.

Lemma Approve_once_witness :
  services.Approve 1 1010 [] None db_registered = (inr approved_row, db_approved)
  /\ services.Approve 1 1011 [Byte.x01] None db_approved
     = (inl (services.serviceError "Agent 状态不是待审核"), db_approved)
  /\ fst (services.Approve 1 1300 [Byte.x01] None
            (panel.serve_all [panel.OperatorReject (route_of "1" tt)] db_approved))
     = inl (services.serviceError "Agent 不存在").
Proof.
  assert (services.Approve 1 1010 [] None db_registered = (inr approved_row, db_approved))
    as E by (vm_compute; reflexivity).
  assert (panel.agents_ok db_registered) as Hok.
  { apply (serve_ok (panel.AgentRegister (gin.mkContext [] "10.0.0.7" worker1 false)
                       1000 None) db0).
    apply no_agents_ok. split; reflexivity. }
  split; [exact E|].
  destruct (Approve_once 1 1010 1011 [] [Byte.x01] None None db_registered db_approved
              approved_row [panel.OperatorReject (route_of "1" tt)] Hok E)
    as (_ & _ & _ & _ & _ & Hagain & _).
  split; [exact Hagain|].
  destruct (Approve_once 1 1010 1300 [] [Byte.x01] None None db_registered db_approved
              approved_row [panel.OperatorReject (route_of "1" tt)] Hok E)
    as (_ & _ & _ & _ & _ & _ & Hlater).
  cbv zeta in Hlater. rewrite Hlater. reflexivity.
Defined.

Lemma ReportResult_stores_witness :
  exists log d',
    controllers.ReportResult id_codec (bearer agent_token "10.0.0.7" (result0 9)) 1060
      db_approved = (utils.SuccessMsg (utils.Text "上报成功"), d')
    /\ db_task_logs d' = [log]
    /\ models.tl_AgentID log = Some 1%N /\ models.tl_StartTime log = None
    /\ controllers.ReportResult id_codec (bearer agent_token "10.0.0.7" (result0 1)) 1060
         db_approved
       = controllers.ReportResult id_codec (bearer agent_token "10.0.0.7" (result0 9)) 1060
           db_approved
    /\ controllers.ReportResult id_codec
         (json.report 64 [("Authorization", "Bearer " ++ agent_token)] "10.0.0.8"
            (report_body "-1")) 1060 db_approved
       = (utils.BadRequest (utils.Text "参数错误"), db_approved).
Proof.
  destruct (services.GetByToken agent_token db_approved) as [a|] eqn:Ha;
    [|by vm_compute in Ha].
  assert (ID a = 1%N /\ Enabled a = true) as [Hid Hen]
    by (vm_compute in Ha; by injection Ha as <-).
  destruct (ReportResult_stores id_codec (bearer agent_token "10.0.0.7" (result0 9)) 1060
              db_approved agent_token a)
    as ((log & d' & H & Hlogs & _ & Hagent & _ & _ & Hstart & _) & Hsame & _ & Hrefused);
    try done.
  exists log, d'. rewrite Hid in Hagent. split_and!; [done..|].
  apply (Hrefused 64%N "10.0.0.8" _ "agent_id" (json.Number "-1") json.AgentID).
  - right. left. reflexivity.
  - reflexivity.
  - vm_compute. intros Hfit. by apply Hfit.
Defined.
